(** * Daily health-check agents: classification and status escalation

    A shallow embedding of the two report agents of the repository,

      - [postgres-daily-check/scripts/postgres_agent.py] (class [PostgresAgent]),
      - [polardb-daily-check/scripts/polardb_agent.py]   (class [PolarDBCheckAgent]),

    together with the fragment of Python's dynamic semantics they rely on.
    Python values are an inductive type, an uncaught exception is an explicit
    result, the agent object is a record threaded through every method, and the
    standard-library routines the agents call (json, float parsing, number
    formatting) are the fields of a type class. *)

From Stdlib Require Import ZArith QArith Qabs Qround Qpower String Ascii List Lia
  Permutation.
From stdpp Require Import base list strings pretty.

Open Scope string_scope.
Open Scope Z_scope.
Open Scope list_scope.

(** ** Python values and exceptions *)

Module Py.

(** The values [json.loads] can produce.  A [dict] keeps its insertion order and
    is looked up by the first entry of a key; a float is the rational it
    denotes (no NaN and no infinity among the values read).  Arithmetic on
    them is exact in [truediv] and rounded in [Binary64]. *)
#[warnings="-register-all"]
Inductive pyval : Type :=
| PNone
| PBool (b : bool)
| PInt (n : Z)
| PFloat (q : Q)
| PStr (s : string)
| PList (l : list pyval)
| PDict (d : list (string * pyval)).

Inductive exn : Type :=
| KeyError
| IndexError
| TypeError
| AttributeError
| ValueError
| ZeroDivisionError
| OverflowError.

(** What a call does: it returns, or an exception leaves it. *)
Inductive outcome (A : Type) : Type :=
| Returned (a : A)
| Raised (e : exn).
Arguments Returned {A} a.
Arguments Raised {A} e.

#[global] Instance outcome_ret : MRet outcome := fun A a => Returned a.
#[global] Instance outcome_bind : MBind outcome := fun A B f m =>
  match m with
  | Returned a => f a
  | Raised e => Raised e
  end.

Definition returns {A : Type} (m : outcome A) : bool :=
  match m with Returned _ => true | Raised _ => false end.

(** The standard-library behaviour the agents depend on and the repository
    does not define. *)
Inductive json_result : Type :=
| Parsed (v : pyval)
| JSONDecodeError (str_e : string).

Class PyLib : Type := {
  (** [json.loads] *)
  json_loads : string -> json_result;
  (** [json.dumps(v, indent=2, ensure_ascii=...)] *)
  json_dumps : bool -> pyval -> string;
  (** [float(s)] on a string; [None] is [ValueError] *)
  float_of_str : string -> option Q;
  (** [str(x)] of a float *)
  repr_float : Q -> string;
  (** [str(x)] of a list or of a dict *)
  repr_container : pyval -> string;
  (** [format(x, ".nf")] *)
  format_fixed : nat -> Q -> string;
  (** [datetime.now().strftime('%Y-%m-%d %H:%M:%S')] *)
  now : string;
  (** [datetime.now().isoformat()] *)
  now_isoformat : string
}.

(** *** Dictionaries *)

Fixpoint dict_lookup (k : string) (d : list (string * pyval)) : option pyval :=
  match d with
  | [] => None
  | (k', v) :: d' => if String.eqb k k' then Some v else dict_lookup k d'
  end.

(** [d[k] = v]: an existing key keeps its place, a new one goes last. *)
Fixpoint dict_set (k : string) (v : pyval) (d : list (string * pyval))
  : list (string * pyval) :=
  match d with
  | [] => [(k, v)]
  | (k', v') :: d' =>
      if String.eqb k k' then (k, v) :: d' else (k', v') :: dict_set k v d'
  end.

(** [x.get(k, default)] *)
Definition get (x : pyval) (k : string) (default : pyval) : outcome pyval :=
  match x with
  | PDict d => Returned (from_option id default (dict_lookup k d))
  | _ => Raised AttributeError
  end.

(** [x[k]] with a string key *)
Definition getitem (x : pyval) (k : string) : outcome pyval :=
  match x with
  | PDict d =>
      match dict_lookup k d with
      | Some v => Returned v
      | None => Raised KeyError
      end
  | _ => Raised TypeError
  end.

(** The first code point of a UTF-8 string: its first byte and the continuation
    bytes that follow it. *)
Definition is_continuation (c : ascii) : bool :=
  let n := N_of_ascii c in (128 <=? n)%N && (n <? 192)%N.

Fixpoint take_continuation (s : string) : string :=
  match s with
  | String c s' => if is_continuation c then String c (take_continuation s') else ""
  | EmptyString => ""
  end.

Fixpoint code_points (s : string) : Z :=
  match s with
  | String c s' => (if is_continuation c then 0 else 1) + code_points s'
  | EmptyString => 0
  end.

(** [x[0]] *)
Definition getitem0 (x : pyval) : outcome pyval :=
  match x with
  | PList (v :: _) => Returned v
  | PList [] => Raised IndexError
  | PStr (String c s) => Returned (PStr (String c (take_continuation s)))
  | PStr EmptyString => Raised IndexError
  | PDict _ => Raised KeyError
  | _ => Raised TypeError
  end.

(** *** Truth, length, iteration *)

Definition Qeq0 (q : Q) : bool := Z.eqb (Qnum q) 0.

(** [bool(x)] *)
Definition truthy (x : pyval) : bool :=
  match x with
  | PNone => false
  | PBool b => b
  | PInt n => negb (Z.eqb n 0)
  | PFloat q => negb (Qeq0 q)
  | PStr s => negb (String.eqb s "")
  | PList l => match l with [] => false | _ => true end
  | PDict d => match d with [] => false | _ => true end
  end.

(** [len(x)] *)
Definition len (x : pyval) : outcome Z :=
  match x with
  | PStr s => Returned (code_points s)
  | PList l => Returned (Z.of_nat (length l))
  | PDict d => Returned (Z.of_nat (length d))
  | _ => Raised TypeError
  end.

Fixpoint split_code_points (fuel : nat) (s : string) : list pyval :=
  match fuel, s with
  | S fuel', String c s' =>
      let k := take_continuation s' in
      PStr (String c k)
        :: split_code_points fuel' (String.substring (String.length k) (String.length s') s')
  | _, _ => []
  end.

(** The items [for item in x] visits. *)
Definition iter (x : pyval) : outcome (list pyval) :=
  match x with
  | PList l => Returned l
  | PStr s => Returned (split_code_points (String.length s) s)
  | PDict d => Returned (map (fun kv => PStr (fst kv)) d)
  | _ => Raised TypeError
  end.

(** *** Numbers *)

(** The numeric value of an [int], [float] or [bool] operand. *)
Definition number (x : pyval) : option Q :=
  match x with
  | PBool b => Some (inject_Z (if b then 1 else 0))
  | PInt n => Some (inject_Z n)
  | PFloat q => Some q
  | _ => None
  end.

Definition Qltb (x y : Q) : bool := (Qnum x * QDen y <? Qnum y * QDen x)%Z.

(** [float(x)] *)
Definition float {lib : PyLib} (x : pyval) : outcome Q :=
  match x with
  | PStr s =>
      match float_of_str s with
      | Some q => Returned q
      | None => Raised ValueError
      end
  | _ =>
      match number x with
      | Some q => Returned q
      | None => Raised TypeError
      end
  end.

(** [x / y] as the exact quotient: what Python computes when the divisor is
    a power of two and nothing is lost. *)
Definition truediv (x y : pyval) : outcome Q :=
  match number x, number y with
  | Some a, Some b => if Qeq0 b then Raised ZeroDivisionError else Returned (a / b)%Q
  | _, _ => Raised TypeError
  end.

(** [x > y] and [x < y] against a number *)
Definition gt (x : pyval) (y : Q) : outcome bool :=
  match number x with
  | Some a => Returned (Qltb y a)
  | None => Raised TypeError
  end.

Definition lt (x : pyval) (y : Q) : outcome bool :=
  match number x with
  | Some a => Returned (Qltb a y)
  | None => Raised TypeError
  end.

(** *** Floating point

    A Python [float] is an IEEE 754 double, and [/] and [*] give the exact
    result rounded to the nearest double, ties to the even one.  An [int]
    divided by an [int] is rounded once, from the exact quotient; an [int]
    beside a [float] is converted first.  A result beyond the largest double
    is an infinity, except that converting an [int] and dividing two of them
    raise [OverflowError]. *)

Module Binary64.

Inductive float64 : Type :=
| Finite (q : Q)
| NegativeZero
| Infinity (negative : bool)
| NaN.

(** [n / d] rounded to the nearest integer, ties to the even one. *)
Definition nearest_even (n d : Z) : Z :=
  let f := n / d in
  let r := n mod d in
  if 2 * r <? d then f
  else if d <? 2 * r then f + 1
  else if Z.even f then f else f + 1.

(** [(n / d) / 2 ^ e] as a fraction. *)
Definition scaled (n d e : Z) : Z * Z :=
  if 0 <=? e then (n, d * 2 ^ e) else (n * 2 ^ (- e), d).

(** The exponent of the last of the 53 bits that hold [n / d]: the [e] with
    [2 ^ 52 <= (n / d) / 2 ^ e < 2 ^ 53], and [-1074] below the normal range. *)
Definition last_bit (n d : Z) : Z :=
  let e := Z.log2 n - Z.log2 d - 52 in
  let '(n', d') := scaled n d e in
  Z.max (if n' <? 2 ^ 52 * d' then e - 1 else e) (- 1074).

(** The double nearest to [n / d] for positive [n] and [d]; [None] when it is
    beyond the largest double. *)
Definition nearest (n d : Z) : option Q :=
  let e := last_bit n d in
  let '(n', d') := scaled n d e in
  let m := nearest_even n' d' in
  if 0 <=? e
  then if 2 ^ 1024 <=? m * 2 ^ e then None else Some (inject_Z (m * 2 ^ e))
  else Some (Qmake m (Z.to_pos (2 ^ (- e)))).

(** The exact [q] as a double. *)
Definition round (q : Q) : float64 :=
  match Qnum q with
  | Z0 => Finite 0
  | Zpos n =>
      match nearest (Zpos n) (Zpos (Qden q)) with
      | Some v => Finite v
      | None => Infinity false
      end
  | Zneg n =>
      match nearest (Zpos n) (Zpos (Qden q)) with
      | Some v => if Qnum v =? 0 then NegativeZero else Finite (- v)
      | None => Infinity true
      end
  end.

Definition negative (x : float64) : bool :=
  match x with
  | Finite q => Qltb q 0
  | NegativeZero => true
  | Infinity s => s
  | NaN => false
  end.

Definition is_zero (x : float64) : bool :=
  match x with
  | Finite q => Qeq0 q
  | NegativeZero => true
  | _ => false
  end.

(** An [int] operand, [bool] included. *)
Definition integer (x : pyval) : option Z :=
  match x with
  | PBool b => Some (if b then 1 else 0)
  | PInt n => Some n
  | _ => None
  end.

(** The operand of a float operation. *)
Definition operand (x : pyval) : outcome Q :=
  match x with
  | PFloat q => Returned q
  | _ =>
      match integer x with
      | Some n =>
          match round (inject_Z n) with
          | Finite q => Returned q
          | _ => Raised OverflowError
          end
      | None => Raised TypeError
      end
  end.

(** [a / b] for a divisor other than zero; a zero has the sign of the
    operands. *)
Definition quotient (a b : Q) : float64 :=
  if Qeq0 a then (if Qltb b 0 then NegativeZero else Finite 0)
  else round (a / b).

(** [x / y] *)
Definition truediv (x y : pyval) : outcome float64 :=
  match number x, number y with
  | Some _, Some _ =>
      match integer x, integer y with
      | Some a, Some b =>
          if b =? 0 then Raised ZeroDivisionError
          else match quotient (inject_Z a) (inject_Z b) with
               | Infinity _ => Raised OverflowError
               | r => Returned r
               end
      | _, _ =>
          a ← operand x;
          b ← operand y;
          if Qeq0 b then Raised ZeroDivisionError else Returned (quotient a b)
      end
  | _, _ => Raised TypeError
  end.

(** [x * y] *)
Definition mul (x y : float64) : float64 :=
  match x, y with
  | NaN, _ | _, NaN => NaN
  | Finite a, Finite b =>
      if Qeq0 a || Qeq0 b
      then (if xorb (negative x) (negative y) then NegativeZero else Finite 0)
      else round (a * b)
  | _, _ =>
      if is_zero x || is_zero y
      then match x, y with
           | Infinity _, _ | _, Infinity _ => NaN
           | _, _ => if xorb (negative x) (negative y) then NegativeZero else Finite 0
           end
      else Infinity (xorb (negative x) (negative y))
  end.

(** [x > k] against an [int] *)
Definition gt (x : float64) (k : Q) : bool :=
  match x with
  | Finite q => Qltb k q
  | NegativeZero => Qltb k 0
  | Infinity s => negb s
  | NaN => false
  end.

(** [format(x, ".nf")] *)
Definition format {lib : PyLib} (n : nat) (x : float64) : string :=
  match x with
  | Finite q => format_fixed n q
  | NegativeZero => "-" +:+ format_fixed n 0
  | Infinity false => "inf"
  | Infinity true => "-inf"
  | NaN => "nan"
  end.

End Binary64.

(** *** Strings *)

Definition eq_str (x : pyval) (s : string) : bool :=
  match x with
  | PStr s' => String.eqb s' s
  | _ => false
  end.

Fixpoint contains (needle hay : string) : bool :=
  String.prefix needle hay
  || match hay with
     | String _ hay' => contains needle hay'
     | EmptyString => false
     end.

(** [needle in x] for a string [needle] *)
Definition contains_str (needle : string) (x : pyval) : outcome bool :=
  match x with
  | PStr s => Returned (contains needle s)
  | PList l => Returned (existsb (fun v => eq_str v needle) l)
  | PDict d => Returned (existsb (fun kv => String.eqb (fst kv) needle) d)
  | _ => Raised TypeError
  end.

(** [str(x)], which is also what an f-string field without a format does. *)
Definition str {lib : PyLib} (x : pyval) : string :=
  match x with
  | PNone => "None"
  | PBool true => "True"
  | PBool false => "False"
  | PInt n => pretty n
  | PFloat q => repr_float q
  | PStr s => s
  | _ => repr_container x
  end.

(** [format(x, ".nf")]: defined on numbers only. *)
Definition fixed {lib : PyLib} (digits : nat) (x : pyval) : outcome string :=
  match x with
  | PStr _ => Raised ValueError
  | _ =>
      match number x with
      | Some q => Returned (format_fixed digits q)
      | None => Raised TypeError
      end
  end.

(** [s.strip()]: the white space of [str.isspace], in UTF-8. *)
Definition bytes (l : list N) : string :=
  fold_right (fun n s => String (ascii_of_N n) s) "" l.

Definition whitespace : list string :=
  map bytes
    [ [9]; [10]; [11]; [12]; [13]; [28]; [29]; [30]; [31]; [32];
      [194; 133]; [194; 160]; [225; 154; 128];
      [226; 128; 128]; [226; 128; 129]; [226; 128; 130]; [226; 128; 131];
      [226; 128; 132]; [226; 128; 133]; [226; 128; 134]; [226; 128; 135];
      [226; 128; 136]; [226; 128; 137]; [226; 128; 138];
      [226; 128; 168]; [226; 128; 169]; [226; 128; 175];
      [226; 129; 159]; [227; 128; 128] ]%N.

Definition drop_prefix (p s : string) : option string :=
  if String.prefix p s
  then Some (String.substring (String.length p) (String.length s - String.length p) s)
  else None.

Fixpoint drop_any_prefix (ps : list string) (s : string) : option string :=
  match ps with
  | [] => None
  | p :: ps' =>
      match drop_prefix p s with
      | Some s' => Some s'
      | None => drop_any_prefix ps' s
      end
  end.

Fixpoint lstrip_with (ps : list string) (fuel : nat) (s : string) : string :=
  match fuel with
  | O => s
  | S fuel' =>
      match drop_any_prefix ps s with
      | Some s' => lstrip_with ps fuel' s'
      | None => s
      end
  end.

Definition lstrip (s : string) : string :=
  lstrip_with whitespace (String.length s) s.

Definition rstrip (s : string) : string :=
  String.rev (lstrip_with (map String.rev whitespace) (String.length s) (String.rev s)).

Definition strip (s : string) : string := rstrip (lstrip s).

(** *** The external check script *)

(** What [subprocess.run(command, ...)] does: the process completes, the time
    limit passes, or another exception is raised ([str_e] is its [str(e)]). *)
Inductive process : Type :=
| CompletedProcess (returncode : Z) (stdout stderr : string)
| TimeoutExpired
| OtherException (str_e : string).

Class World : Type := {
  subprocess_run : list string -> process
}.

(** [str(e)] of [subprocess.TimeoutExpired] *)
Definition str_TimeoutExpired {lib : PyLib} (cmd : list string) (timeout : Z) : string :=
  "Command '" +:+ repr_container (PList (map PStr cmd))
    +:+ "' timed out after " +:+ pretty timeout +:+ " seconds".

Definition nl : string := String (ascii_of_N 10) "".

(** ["\n".join(lines)] *)
Fixpoint join_lines (lines : list string) : string :=
  match lines with
  | [] => ""
  | [l] => l
  | l :: ls => l +:+ nl +:+ join_lines ls
  end.

End Py.

Import Py.

(** ** postgres_agent.py *)

Module Postgres.

(** [self]: the report lines, the overall status and the raw results. *)
Record PostgresAgent : Type := {
  executor_script : string;
  report : list string;
  report_status : string;
  raw_results : list (string * pyval)
}.

(** [PostgresAgent.__init__] *)
Definition __init__ (script_path : string) : PostgresAgent :=
  {| executor_script := script_path;
     report := [];
     report_status := "✅ OK";
     raw_results := [] |}.

(** [self.report = lines] and [self.report_status = status], the other
    attributes kept. *)
Definition with_report (lines : list string) (self : PostgresAgent) : PostgresAgent :=
  {| executor_script := executor_script self;
     report := lines;
     report_status := report_status self;
     raw_results := raw_results self |}.

Definition with_report_status (status : string) (self : PostgresAgent) : PostgresAgent :=
  {| executor_script := executor_script self;
     report := report self;
     report_status := status;
     raw_results := raw_results self |}.

(** A method body: it reads and updates [self], and may raise. *)
Definition M (A : Type) : Type := PostgresAgent -> outcome (A * PostgresAgent).

#[global] Instance M_ret : MRet M := fun A a self => Returned (a, self).
#[global] Instance M_bind : MBind M := fun A B f m self =>
  match m self with
  | Returned (a, self') => f a self'
  | Raised e => Raised e
  end.

Definition lift {A : Type} (m : outcome A) : M A := fun self =>
  match m with
  | Returned a => Returned (a, self)
  | Raised e => Raised e
  end.

(** [self.report.append(line)] *)
Definition append (line : string) : M unit := fun self =>
  Returned (tt, with_report (report self ++ [line]) self).

(** [len(self.report)] *)
Definition report_len : M Z := fun self =>
  Returned (Z.of_nat (length (report self)), self).

(** [self.report[i] = line]: a negative index counts from the end, an index
    outside the list is an [IndexError]. *)
Definition setitem (i : Z) (line : string) : M unit := fun self =>
  let n := Z.of_nat (length (report self)) in
  let j := if i <? 0 then i + n else i in
  if (0 <=? j) && (j <? n)
  then Returned (tt, with_report (<[Z.to_nat j := line]> (report self)) self)
  else Raised IndexError.

(** A [for] loop whose body updates one local variable. *)
Fixpoint for_each {A : Type} (items : list pyval) (body : A -> pyval -> M A) (a : A)
  : M A :=
  match items with
  | [] => mret a
  | x :: items' => a' ← body a x; for_each items' body a'
  end.

Definition _bytes_to_human_readable_loop {lib : PyLib} : list string -> Q -> string :=
  fix loop (units : list string) (num_bytes : Q) : string :=
    match units with
    | [] => format_fixed 2 num_bytes +:+ " PB"
    | unit :: units' =>
        if Qltb (Qabs num_bytes) 1024
        then format_fixed 2 num_bytes +:+ " " +:+ unit
        else loop units' (num_bytes / 1024)%Q
    end.

Definition _bytes_to_human_readable {lib : PyLib} (num_bytes : pyval) : outcome string :=
  match num_bytes with
  | PNone => Returned "N/A"
  | _ =>
      q ← float num_bytes;
      Returned (_bytes_to_human_readable_loop ["bytes"; "KB"; "MB"; "GB"; "TB"] q)
  end.

(** [_run_skill(skill_name)], with [params] left at [None].  An exception of
    [os.access] or [os.chmod] is one of the other exceptions of the world. *)
Definition _run_skill {lib : PyLib} {world : World} (self : PostgresAgent) (skill_name : string)
  : pyval :=
  let command := [executor_script self; skill_name] in
  match subprocess_run command with
  | CompletedProcess returncode stdout stderr =>
      if negb (returncode =? 0) then
        if contains "does not exist" stderr then
          PDict [("skill", PStr skill_name);
                 ("status", PStr "success");
                 ("data", PList []);
                 ("notes", PStr ("view or table does not exist: " +:+ stderr))]
        else
          PDict [("skill", PStr skill_name);
                 ("status", PStr "fail");
                 ("data", PStr ("Script execution failed with code "
                                +:+ pretty returncode +:+ ": " +:+ stderr))]
      else if String.eqb (strip stdout) "" then
        PDict [("skill", PStr skill_name); ("status", PStr "success"); ("data", PList [])]
      else
        match json_loads stdout with
        | Parsed v => v
        | JSONDecodeError e =>
            PDict [("skill", PStr skill_name);
                   ("status", PStr "fail");
                   ("data", PStr ("Failed to parse JSON output: " +:+ e
                                  +:+ ". Raw output: " +:+ stdout))]
        end
  | TimeoutExpired =>
      PDict [("skill", PStr skill_name);
             ("status", PStr "fail");
             ("data", PStr ("An unexpected error occurred: "
                            +:+ str_TimeoutExpired command 900))]
  | OtherException e =>
      PDict [("skill", PStr skill_name);
             ("status", PStr "fail");
             ("data", PStr ("An unexpected error occurred: " +:+ e))]
  end.

(** [_update_status(new_status)] *)
Definition _update_status (new_status : string) : M unit := fun self =>
  if String.eqb new_status "❌ ERROR" then
    Returned (tt, with_report_status "❌ ERROR" self)
  else if String.eqb new_status "🟠 WARNING"
          && negb (String.eqb (report_status self) "❌ ERROR") then
    Returned (tt, with_report_status "🟠 WARNING" self)
  else Returned (tt, self).

(** The branches of the [if]/[elif] chain of [_analyze_and_report] that this
    development does not transcribe (the chain tests [skill] against pairwise
    different names, so the order of its branches is immaterial). *)
Class RestOfChain : Type := {
  remaining_branches : pyval -> pyval -> pyval -> pyval -> M unit
}.

Section AnalyzeAndReport.
Context {lib : PyLib} {rest : RestOfChain}.

(** [elif skill == "get_blocking_locks"]; first the body of its loop. *)
Definition blocking_lock (_ : unit) (lock : pyval) : M unit :=
  waiting ← lift (getitem lock "waiting_pid");
  blocking ← lift (getitem lock "blocking_pid");
  append ("- **Waiting PID:** " +:+ str waiting
          +:+ " is blocked by **Blocking PID:** " +:+ str blocking +:+ ".").

Definition branch_get_blocking_locks (data : pyval) : M unit :=
  if truthy data then
    append "### ❌ ERROR: Blocking Locks Detected";;
    n ← lift (len data);
    append ("Found " +:+ pretty n +:+ " blocking lock situations.");;
    items ← lift (iter data);
    for_each items blocking_lock tt;;
    _update_status "❌ ERROR"
  else
    append "### ✅ OK: No Blocking Locks".

(** [elif skill == "get_table_bloat" or skill == "get_index_bloat"]; first the
    body of its loop. *)
Definition bloat_item (has_bloat_warning : bool) (item : pyval) : M bool :=
  bloat_pct ← lift (get item "bloat_percentage" (PInt 0) ≫= float);
  wasted_bytes ← lift (get item "wasted_bytes" (PInt 0) ≫= float);
  total_bytes ← lift (get item "total_bytes" (PInt 0) ≫= float);
  let has_bloat_warning :=
    (* 20% bloat and > 100MB wasted *)
    if Qltb 20 bloat_pct && Qltb (inject_Z (100 * 1024 ^ 2)) wasted_bytes
    then true else has_bloat_warning in
  schemaname ← lift (get item "schemaname" (PStr "N/A"));
  index_name ← lift (get item "index_name" (PStr "N/A"));
  tablename ← lift (get item "tablename" index_name);
  total ← lift (_bytes_to_human_readable (PFloat total_bytes));
  wasted ← lift (_bytes_to_human_readable (PFloat wasted_bytes));
  append ("| " +:+ str schemaname +:+ " | `" +:+ str tablename +:+ "` | "
          +:+ total +:+ " | " +:+ format_fixed 2 bloat_pct +:+ "% | "
          +:+ wasted +:+ " |");;
  mret has_bloat_warning.

Definition branch_bloat (skill data : pyval) : M unit :=
  let obj_type := if eq_str skill "get_table_bloat" then "Table" else "Index" in
  let obj_type_lower := if eq_str skill "get_table_bloat" then "table" else "index" in
  append ("### 🟡 INFO: Top 10 Bloated " +:+ obj_type +:+ "s");;
  if truthy data then
    append ("| Schema | " +:+ obj_type
            +:+ " Name | Total Size | Bloat % | Wasted Space |");;
    append "|---|---|---|---|---|";;
    items ← lift (iter data);
    has_bloat_warning ← for_each items bloat_item false;
    if (has_bloat_warning : bool) then
      (* Adjust the previous INFO header to WARNING *)
      n ← report_len;
      k ← lift (len data);
      setitem (n - k - 2)
        ("### 🟠 WARNING: Significant " +:+ obj_type +:+ " Bloat Detected");;
      _update_status "🟠 WARNING"
    else mret tt
  else
    append ("No significant " +:+ obj_type_lower
            +:+ " bloat detected (or objects are too small/new to check).").

(** [elif skill == "get_connection_usage"] *)
Definition branch_get_connection_usage (data : pyval) : M unit :=
  if truthy data then
    used ← lift (getitem0 data ≫= fun row => getitem row "used_connections");
    max_conn ← lift (getitem0 data ≫= fun row => getitem row "max_connections");
    ratio ← lift (Binary64.truediv used max_conn);
    let usage_percent := Binary64.mul ratio (Binary64.Finite 100) in
    (if Binary64.gt usage_percent 95 then
       append ("### ❌ ERROR: High Connection Usage ("
               +:+ Binary64.format 1 usage_percent +:+ "%)");;
       _update_status "❌ ERROR"
     else if Binary64.gt usage_percent 80 then
       append ("### 🟠 WARNING: High Connection Usage ("
               +:+ Binary64.format 1 usage_percent +:+ "%)");;
       _update_status "🟠 WARNING"
     else
       append ("### ✅ OK: Connection Usage ("
               +:+ Binary64.format 1 usage_percent +:+ "%)"));;
    append ("Current active connections: " +:+ str used +:+ " / " +:+ str max_conn)
  else
    append "### 🟡 INFO: Connection Usage".

(** [elif skill == "get_replication_slots"]; first the body of its loop. *)
Definition replication_slot (has_issue : bool) (slot : pyval) : M bool :=
  active ← lift (getitem slot "active");
  if negb (truthy active) then
    lag_bytes ← lift (getitem slot "restart_lsn_lag_bytes");
    lag_gb ← lift (truediv lag_bytes (PInt (1024 ^ 3)));
    slot_name ← lift (getitem slot "slot_name");
    append ("- **" +:+ str slot_name
            +:+ "**: ❌ **ERROR** - Slot is INACTIVE, holding back WAL logs by "
            +:+ format_fixed 2 lag_gb +:+ " GB.");;
    _update_status "❌ ERROR";;
    mret true
  else mret has_issue.

Definition branch_get_replication_slots (result data notes : pyval) : M unit :=
  append "### 🟡 INFO: Replication Slots Status";;
  result_notes ← lift (get result "notes" PNone);
  if negb (truthy data) && negb (eq_str result_notes "view or table does not exist") then
    append "No replication slots found."
  else if truthy data then
    items ← lift (iter data);
    has_issue ← for_each items replication_slot false;
    if negb (has_issue : bool) then append "All replication slots are active." else mret tt
  else
    missing ← lift (contains_str "does not exist" notes);
    if (missing : bool) then
      append "Replication slots are not applicable or view does not exist."
    else mret tt.

(** [elif skill == "get_replication_status"]; first the body of its loop. *)
Definition replica_item (has_lag : bool) (replica : pyval) : M bool :=
  lag_bytes ← lift (get replica "replay_lag_bytes" (PInt 0));
  lag_mb ← lift (truediv lag_bytes (PInt (1024 ^ 2)));
  client_addr ← lift (get replica "client_addr" (PStr "N/A"));
  state ← lift (get replica "state" PNone);
  append ("- **Replica:** `" +:+ str client_addr +:+ "`, **State:** `"
          +:+ str state +:+ "`, **Replay Lag:** `"
          +:+ format_fixed 2 lag_mb +:+ " MB`");;
  if Qltb 1024 lag_mb then       (* Threshold: 1 GB *)
    _update_status "❌ ERROR";; mret true
  else if Qltb 100 lag_mb then   (* Threshold: 100 MB *)
    _update_status "🟠 WARNING";; mret true
  else mret has_lag.

Definition branch_get_replication_status (data : pyval) : M unit :=
  append "### 🟡 INFO: Replication Status";;
  if negb (truthy data) then
    append "No active replicas found (normal for a standalone instance)."
  else
    items ← lift (iter data);
    has_lag ← for_each items replica_item false;
    if (has_lag : bool) then
      k ← lift (len data);
      setitem (- k - 1) "### 🟠 WARNING: Replication Lag Detected"
    else mret tt.

(** [_analyze_and_report(result)] *)
Definition _analyze_and_report (result : pyval) : M unit :=
  skill ← lift (get result "skill" (PStr "unknown_skill"));
  status ← lift (get result "status" (PStr "fail"));
  data ← lift (get result "data" (PList []));
  notes ← lift (get result "notes" (PStr ""));
  if negb (eq_str status "success") then
    append ("### ❌ Skill Failed: `" +:+ str skill +:+ "`");;
    append ("Error details: `" +:+ str data +:+ "`");;
    _update_status "❌ ERROR"
  else if eq_str skill "get_blocking_locks" then
    branch_get_blocking_locks data
  else if eq_str skill "get_table_bloat" || eq_str skill "get_index_bloat" then
    branch_bloat skill data
  else if eq_str skill "get_connection_usage" then
    branch_get_connection_usage data
  else if eq_str skill "get_replication_slots" then
    branch_get_replication_slots result data notes
  else if eq_str skill "get_replication_status" then
    branch_get_replication_status data
  else
    remaining_branches result skill data notes.

End AnalyzeAndReport.

(** The checklist of [run_checks], in its order. *)
Definition checklist : list string :=
  [ "get_invalid_indexes"; "get_xid_wraparound_risk"; "get_multixid_wraparound_risk";
    "get_freeze_prediction"; "get_blocking_locks";
    "get_long_running_prepared_transactions"; "get_long_running_transactions";
    "get_critical_settings"; "get_sequence_exhaustion"; "get_replication_slots";
    "get_wal_archiver_status"; "get_logical_replication_status";
    "get_replication_status"; "get_wait_events"; "get_long_running_queries";
    "get_idle_in_transaction_sessions"; "get_connection_usage"; "get_cache_hit_rate";
    "get_rollback_rate"; "get_top_sql_by_time"; "get_stale_statistics";
    "get_large_unused_indexes"; "get_autovacuum_status"; "get_bgwriter_stats";
    "get_temp_file_usage"; "get_total_temp_bytes"; "get_io_statistics";
    "get_io_statistics_v2"; "get_analyze_progress"; "get_create_index_progress";
    "get_cluster_progress"; "get_wal_statistics"; "get_checkpointer_stats";
    "get_checkpointer_write_sync_time"; "get_slru_stats";
    "get_database_conflict_stats"; "get_user_function_stats";
    "get_deadlock_detection"; "get_lock_waiters"; "get_connection_security_status";
    "get_table_hotspots"; "get_top_objects_by_size"; "get_table_bloat";
    "get_index_bloat"; "get_database_sizes" ].

Definition separator : string := nl +:+ "---" +:+ nl.

(** The two files [generate_report] writes. *)
Record artifacts : Type := {
  daily_health_report : string;
  daily_health_raw_data : string
}.

Section RunChecks.
Context {lib : PyLib} {world : World} {rest : RestOfChain}.

(** [self.raw_results[skill] = result] *)
Definition store_raw (skill : string) (result : pyval) : M unit := fun self =>
  Returned (tt, {| executor_script := executor_script self;
                   report := report self;
                   report_status := report_status self;
                   raw_results := dict_set skill result (raw_results self) |}).

(** The body of the loop of [run_checks]. *)
Definition call_run_skill (skill : string) : M pyval := fun self =>
  Returned (_run_skill self skill, self).

Definition run_one (skill : string) : M unit :=
  result ← call_run_skill skill;
  store_raw skill result;;
  _analyze_and_report result;;
  append separator.

Fixpoint run_list (skills : list string) : M unit :=
  match skills with
  | [] => mret tt
  | skill :: skills' => run_one skill;; run_list skills'
  end.

(** [while self.report and self.report[-1] == "\n---\n": self.report.pop()] *)
Fixpoint pop_separators (fuel : nat) (lines : list string) : list string :=
  match fuel with
  | O => lines
  | S fuel' =>
      match last lines with
      | Some line =>
          if String.eqb line separator
          then pop_separators fuel' (removelast lines)
          else lines
      | None => lines
      end
  end.

(** [generate_report()] *)
Definition generate_report : M artifacts := fun self =>
  let report_title := "# PostgreSQL Health Report - " +:+ now in
  let overall_status := "## Overall Status: " +:+ report_status self in
  let lines := pop_separators (length (report self)) (report self) in
  let report_content := join_lines (report_title :: overall_status :: lines) in
  let raw_data :=
    PDict [("generated_at", PStr now_isoformat);
           ("overall_status", PStr (report_status self));
           ("results", PDict (raw_results self))] in
  Returned ({| daily_health_report := report_content;
               daily_health_raw_data := json_dumps false raw_data |},
            with_report lines self).

(** [run_checks()] *)
Definition run_checks : M artifacts :=
  run_list checklist;;
  generate_report.

(** The script run as a program: [agent = PostgresAgent(); agent.run_checks()].
    There is no [sys.exit]; the interpreter ends with 0, or with 1 when an
    exception was not caught. *)
Definition main (script_path : string) : Z :=
  match run_checks (__init__ script_path) with
  | Returned _ => 0
  | Raised _ => 1
  end.

End RunChecks.

End Postgres.

(** ** polardb_agent.py *)

Module PolarDB.

(** An entry of [self.issues] or of [self.warnings]: a dict with these four keys. *)
Record Finding : Type := {
  type : string;
  check : string;
  message : string;
  recommendation : string
}.

Record PolarDBCheckAgent : Type := {
  check_script : string;
  results : list (string * pyval);
  issues : list Finding;
  warnings : list Finding
}.

(** [PolarDBCheckAgent.__init__]; the configuration file it reads is not used
    by any check. *)
Definition __init__ (script_path : string) : PolarDBCheckAgent :=
  {| check_script := script_path; results := []; issues := []; warnings := [] |}.

Definition M (A : Type) : Type := PolarDBCheckAgent -> outcome (A * PolarDBCheckAgent).

#[global] Instance M_ret : MRet M := fun A a self => Returned (a, self).
#[global] Instance M_bind : MBind M := fun A B f m self =>
  match m self with
  | Returned (a, self') => f a self'
  | Raised e => Raised e
  end.

Definition lift {A : Type} (m : outcome A) : M A := fun self =>
  match m with
  | Returned a => Returned (a, self)
  | Raised e => Raised e
  end.

(** [self.results[k] = v] *)
Definition set_result (k : string) (v : pyval) : M unit := fun self =>
  Returned (tt, {| check_script := check_script self;
                   results := dict_set k v (results self);
                   issues := issues self;
                   warnings := warnings self |}).

(** [self.issues.append(f)] *)
Definition issues_append (f : Finding) : M unit := fun self =>
  Returned (tt, {| check_script := check_script self;
                   results := results self;
                   issues := issues self ++ [f];
                   warnings := warnings self |}).

(** [self.warnings.append(f)] *)
Definition warnings_append (f : Finding) : M unit := fun self =>
  Returned (tt, {| check_script := check_script self;
                   results := results self;
                   issues := issues self;
                   warnings := warnings self ++ [f] |}).

(** [run_check(check_name)] *)
Definition run_check {lib : PyLib} {world : World} (self : PolarDBCheckAgent) (check_name : string)
  : pyval :=
  match subprocess_run [check_script self; check_name] with
  | CompletedProcess _ stdout stderr =>
      let output := strip stdout in
      let output := if String.eqb output "" then strip stderr else output in
      (* Try to parse JSON *)
      match json_loads output with
      | Parsed data => data
      | JSONDecodeError _ =>
          PDict [("skill", PStr check_name);
                 ("status", PStr "unknown");
                 ("raw_output", PStr output)]
      end
  | TimeoutExpired =>
      PDict [("skill", PStr check_name);
             ("status", PStr "timeout");
             ("message", PStr "Check timed out after 60 seconds")]
  | OtherException e =>
      PDict [("skill", PStr check_name); ("status", PStr "error"); ("message", PStr e)]
  end.

Definition polardb_core_checks : list string :=
  [ "get_polar_node_type"; "get_logindex_status"; "get_pfs_usage";
    "get_polar_process_status"; "get_polar_activity" ].

Definition htap_checks : list string :=
  [ "get_px_workers_status"; "get_px_query_stats"; "get_px_nodes";
    "get_buffer_pool_affinity" ].

Definition storage_checks : list string :=
  [ "get_shared_storage_stats"; "get_polar_io_stats"; "get_dirty_page_status" ].

Definition ha_checks : list string :=
  [ "get_primary_readonly_sync"; "get_online_promote_status"; "get_recovery_progress" ].

Definition pg_checks : list string :=
  [ "get_connection_usage"; "get_cache_hit_rate"; "get_long_running_queries";
    "get_idle_in_transaction_sessions"; "get_replication_status";
    "get_replication_slots"; "get_autovacuum_status"; "get_wal_archiver_status" ].

Section RunAllChecks.
Context {lib : PyLib} {world : World}.

(** [for check in checks: self.results[check] = self.run_check(check)] *)
Definition call_run_check (check : string) : M pyval := fun self =>
  Returned (run_check self check, self).

Fixpoint run_group (checks : list string) : M unit :=
  match checks with
  | [] => mret tt
  | check :: checks' =>
      result ← call_run_check check;
      set_result check result;;
      run_group checks'
  end.

(** [run_all_checks()] *)
Definition run_all_checks : M unit :=
  run_group polardb_core_checks;;
  run_group htap_checks;;
  run_group storage_checks;;
  run_group ha_checks;;
  run_group pg_checks.

End RunAllChecks.

(** The test every block opens with,
    [data.get("status") == "success" and data.get("data")], followed by
    [data["data"][0] if data["data"] else {}].  [None] when the test fails. *)
Definition first_row (data : pyval) : outcome (option pyval) :=
  status ← get data "status" PNone;
  if eq_str status "success" then
    rows ← get data "data" PNone;
    if truthy rows then
      rows ← getitem data "data";
      if truthy rows then row ← getitem0 rows; Returned (Some row)
      else Returned (Some (PDict []))
    else Returned None
  else Returned None.

Section AnalyzeResults.
Context {lib : PyLib}.

(** [if name in self.results: data = self.results[name]; ...] *)
Definition when_present (name : string) (body : pyval -> M unit) : M unit := fun self =>
  match dict_lookup name (results self) with
  | Some data => body data self
  | None => Returned (tt, self)
  end.

Definition analyze_polar_node_type : M unit :=
  when_present "get_polar_node_type" (fun data =>
    row ← lift (first_row data);
    match row with
    | Some node_info => set_result "node_info" node_info
    | None => mret tt
    end).

Definition analyze_logindex_status : M unit :=
  when_present "get_logindex_status" (fun data =>
    row ← lift (first_row data);
    match row with
    | Some lag_info =>
        lag_bytes ← lift (get lag_info "lag_bytes" (PInt 0));
        lag_mb ← lift (get lag_info "lag_mb" (PInt 0));
        critical ← lift (gt lag_bytes (inject_Z 1073741824));   (* > 1GB *)
        if (critical : bool) then
          issues_append
            {| type := "critical";
               check := "get_logindex_status";
               message := "LogIndex replay lag is critical: " +:+ str lag_mb +:+ "MB";
               recommendation := "Check storage I/O performance and network bandwidth between compute and storage nodes" |}
        else
          elevated ← lift (gt lag_bytes (inject_Z 104857600));   (* > 100MB *)
          if (elevated : bool) then
            warnings_append
              {| type := "warning";
                 check := "get_logindex_status";
                 message := "LogIndex replay lag is elevated: " +:+ str lag_mb +:+ "MB";
                 recommendation := "Monitor storage I/O performance" |}
          else mret tt
    | None => mret tt
    end).

Definition analyze_pfs_usage : M unit :=
  when_present "get_pfs_usage" (fun data =>
    _ ← lift (first_row data);
    mret tt).

Definition analyze_connection_usage : M unit :=
  when_present "get_connection_usage" (fun data =>
    row ← lift (first_row data);
    match row with
    | Some conn_info =>
        current ← lift (get conn_info "current_connections" (PInt 0));
        max_conn ← lift (get conn_info "max_connections" (PInt 100));
        positive ← lift (gt max_conn 0);
        usage_pct ← (if (positive : bool)
                     then lift (Binary64.truediv current max_conn ≫= fun r =>
                                Returned (Binary64.mul r (Binary64.Finite 100)))
                     else mret (Binary64.Finite 0));
        if Binary64.gt usage_pct 95 then
          issues_append
            {| type := "critical";
               check := "get_connection_usage";
               message := "Connection usage is critical: " +:+ str current +:+ "/"
                          +:+ str max_conn +:+ " (" +:+ Binary64.format 1 usage_pct +:+ "%)";
               recommendation := "Increase max_connections or optimize connection pooling" |}
        else if Binary64.gt usage_pct 80 then
          warnings_append
            {| type := "warning";
               check := "get_connection_usage";
               message := "Connection usage is high: " +:+ str current +:+ "/"
                          +:+ str max_conn +:+ " (" +:+ Binary64.format 1 usage_pct +:+ "%)";
               recommendation := "Monitor connection growth and consider connection pooling" |}
        else mret tt
    | None => mret tt
    end).

Definition analyze_cache_hit_rate : M unit :=
  when_present "get_cache_hit_rate" (fun data =>
    row ← lift (first_row data);
    match row with
    | Some cache_info =>
        hit_ratio ← lift (get cache_info "hit_ratio" (PInt 100));
        low ← lift (lt hit_ratio 99);
        if (low : bool) then
          warnings_append
            {| type := "warning";
               check := "get_cache_hit_rate";
               message := "Cache hit rate is low: " +:+ str hit_ratio +:+ "%";
               recommendation := "Increase shared_buffers or optimize queries" |}
        else mret tt
    | None => mret tt
    end).

Definition analyze_long_running_queries : M unit :=
  when_present "get_long_running_queries" (fun data =>
    row ← lift (first_row data);
    match row with
    | Some query_info =>
        count ← lift (get query_info "count" (PInt 0));
        some ← lift (gt count 0);
        if (some : bool) then
          warnings_append
            {| type := "warning";
               check := "get_long_running_queries";
               message := "Found " +:+ str count +:+ " long-running queries (>5 minutes)";
               recommendation := "Review and optimize slow queries" |}
        else mret tt
    | None => mret tt
    end).

Definition analyze_replication_status : M unit :=
  when_present "get_replication_status" (fun data =>
    row ← lift (first_row data);
    match row with
    | Some rep_info =>
        lag_bytes ← lift (get rep_info "replication_lag_bytes" (PInt 0));
        lag_mb ← lift (truediv lag_bytes (PInt 1024) ≫= fun q => Returned (q / 1024)%Q);
        critical ← lift (gt lag_bytes (inject_Z 1073741824));   (* > 1GB *)
        if (critical : bool) then
          issues_append
            {| type := "critical";
               check := "get_replication_status";
               message := "Replication lag is critical: " +:+ format_fixed 1 lag_mb +:+ "MB";
               recommendation := "Check storage I/O and network performance" |}
        else
          elevated ← lift (gt lag_bytes (inject_Z 104857600));   (* > 100MB *)
          if (elevated : bool) then
            warnings_append
              {| type := "warning";
                 check := "get_replication_status";
                 message := "Replication lag is elevated: " +:+ format_fixed 1 lag_mb +:+ "MB";
                 recommendation := "Monitor replication health" |}
          else mret tt
    | None => mret tt
    end).

Definition analyze_wal_archiver_status : M unit :=
  when_present "get_wal_archiver_status" (fun data =>
    row ← lift (first_row data);
    match row with
    | Some arch_info =>
        failed ← lift (get arch_info "failed_archives" (PInt 0));
        some ← lift (gt failed 0);
        if (some : bool) then
          issues_append
            {| type := "critical";
               check := "get_wal_archiver_status";
               message := "WAL archiving has " +:+ str failed +:+ " failures";
               recommendation := "Check archive_command configuration and storage availability" |}
        else mret tt
    | None => mret tt
    end).

(** [analyze_results()] *)
Definition analyze_results : M unit :=
  analyze_polar_node_type;;
  analyze_logindex_status;;
  analyze_pfs_usage;;
  analyze_connection_usage;;
  analyze_cache_hit_rate;;
  analyze_long_running_queries;;
  analyze_replication_status;;
  analyze_wal_archiver_status.

End AnalyzeResults.

(** [class Colors]: the ANSI escapes used in the report. *)
Module Colors.
Definition esc : string := String (ascii_of_N 27) "".
Definition RED : string := esc +:+ "[91m".
Definition GREEN : string := esc +:+ "[92m".
Definition YELLOW : string := esc +:+ "[93m".
Definition END : string := esc +:+ "[0m".
End Colors.

(** The three banners of [generate_report]. *)
Definition CRITICAL : string := Colors.RED +:+ "CRITICAL" +:+ Colors.END.
Definition WARNING : string := Colors.YELLOW +:+ "WARNING" +:+ Colors.END.
Definition HEALTHY : string := Colors.GREEN +:+ "HEALTHY" +:+ Colors.END.

(** [overall_status] as [generate_report] computes it. *)
Definition overall_status (self : PolarDBCheckAgent) : string :=
  match issues self, warnings self with
  | _ :: _, _ => CRITICAL
  | [], _ :: _ => WARNING
  | [], [] => HEALTHY
  end.

Section GenerateReport.
Context {lib : PyLib}.

(** [if name in self.results: data = self.results[name]; ...] for a block that
    only adds lines. *)
Definition block (self : PolarDBCheckAgent) (name : string)
    (body : pyval -> outcome (list string)) : outcome (list string) :=
  match dict_lookup name (results self) with
  | Some data => body data
  | None => Returned []
  end.

Definition node_information (self : PolarDBCheckAgent) : outcome (list string) :=
  block self "get_polar_node_type" (fun data =>
    row ← first_row data;
    match row with
    | Some node_info =>
        node_type ← get node_info "node_type" (PStr "Unknown");
        polar_version ← get node_info "polar_version" (PStr "Unknown");
        Returned [ "### Node Information";
                   "- **Node Type:** " +:+ str node_type;
                   "- **PolarDB Version:** " +:+ str polar_version;
                   "" ]
    | None => Returned []
    end).

Definition logindex_status (self : PolarDBCheckAgent) : outcome (list string) :=
  block self "get_logindex_status" (fun data =>
    row ← first_row data;
    body ← match row with
           | Some lag_info =>
               lag_bytes ← get lag_info "lag_bytes" (PInt 0);
               positive ← gt lag_bytes 0;
               lag_mb ← (if (positive : bool)
                         then q ← truediv lag_bytes (PInt 1024); Returned (q / 1024)%Q
                         else Returned (inject_Z 0));
               node_role ← get lag_info "node_role" (PStr "Unknown");
               Returned [ "- **Replay Lag:** " +:+ format_fixed 2 lag_mb +:+ " MB";
                          "- **Node Role:** " +:+ str node_role ]
           | None =>
               msg ← get data "message" (PStr "Unknown");
               Returned [ "- Status: " +:+ str msg ]
           end;
    Returned ("### LogIndex Status" :: body ++ [ "" ])).

Definition storage_usage (self : PolarDBCheckAgent) : outcome (list string) :=
  block self "get_pfs_usage" (fun data =>
    row ← first_row data;
    body ← match row with
           | Some storage_info =>
               db_size_mb ← get storage_info "database_size_mb" (PInt 0);
               note ← get storage_info "note" (PStr "");
               Returned (("- **Database Size:** " +:+ str db_size_mb +:+ " MB")
                         :: (if truthy note then [ "- **Note:** " +:+ str note ] else []))
           | None => Returned []
           end;
    Returned ("### Storage Usage" :: body ++ [ "" ])).

Definition mpp_htap_status (self : PolarDBCheckAgent) : outcome (list string) :=
  block self "get_px_workers_status" (fun data =>
    row ← first_row data;
    body ← match row with
           | Some px_info =>
               enable_px ← get px_info "polar_enable_px" (PStr "Unknown");
               max_workers ← get px_info "polar_px_max_workers_number" (PStr "Unknown");
               dop ← get px_info "polar_px_dop_per_node" (PStr "Unknown");
               active ← get px_info "active_parallel_queries" (PInt 0);
               Returned [ "- **MPP Enabled:** " +:+ str enable_px;
                          "- **Max Workers:** " +:+ str max_workers;
                          "- **DOP per Node:** " +:+ str dop;
                          "- **Active Parallel Queries:** " +:+ str active ]
           | None => Returned []
           end;
    Returned ("### MPP/HTAP Status" :: body ++ [ "" ])).

(** [for i, f in enumerate(findings, 1)] *)
Fixpoint numbered (i : Z) (findings : list Finding) : list string :=
  match findings with
  | [] => []
  | f :: findings' =>
      [ "### " +:+ pretty i +:+ ". " +:+ check f;
        "- **Message:** " +:+ message f;
        "- **Recommendation:** " +:+ recommendation f;
        "" ] ++ numbered (i + 1) findings'
  end.

Definition critical_issues (self : PolarDBCheckAgent) : list string :=
  match issues self with
  | [] => []
  | _ => [ "## üî¥ Critical Issues"; "" ] ++ numbered 1 (issues self)
  end.

Definition warnings_section (self : PolarDBCheckAgent) : list string :=
  match warnings self with
  | [] => []
  | _ => [ "## üü° Warnings"; "" ] ++ numbered 1 (warnings self)
  end.

(** One round of the loop over [self.results.items()]. *)
Definition detailed_result (check_name : string) (result : pyval) : outcome (list string) :=
  status ← get result "status" (PStr "unknown");
  let status_icon :=
    if eq_str status "success" then "‚úÖ"
    else if eq_str status "warning" then "‚ö†Ô∏è"
    else if eq_str status "error" then "‚ùå"
    else "‚ÑπÔ∏è" in
  msg ← get result "message" (PStr "");
  data ← get result "data" PNone;
  Returned ([ "### " +:+ check_name +:+ " " +:+ status_icon;
              "- **Status:** " +:+ str status ]
            ++ (if truthy msg then [ "- **Message:** " +:+ str msg ] else [])
            ++ (if truthy data
                then [ "- **Data:**"; "```json"; json_dumps true data; "```" ]
                else [])
            ++ [ "" ]).

Fixpoint detailed_results (items : list (string * pyval)) : outcome (list string) :=
  match items with
  | [] => Returned []
  | (check_name, result) :: items' =>
      lines ← detailed_result check_name result;
      rest ← detailed_results items';
      Returned (lines ++ rest)
  end.

Definition immediate_actions (self : PolarDBCheckAgent) : list string :=
  match issues self, warnings self with
  | [], [] => [ "- ‚úÖ System appears healthy. Continue regular monitoring." ]
  | _, _ =>
      "### Immediate Actions"
        :: map (fun issue => "- üî¥ **" +:+ check issue +:+ ":** "
                             +:+ recommendation issue) (issues self)
        ++ map (fun warning => "- üü° **" +:+ check warning +:+ ":** "
                               +:+ recommendation warning) (warnings self)
  end.

(** [generate_report()] *)
Definition generate_report (self : PolarDBCheckAgent) : outcome string :=
  node ← node_information self;
  logindex ← logindex_status self;
  storage ← storage_usage self;
  mpp ← mpp_htap_status self;
  detailed ← detailed_results (results self);
  Returned (join_lines (
    (* Header *)
    [ "# PolarDB Daily Health Report"; "";
      "**Generated:** " +:+ now; "" ]
    (* Overall Status *)
    ++ [ "## Overall Status: " +:+ overall_status self; "" ]
    (* Summary counts *)
    ++ [ "### Summary";
         "- Critical Issues: " +:+ pretty (length (issues self));
         "- Warnings: " +:+ pretty (length (warnings self));
         "- Checks Performed: " +:+ pretty (length (results self));
         "" ]
    (* PolarDB Status Section *)
    ++ [ "## PolarDB-Specific Status"; "" ]
    ++ node ++ logindex ++ storage ++ mpp
    ++ critical_issues self
    ++ warnings_section self
    (* Detailed Check Results *)
    ++ [ "## Detailed Check Results"; "" ]
    ++ detailed
    (* Recommendations *)
    ++ [ "## Recommendations"; "";
         "Based on the health check results, consider the following actions:"; "" ]
    ++ immediate_actions self
    ++ [ "";
         "### Preventive Maintenance";
         "- Review slow queries using pg_stat_statements";
         "- Monitor LogIndex replay lag trends";
         "- Plan for storage capacity as usage grows";
         "- Test online promotion periodically";
         "- Review MPP query performance regularly" ]
    (* Footer *)
    ++ [ "";
         "---";
         "*Report generated by PolarDB Daily Check Agent*";
         "*Next check scheduled for tomorrow*" ])).

End GenerateReport.

Section Run.
Context {lib : PyLib} {world : World}.

(** [run()]: the checks, the analysis, the report; the value returned is
    [len(self.issues) == 0].  Writing the report file and printing are left
    out. *)
Definition report_text : M string := fun self => lift (generate_report self) self.

Definition no_issues : M bool := fun self =>
  Returned (match issues self with [] => true | _ => false end, self).

Definition run : M bool :=
  run_all_checks;;
  analyze_results;;
  report_text;;
  no_issues.

(** [main()]: [success = agent.run(); sys.exit(0 if success else 1)]; an
    exception that nothing catches ends the interpreter with 1. *)
Definition main (script_path : string) : Z :=
  match run (__init__ script_path) with
  | Returned (success, _) => if success then 0 else 1
  | Raised _ => 1
  end.

End Run.

End PolarDB.

(** ** A small standard library and some worlds to run the agents in *)

Module Demo.

(** [round(q)] to the nearest integer, ties to even. *)
Definition round_half_even (q : Q) : Z :=
  let f := Qfloor q in
  let twice := (2 * (q - inject_Z f))%Q in
  if Qltb twice 1 then f
  else if Qltb 1 twice then f + 1
  else if Z.even f then f else f + 1.

Fixpoint zero_pad (width : nat) (s : string) : string :=
  match width with
  | O => s
  | S w => if (String.length s <? width)%nat then zero_pad w ("0" +:+ s) else s
  end.

(** [format(q, ".df")] for an exact [q] and [d > 0]. *)
Definition fixed_point (d : nat) (q : Q) : string :=
  let scale := 10 ^ Z.of_nat d in
  let n := round_half_even (Qabs q * inject_Z scale) in
  (if Qltb q 0 then "-" else "")
    +:+ pretty (n / scale) +:+ "." +:+ zero_pad d (pretty (n mod scale)).

Definition dq : string := String (ascii_of_N 34) "".
Definition quoted (s : string) : string := dq +:+ s +:+ dq.

(** A standard library that knows the JSON texts of [texts] and no other. *)
Definition lib (texts : list (string * pyval)) : PyLib :=
  {| json_loads := fun s =>
       match list_find (fun kv => String.eqb (fst kv) s) texts with
       | Some (_, (_, v)) => Parsed v
       | None => JSONDecodeError "Expecting value: line 1 column 1 (char 0)"
       end;
     json_dumps := fun _ _ => "{}";
     float_of_str := fun _ => None;
     repr_float := fixed_point 1;
     repr_container := fun _ => "[...]";
     format_fixed := fixed_point;
     now := "2026-01-01 00:00:00";
     now_isoformat := "2026-01-01T00:00:00" |}.

(** A world in which the check named [name] does what [table] says and every
    other check does [otherwise]. *)
Definition world (table : list (string * process)) (otherwise : process) : World :=
  {| subprocess_run := fun command =>
       match command with
       | [_; name] =>
           match list_find (fun kv => String.eqb (fst kv) name) table with
           | Some (_, (_, p)) => p
           | None => otherwise
           end
       | _ => otherwise
       end |}.

(** No branch of the chain beyond those transcribed above adds anything. *)
Definition silent : Postgres.RestOfChain :=
  {| Postgres.remaining_branches := fun _ _ _ _ => mret tt |}.

(** A success result with the given rows. *)
Definition success (skill : string) (rows : list pyval) : pyval :=
  PDict [("skill", PStr skill); ("status", PStr "success"); ("data", PList rows)].

(** The ten rows of the bloat example: the seventh is over both thresholds. *)
Definition quiet_row (name : string) : pyval :=
  PDict [("schemaname", PStr "public"); ("tablename", PStr name);
         ("total_bytes", PInt (50 * 1024 * 1024));
         ("bloat_percentage", PInt 5); ("wasted_bytes", PInt (2 * 1024 * 1024))].

Definition bloated_row (name : string) : pyval :=
  PDict [("schemaname", PStr "public"); ("tablename", PStr name);
         ("total_bytes", PInt (600 * 1024 * 1024));
         ("bloat_percentage", PInt 25); ("wasted_bytes", PInt (150 * 1024 * 1024))].

Definition ten_rows : list pyval :=
  [ quiet_row "t1"; quiet_row "t2"; quiet_row "t3"; quiet_row "t4"; quiet_row "t5";
    quiet_row "t6"; bloated_row "t7"; quiet_row "t8"; quiet_row "t9"; quiet_row "t10" ].

(** A replica two GiB behind, and one 200 MiB behind. *)
Definition far_replica : pyval :=
  PDict [("client_addr", PStr "10.0.0.2"); ("state", PStr "streaming");
         ("replay_lag_bytes", PInt (2 * 1024 ^ 3))].

Definition near_replica : pyval :=
  PDict [("client_addr", PStr "10.0.0.3"); ("state", PStr "streaming");
         ("replay_lag_bytes", PInt (200 * 1024 ^ 2))].

(** Rows with a field missing, a zero divisor, or a [null] where a number is
    expected. *)
Definition usage_without_count : pyval :=
  success "get_connection_usage" [PDict [("max_connections", PInt 100)]].

Definition usage_of_zero : pyval :=
  success "get_connection_usage"
    [PDict [("used_connections", PInt 5); ("max_connections", PInt 0)]].

Definition lock_without_waiter : pyval :=
  success "get_blocking_locks" [PDict [("blocking_pid", PInt 4711)]].

Definition bloat_with_null : pyval :=
  success "get_table_bloat"
    [PDict [("schemaname", PStr "public"); ("tablename", PStr "t1");
            ("bloat_percentage", PNone)]].

(** The JSON text of a result, for the scripts of the worlds below. *)
Definition connection_row (count_key : string) (count max_conn : Z) : pyval :=
  PDict [(count_key, PInt count); ("max_connections", PInt max_conn)].

Definition result_text (skill row_text : string) : string :=
  "{" +:+ quoted "skill" +:+ ": " +:+ quoted skill +:+ ", "
    +:+ quoted "status" +:+ ": " +:+ quoted "success" +:+ ", "
    +:+ quoted "data" +:+ ": [" +:+ row_text +:+ "]}".

Definition usage_without_count_text : string :=
  result_text "get_connection_usage" ("{" +:+ quoted "max_connections" +:+ ": 100}").

(** Every check times out, except that [get_connection_usage] prints a row
    without its count. *)
Definition world_without_count : World :=
  world [("get_connection_usage", CompletedProcess 0 usage_without_count_text "")]
        TimeoutExpired.

Definition lib_without_count : PyLib :=
  lib [(usage_without_count_text, usage_without_count)].

(** [psql] fails because the view is missing. *)
Definition missing_view : process :=
  CompletedProcess 1 ""
    ("ERROR:  relation " +:+ quoted "pg_replication_slots" +:+ " does not exist").

Definition world_without_view : World :=
  world [("get_replication_slots", missing_view)] TimeoutExpired.

(** Worlds in which every check times out, prints something that is not
    JSON, prints nothing, or prints the empty JSON list. *)
Definition world_of_timeouts : World := world [] TimeoutExpired.

Definition world_of_garbage : World :=
  world [] (CompletedProcess 0 "psql: could not connect to server" "").

Definition world_of_silence : World := world [] (CompletedProcess 0 "" "").

Definition world_of_empty_lists : World := world [] (CompletedProcess 0 "[]" "").

Definition lib_with_empty_list : PyLib := lib [("[]", PList [])].

(** The polardb script reports 96 of 100 connections in use; every other check
    times out. *)
Definition usage_96 : pyval :=
  success "get_connection_usage" [connection_row "current_connections" 96 100].

Definition usage_96_text : string :=
  result_text "get_connection_usage"
    ("{" +:+ quoted "current_connections" +:+ ": 96, "
         +:+ quoted "max_connections" +:+ ": 100}").

Definition world_at_96 : World :=
  world [("get_connection_usage", CompletedProcess 0 usage_96_text "")] TimeoutExpired.

Definition lib_at_96 : PyLib := lib [(usage_96_text, usage_96)].

(** The postgres script reports 96 of 100 connections in use, under the key
    the postgres agent reads, or prints the row above; every other check
    prints nothing. *)
Definition used_96 : pyval :=
  success "get_connection_usage" [connection_row "used_connections" 96 100].

Definition used_96_text : string :=
  result_text "get_connection_usage"
    ("{" +:+ quoted "used_connections" +:+ ": 96, "
         +:+ quoted "max_connections" +:+ ": 100}").

Definition world_with_96_used : World :=
  world [("get_connection_usage", CompletedProcess 0 used_96_text "")]
        (CompletedProcess 0 "" "").

Definition lib_with_96_used : PyLib := lib [(used_96_text, used_96)].

Definition world_with_polardb_row : World :=
  world [("get_connection_usage", CompletedProcess 0 usage_96_text "")]
        (CompletedProcess 0 "" "").

(** The polardb script reports a cache hit ratio of 97; every other check
    times out. *)
Definition cache_97 : pyval :=
  success "get_cache_hit_rate" [PDict [("hit_ratio", PInt 97)]].

Definition cache_97_text : string :=
  result_text "get_cache_hit_rate" ("{" +:+ quoted "hit_ratio" +:+ ": 97}").

Definition world_at_97 : World :=
  world [("get_cache_hit_rate", CompletedProcess 0 cache_97_text "")] TimeoutExpired.

Definition lib_at_97 : PyLib := lib [(cache_97_text, cache_97)].

End Demo.

(** ** The specification's severity order

    Section 3 of the specification: [OK < WARNING < ERROR], combined by the
    maximum.  [banner] gives the text under which the postgres agent stores a
    severity in [report_status]. *)

Module Aggregation.

Inductive Severity : Type := OK | WARNING | ERROR.

Definition rank (s : Severity) : nat :=
  match s with OK => 0 | WARNING => 1 | ERROR => 2 end.

(** [combine(a, b) = max(a, b)] *)
Definition combine (a b : Severity) : Severity :=
  if (rank a <? rank b)%nat then b else a.

(** [join(f1.severity, ..., fn.severity)], with [OK] for no finding *)
Definition join (fs : list Severity) : Severity := fold_right combine OK fs.

Definition banner (s : Severity) : string :=
  match s with
  | OK => "✅ OK"
  | WARNING => "🟠 WARNING"
  | ERROR => "❌ ERROR"
  end.

(** The findings [fs] folded into the agent one after the other. *)
Fixpoint escalate (fs : list Severity) : Postgres.M unit :=
  match fs with
  | [] => mret tt
  | f :: fs' => Postgres._update_status (banner f);; escalate fs'
  end.

(** The agent with [s] as its stored status. *)
Definition with_status (s : Severity) (self : Postgres.PostgresAgent)
  : Postgres.PostgresAgent :=
  Postgres.with_report_status (banner s) self.

End Aggregation.

(** ** What the claims say about rows

    The conditions under which a row is read without an exception, and the
    thresholds, each computed with the operations of the branch it belongs to. *)

Module Bloat.
Section Bloat.
Context {lib : PyLib}.

(** A row of the bloat checks whose three sizes [float] accepts. *)
Definition row_ok (item : pyval) : bool :=
  match item with
  | PDict _ =>
      returns (get item "bloat_percentage" (PInt 0) ≫= float)
      && returns (get item "wasted_bytes" (PInt 0) ≫= float)
      && returns (get item "total_bytes" (PInt 0) ≫= float)
  | _ => false
  end.

(** [bloat_percentage > 20] and [wasted_bytes > 100 MiB] *)
Definition over_threshold (item : pyval) : bool :=
  match get item "bloat_percentage" (PInt 0) ≫= float,
        get item "wasted_bytes" (PInt 0) ≫= float with
  | Returned bloat_pct, Returned wasted_bytes =>
      Qltb 20 bloat_pct && Qltb (inject_Z (100 * 1024 ^ 2)) wasted_bytes
  | _, _ => false
  end.

Definition obj_type (skill : string) : string :=
  if String.eqb skill "get_table_bloat" then "Table" else "Index".

End Bloat.
End Bloat.

Module Replication.

(** [replica.get("replay_lag_bytes", 0) / (1024**2)] *)
Definition lag_mb (replica : pyval) : outcome Q :=
  get replica "replay_lag_bytes" (PInt 0) ≫= fun lag_bytes =>
  truediv lag_bytes (PInt (1024 ^ 2)).

Definition row_ok (replica : pyval) : bool := returns (lag_mb replica).

(** More than 1 GiB behind, and more than 100 MiB behind. *)
Definition critical (replica : pyval) : bool :=
  match lag_mb replica with
  | Returned q => Qltb 1024 q
  | Raised _ => false
  end.

Definition elevated (replica : pyval) : bool :=
  match lag_mb replica with
  | Returned q => Qltb 100 q
  | Raised _ => false
  end.

(** The overall status once [replica] has been looked at. *)
Definition status_after (current : string) (replica : pyval) : string :=
  if critical replica then "❌ ERROR"
  else if elevated replica && negb (String.eqb current "❌ ERROR") then "🟠 WARNING"
  else current.

End Replication.

(** The blocks of [analyze_results], each under the check it reads. *)
Module Blocks.
Section Blocks.
Context {lib : PyLib}.

Definition analysis : list (string * PolarDB.M unit) :=
  [ ("get_polar_node_type", PolarDB.analyze_polar_node_type);
    ("get_logindex_status", PolarDB.analyze_logindex_status);
    ("get_pfs_usage", PolarDB.analyze_pfs_usage);
    ("get_connection_usage", PolarDB.analyze_connection_usage);
    ("get_cache_hit_rate", PolarDB.analyze_cache_hit_rate);
    ("get_long_running_queries", PolarDB.analyze_long_running_queries);
    ("get_replication_status", PolarDB.analyze_replication_status);
    ("get_wal_archiver_status", PolarDB.analyze_wal_archiver_status) ].

(** A result whose status is not ["success"], as each agent tests it. *)
Definition failed_for_postgres (d : list (string * pyval)) : bool :=
  negb (eq_str (default (PStr "fail") (dict_lookup "status" d)) "success").

Definition failed_for_polardb (d : list (string * pyval)) : bool :=
  negb (eq_str (default PNone (dict_lookup "status" d)) "success").

(** The two lines the postgres agent writes for a failed check. *)
Definition failed_lines (d : list (string * pyval)) : list string :=
  [ "### ❌ Skill Failed: `"
      +:+ str (default (PStr "unknown_skill") (dict_lookup "skill" d)) +:+ "`";
    "Error details: `" +:+ str (default (PList []) (dict_lookup "data" d)) +:+ "`" ].

End Blocks.
End Blocks.

(** ** More branches of [_analyze_and_report]

    Further branches of the chain, transcribed as [remaining_branches] over
    the branches that are still left out. *)

Module Chain.
Import Postgres.

Section Chain.
Context {lib : PyLib} {rest : RestOfChain}.

(** [elif skill == "get_top_objects_by_size"] *)
Definition top_object (_ : unit) (item : pyval) : M unit :=
  type ← lift (getitem item "type");
  schemaname ← lift (getitem item "schemaname");
  object_name ← lift (getitem item "object_name");
  size ← lift (getitem item "size");
  append ("| " +:+ str type +:+ " | " +:+ str schemaname +:+ " | "
          +:+ str object_name +:+ " | " +:+ str size +:+ " |").

Definition branch_get_top_objects_by_size (data : pyval) : M unit :=
  append "### 🟡 INFO: Top 5 Largest Objects";;
  if truthy data then
    append "| Type | Schema | Name | Size |";;
    append "|---|---|---|---|";;
    items ← lift (iter data);
    for_each items top_object tt
  else
    append "Could not retrieve object size data.".

(** [elif skill == "get_table_hotspots"] *)
Definition table_hotspot (_ : unit) (item : pyval) : M unit :=
  schemaname ← lift (getitem item "schemaname");
  relname ← lift (getitem item "relname");
  total_dml ← lift (getitem item "total_dml");
  total_scans ← lift (getitem item "total_scans");
  n_dead_tup ← lift (getitem item "n_dead_tup");
  append ("| " +:+ str schemaname +:+ " | " +:+ str relname +:+ " | "
          +:+ str total_dml +:+ " | " +:+ str total_scans +:+ " | "
          +:+ str n_dead_tup +:+ " |").

Definition branch_get_table_hotspots (data : pyval) : M unit :=
  append "### 🟡 INFO: Top 5 Table Hotspots (by DMLs & Scans)";;
  if truthy data then
    append "| Schema | Table | Total DMLs | Total Scans | Dead Tuples |";;
    append "|---|---|---|---|---|";;
    items ← lift (iter data);
    for_each items table_hotspot tt
  else
    append "Could not retrieve table hotspot data.".

(** [elif skill == "get_wal_archiver_status"] *)
Definition branch_get_wal_archiver_status (data notes : pyval) : M unit :=
  append "### 🟡 INFO: WAL & Archiver Status";;
  if truthy data then
    status ← lift (getitem0 data);
    failed_count ← lift (getitem status "failed_count");
    failed ← lift (gt failed_count 0);
    (if (failed : bool) then
       append "### ❌ ERROR: Archiver has Failed";;
       failed_count ← lift (getitem status "failed_count");
       append ("- **Failed Count:** " +:+ str failed_count);;
       last_failed_wal ← lift (getitem status "last_failed_wal");
       last_failed_time ← lift (getitem status "last_failed_time");
       append ("- **Last Failed WAL:** `" +:+ str last_failed_wal +:+ "` at `"
               +:+ str last_failed_time +:+ "`");;
       _update_status "❌ ERROR"
     else
       append "### ✅ OK: Archiver Status");;
    wal_directory_size ← lift (getitem status "wal_directory_size");
    append ("- **WAL Directory Size:** " +:+ str wal_directory_size);;
    last_archived_wal ← lift (getitem status "last_archived_wal");
    last_archived_time ← lift (getitem status "last_archived_time");
    append ("- **Last Archived WAL:** `" +:+ str last_archived_wal +:+ "` at `"
            +:+ str last_archived_time +:+ "`")
  else
    missing ← lift (contains_str "does not exist" notes);
    if (missing : bool) then
      append "Archiving may be disabled (`archive_mode` is likely off)."
    else
      append "Could not retrieve archiver status.".

(** [elif skill == "get_large_unused_indexes"] *)
Definition unused_index (_ : unit) (item : pyval) : M unit :=
  schemaname ← lift (getitem item "schemaname");
  table_name ← lift (getitem item "table_name");
  index_name ← lift (getitem item "index_name");
  index_size ← lift (getitem item "index_size");
  append ("| `" +:+ str schemaname +:+ "." +:+ str table_name +:+ "` | `"
          +:+ str index_name +:+ "` | " +:+ str index_size +:+ " |").

Definition branch_get_large_unused_indexes (data : pyval) : M unit :=
  append "### 🟡 INFO: Large Unused Indexes (>10MB)";;
  if truthy data then
    n ← lift (len data);
    append ("Found " +:+ pretty n +:+ " large indexes that have not been scanned. These are candidates for removal, but require careful analysis.");;
    append "| Table | Index | Size |";;
    append "|---|---|---|";;
    items ← lift (iter data);
    for_each items unused_index tt;;
    _update_status "🟠 WARNING"
  else
    append "No large, unused indexes were found.".

(** [elif skill == "get_long_running_queries"] *)
Definition long_running_query (_ : unit) (q : pyval) : M unit :=
  pid ← lift (getitem q "pid");
  usename ← lift (getitem q "usename");
  duration ← lift (getitem q "duration");
  append ("- **PID:** " +:+ str pid +:+ ", **User:** " +:+ str usename
          +:+ ", **Duration:** " +:+ str duration).

Definition branch_get_long_running_queries (data : pyval) : M unit :=
  if truthy data then
    append "### 🟠 WARNING: Long-Running Queries Detected";;
    n ← lift (len data);
    append ("Found " +:+ pretty n +:+ " queries running longer than the threshold.");;
    items ← lift (iter data);
    for_each items long_running_query tt;;
    _update_status "🟠 WARNING"
  else
    append "### ✅ OK: No Long-Running Queries".

(** [elif skill == "get_idle_in_transaction_sessions"] *)
Definition idle_session (_ : unit) (s : pyval) : M unit :=
  pid ← lift (getitem s "pid");
  usename ← lift (getitem s "usename");
  transaction_duration ← lift (getitem s "transaction_duration");
  append ("- **PID:** " +:+ str pid +:+ ", **User:** " +:+ str usename
          +:+ ", **Duration:** " +:+ str transaction_duration).

Definition branch_get_idle_in_transaction_sessions (data : pyval) : M unit :=
  if truthy data then
    append "### 🟠 WARNING: Idle-in-Transaction Sessions Detected";;
    n ← lift (len data);
    append ("Found " +:+ pretty n
            +:+ " sessions idle in transaction longer than the threshold.");;
    items ← lift (iter data);
    for_each items idle_session tt;;
    _update_status "🟠 WARNING"
  else
    append "### ✅ OK: No Idle-in-Transaction Sessions".

(** [elif skill == "get_cache_hit_rate"] *)
Definition branch_get_cache_hit_rate (data : pyval) : M unit :=
  if truthy data then
    hit_rate ← lift (getitem0 data ≫= fun row =>
                     get row "hit_rate_percentage" (PInt 0) ≫= float);
    db_name ← lift (getitem0 data ≫= fun row => get row "datname" (PStr "N/A"));
    if Qltb hit_rate 99 then
      append ("### 🟠 WARNING: Low Cache Hit Rate for '" +:+ str db_name +:+ "' ("
              +:+ repr_float hit_rate +:+ "%)");;
      _update_status "🟠 WARNING"
    else
      append ("### ✅ OK: Cache Hit Rate for '" +:+ str db_name +:+ "' ("
              +:+ repr_float hit_rate +:+ "%)")
  else
    append "### 🟡 INFO: Cache Hit Rate".

(** [elif skill == "get_invalid_indexes"] *)
Definition invalid_index (_ : unit) (idx : pyval) : M unit :=
  schema_name ← lift (getitem idx "schema_name");
  index_name ← lift (getitem idx "index_name");
  append ("- `" +:+ str schema_name +:+ "." +:+ str index_name +:+ "`").

Definition branch_get_invalid_indexes (data : pyval) : M unit :=
  if truthy data then
    append "### ❌ ERROR: Invalid Indexes Found";;
    append "These indexes are unusable and may block DML. Recreate them with `REINDEX` or drop and create them again.";;
    items ← lift (iter data);
    for_each items invalid_index tt;;
    _update_status "❌ ERROR"
  else
    append "### ✅ OK: No Invalid Indexes".

(** [elif skill == "get_rollback_rate"] *)
Definition rollback_rate (has_high_rate : bool) (db : pyval) : M bool :=
  rate ← lift (get db "rollback_percentage" (PInt 0) ≫= float);
  if Qltb 5 rate then
    datname ← lift (getitem db "datname");
    append ("- **" +:+ str datname +:+ "**: 🟠 **WARNING** - Rollback rate is "
            +:+ repr_float rate
            +:+ "%. High rollbacks can indicate application logic issues.");;
    _update_status "🟠 WARNING";;
    mret true
  else mret has_high_rate.

Definition branch_get_rollback_rate (data : pyval) : M unit :=
  append "### 🟡 INFO: Transaction Rollback Rate";;
  has_high_rate ← (if truthy data then
                     items ← lift (iter data);
                     for_each items rollback_rate false
                   else mret false);
  if negb (has_high_rate : bool) then
    append "Transaction rollback rates are within normal limits."
  else mret tt.

(** [elif skill == "get_autovacuum_status"] *)
Definition autovacuum_worker (_ : unit) (av : pyval) : M unit :=
  duration_str ← lift (get av "duration" (PStr "N/A"));
  pid ← lift (getitem av "pid");
  datname ← lift (getitem av "datname");
  append ("- **PID " +:+ str pid +:+ "**: Running on db `" +:+ str datname
          +:+ "` for " +:+ str duration_str +:+ ".").

Definition branch_get_autovacuum_status (data : pyval) : M unit :=
  append "### 🟡 INFO: Autovacuum Worker Status";;
  if truthy data then
    append "Found running autovacuum processes:";;
    items ← lift (iter data);
    for_each items autovacuum_worker tt
  else
    append "No autovacuum workers are currently active.".

(** [elif skill == "get_database_sizes"] *)
Definition database_size (_ : unit) (db : pyval) : M unit :=
  datname ← lift (getitem db "datname");
  size ← lift (getitem db "size");
  append ("| " +:+ str datname +:+ " | " +:+ str size +:+ " |").

Definition branch_get_database_sizes (data : pyval) : M unit :=
  append "### 🟡 INFO: Top 10 Database Sizes";;
  if truthy data then
    append "| Database Name | Size |";;
    append "|---|---|";;
    items ← lift (iter data);
    for_each items database_size tt
  else
    append "Could not retrieve database sizes.".

(** [elif skill == "get_critical_settings"] *)
Definition critical_setting (has_critical : bool) (item : pyval) : M bool :=
  setting_name ← lift (getitem item "name");
  setting_value ← lift (getitem item "setting");
  '(recommendation, has_critical) ←
    (if eq_str setting_name "fsync" && negb (eq_str setting_value "on") then
       _update_status "❌ ERROR";;
       mret ("❌ **CRITICAL!** Data loss risk. Should be 'on'.", true)
     else if eq_str setting_name "synchronous_commit"
             && negb (eq_str setting_value "on" || eq_str setting_value "local") then
       _update_status "🟠 WARNING";;
       mret ("🟠 **WARNING!** Potential data loss on crash. Default is 'on'.",
             has_critical)
     else mret ("OK", has_critical));
  append ("| `" +:+ str setting_name +:+ "` | `" +:+ str setting_value +:+ "` | "
          +:+ recommendation +:+ " |");;
  mret has_critical.

Definition branch_get_critical_settings (data : pyval) : M unit :=
  append "### 🟡 INFO: Critical Settings Review";;
  if truthy data then
    append "| Setting | Value | Recommendation |";;
    append "|---|---|---|";;
    items ← lift (iter data);
    has_critical ← for_each items critical_setting false;
    if (has_critical : bool) then
      n ← report_len;
      k ← lift (len data);
      setitem (n - k - 2) "### ❌ ERROR: Critical Settings Misconfiguration"
    else mret tt
  else
    append "Could not retrieve critical settings information.".

(** [elif skill == "get_sequence_exhaustion"] *)
Definition sequence_row (_ : unit) (item : pyval) : M unit :=
  schemaname ← lift (getitem item "schemaname");
  sequence_name ← lift (getitem item "sequence_name");
  percentage_used ← lift (getitem item "percentage_used");
  append ("| " +:+ str schemaname +:+ " | `" +:+ str sequence_name +:+ "` | "
          +:+ str percentage_used +:+ "% |").

Definition branch_get_sequence_exhaustion (data : pyval) : M unit :=
  append "### 🟡 INFO: Sequence Exhaustion Risk";;
  if truthy data then
    append "### 🟠 WARNING: Sequences Approaching Max Value";;
    append "The following sequences are over 80% used. Consider changing to a BIGINT or resetting if appropriate.";;
    append "| Schema | Sequence Name | Percentage Used |";;
    append "|---|---|---|";;
    items ← lift (iter data);
    for_each items sequence_row tt;;
    _update_status "🟠 WARNING"
  else
    append "No sequences are nearing their exhaustion threshold.".

(** [elif skill == "get_wait_events"] *)
Definition wait_event (_ : unit) (item : pyval) : M unit :=
  wait_event_type ← lift (getitem item "wait_event_type");
  event ← lift (getitem item "wait_event");
  occurrences ← lift (getitem item "occurrences");
  append ("| " +:+ str wait_event_type +:+ " | `" +:+ str event +:+ "` | "
          +:+ str occurrences +:+ " |").

Definition branch_get_wait_events (data : pyval) : M unit :=
  append "### 🟡 INFO: Top 10 Current Wait Events";;
  if truthy data then
    append "Shows what active sessions are waiting for right now. Useful for diagnosing bottlenecks.";;
    append "| Wait Event Type | Wait Event | Occurrences |";;
    append "|---|---|---|";;
    items ← lift (iter data);
    for_each items wait_event tt
  else
    append "No significant wait events detected at this moment.".

(** [elif skill == "get_bgwriter_stats"]; there is no [else]. *)
Definition branch_get_bgwriter_stats (data : pyval) : M unit :=
  append "### 🟡 INFO: Background Writer Statistics";;
  if truthy data then
    bgwriter ← lift (getitem0 data);
    maxwritten ← lift (get bgwriter "maxwritten_clean" (PInt 0));
    reached ← lift (gt maxwritten 0);
    (if (reached : bool) then
       append "### 🟠 WARNING: Background Writer Maxwritten";;
       append ("Background writer reached max pages limit " +:+ str maxwritten
               +:+ " times. Consider tuning bgwriter parameters.");;
       _update_status "🟠 WARNING"
     else
       append "### ✅ OK: Background Writer Normal");;
    buffers_clean ← lift (get bgwriter "buffers_clean" (PInt 0));
    append ("- **Buffers Clean:** " +:+ str buffers_clean);;
    buffers_alloc ← lift (get bgwriter "buffers_alloc" (PInt 0));
    append ("- **Buffers Allocated:** " +:+ str buffers_alloc);;
    append ("- **Maxwritten Clean:** " +:+ str maxwritten)
  else mret tt.

(** [elif skill == "get_deadlock_detection"] *)
Definition branch_get_deadlock_detection (data : pyval) : M unit :=
  append "### 🟡 INFO: Deadlock Detection";;
  if truthy data then
    deadlock_info ← lift (getitem0 data);
    deadlock_count ← lift (get deadlock_info "deadlock_count" (PInt 0));
    some ← lift (gt deadlock_count 0);
    if (some : bool) then
      append "### ❌ ERROR: Deadlocks Detected!";;
      append ("- **Total Deadlocks:** " +:+ str deadlock_count);;
      append "Deadlocks have occurred. Check PostgreSQL logs for details.";;
      _update_status "❌ ERROR"
    else
      append "### ✅ OK: No Deadlocks Detected";;
      append ("- **Deadlock Count:** " +:+ str deadlock_count)
  else
    append "Unable to retrieve deadlock statistics.".

(** The chain after the branches of [_analyze_and_report] above, as far as it
    is transcribed here; [rest] is what is then still left out. *)
Definition more_branches (result skill data notes : pyval) : M unit :=
  if eq_str skill "get_top_objects_by_size" then
    branch_get_top_objects_by_size data
  else if eq_str skill "get_table_hotspots" then
    branch_get_table_hotspots data
  else if eq_str skill "get_wal_archiver_status" then
    branch_get_wal_archiver_status data notes
  else if eq_str skill "get_large_unused_indexes" then
    branch_get_large_unused_indexes data
  else if eq_str skill "get_long_running_queries" then
    branch_get_long_running_queries data
  else if eq_str skill "get_idle_in_transaction_sessions" then
    branch_get_idle_in_transaction_sessions data
  else if eq_str skill "get_cache_hit_rate" then
    branch_get_cache_hit_rate data
  else if eq_str skill "get_invalid_indexes" then
    branch_get_invalid_indexes data
  else if eq_str skill "get_rollback_rate" then
    branch_get_rollback_rate data
  else if eq_str skill "get_autovacuum_status" then
    branch_get_autovacuum_status data
  else if eq_str skill "get_database_sizes" then
    branch_get_database_sizes data
  else if eq_str skill "get_critical_settings" then
    branch_get_critical_settings data
  else if eq_str skill "get_sequence_exhaustion" then
    branch_get_sequence_exhaustion data
  else if eq_str skill "get_wait_events" then
    branch_get_wait_events data
  else if eq_str skill "get_bgwriter_stats" then
    branch_get_bgwriter_stats data
  else if eq_str skill "get_deadlock_detection" then
    branch_get_deadlock_detection data
  else
    remaining_branches result skill data notes.

End Chain.

(** [_analyze_and_report] with these branches in its chain. *)
Definition chain {lib : PyLib} (rest : RestOfChain) : RestOfChain :=
  {| remaining_branches := more_branches (rest := rest) |}.

Definition analyze {lib : PyLib} {rest : RestOfChain} (result : pyval) : M unit :=
  _analyze_and_report (rest := chain rest) result.

End Chain.

(** ** What an analysis may do to the agent *)

Module Frame.
Import Postgres.

(** The overall status as a number: ERROR over WARNING over anything else. *)
Definition status_rank (status : string) : nat :=
  if String.eqb status "❌ ERROR" then 2
  else if String.eqb status "🟠 WARNING" then 1
  else 0.

(** [self'] is [self] with lines added at the end of the report and the status
    not lowered; [counted n] says how many lines. *)
Definition extends (counted : nat -> Prop) (self self' : PostgresAgent) : Prop :=
  executor_script self' = executor_script self
  /\ raw_results self' = raw_results self
  /\ (status_rank (report_status self) <= status_rank (report_status self'))%nat
  /\ exists lines, counted (length lines) /\ report self' = report self ++ lines.

(** A method body that, when it returns, has only done that. *)
Definition keeps {A : Type} (m : M A) : Prop :=
  forall self a self', m self = Returned (a, self') -> extends (fun _ => True) self self'.

Definition grows {A : Type} (n : nat) (m : M A) : Prop :=
  forall self a self', m self = Returned (a, self') -> extends (eq n) self self'.

(** The branches left out are assumed to do no more than the others. *)
Definition polite (rest : RestOfChain) : Prop :=
  forall result skill data notes, keeps (remaining_branches result skill data notes).

End Frame.

(** ** The last branches of the chain

    The branches of [_analyze_and_report] that are left: with those of
    [Postgres] and [Chain] they are the whole chain, which has no [else]. *)

Module Others.
Import Postgres.

(** The operators of Python that these branches apply to values of any
    type and that the repository does not define. *)
Class PyOps : Type := {
  (** [format(x, spec)] for a number [x] and the specs [","], [",.2f"], [".2%"] *)
  format_number : string -> pyval -> string;
  (** [x + y], [x * y] and [x > y] *)
  add : pyval -> pyval -> outcome pyval;
  mul : pyval -> pyval -> outcome pyval;
  greater : pyval -> pyval -> outcome bool;
  (** [round(x, ndigits)] for a float [x] *)
  round_to : Z -> Q -> Q;
  (** [x[:n]] *)
  slice_to : Z -> pyval -> outcome pyval
}.

(** [format(x, spec)], what an f-string field [{x:spec}] does, for a numeric
    spec: a string is a [ValueError], what is no number a [TypeError]. *)
Definition format_spec {ops : PyOps} (spec : string) (x : pyval) : outcome string :=
  match x with
  | PStr _ => Raised ValueError
  | _ =>
      match number x with
      | Some _ => Returned (format_number spec x)
      | None => Raised TypeError
      end
  end.

(** [x or 0] *)
Definition or_zero (x : pyval) : pyval := if truthy x then x else PInt 0.

(** [x == n] for a number [n] *)
Definition eq_number (x : pyval) (n : Q) : bool :=
  match number x with
  | Some a => Qeq_bool a n
  | None => false
  end.

(** [s.replace(old, new)] for a one-character [old] *)
Fixpoint replace_char (old : ascii) (new : string) (s : string) : string :=
  match s with
  | EmptyString => EmptyString
  | String c s' =>
      if Ascii.eqb c old then new +:+ replace_char old new s'
      else String c (replace_char old new s')
  end.

(** [x.replace(old, new)]: only a string has the method. *)
Definition replace (x : pyval) (old : ascii) (new : string) : outcome string :=
  match x with
  | PStr s => Returned (replace_char old new s)
  | _ => Raised AttributeError
  end.

Definition newline : ascii := ascii_of_N 10.
Definition carriage_return : ascii := ascii_of_N 13.

(** [s[:n]] for a string: its first [n] code points. *)
Fixpoint take_code_points (n : nat) (s : string) : string :=
  match n, s with
  | S n', String c s' =>
      let k := take_continuation s' in
      String c k
        +:+ take_code_points n'
              (String.substring (String.length k) (String.length s') s')
  | _, _ => EmptyString
  end.

(** [x.endswith(suffix)]: only a string has the method. *)
Definition endswith (x : pyval) (suffix : string) : outcome bool :=
  match x with
  | PStr s => Returned (String.prefix (String.rev suffix) (String.rev s))
  | _ => Raised AttributeError
  end.

(** [[d for d in items if test(d)]] for a test that may raise *)
Fixpoint select (test : pyval -> outcome bool) (items : list pyval)
  : outcome (list pyval) :=
  match items with
  | [] => Returned []
  | d :: items' =>
      keep ← test d;
      kept ← select test items';
      Returned (if (keep : bool) then d :: kept else kept)
  end.

(** [next((x for x in items if test(x)), None)] *)
Fixpoint first_match (test : pyval -> outcome bool) (items : list pyval)
  : outcome pyval :=
  match items with
  | [] => Returned PNone
  | x :: items' =>
      found ← test x;
      if (found : bool) then Returned x else first_match test items'
  end.

Section Others.
Context {lib : PyLib} {ops : PyOps}.

(** [elif skill == "get_top_sql_by_time"] *)
Definition top_sql (_ : unit) (item : pyval) : M unit :=
  query ← lift (getitem item "query");
  query ← lift (replace query newline " ");
  let query_text :=
    take_code_points 80 (replace_char carriage_return "" query) +:+ "..." in
  total_minutes ← lift (getitem item "total_minutes");
  avg_ms ← lift (getitem item "avg_ms");
  calls ← lift (getitem item "calls");
  append ("| " +:+ str total_minutes +:+ " | " +:+ str avg_ms +:+ " | "
          +:+ str calls +:+ " | `" +:+ query_text +:+ "` |").

Definition branch_get_top_sql_by_time (data notes : pyval) : M unit :=
  append "### 🟡 INFO: Top 5 Queries by Total Execution Time";;
  if truthy data then
    append "| Total Mins | Avg ms | Calls | Query |";;
    append "|---|---|---|---|";;
    items ← lift (iter data);
    for_each items top_sql tt
  else
    missing ← lift (contains_str "does not exist" notes);
    if (missing : bool) then
      append "`pg_stat_statements` extension is not installed or available."
    else
      append "Could not retrieve Top SQL data.".

(** [elif skill == "get_xid_wraparound_risk"]; the loop has no [if data]
    around it. *)
Definition xid_database (has_risk : bool) (db : pyval) : M bool :=
  age ← lift (get db "xid_age" (PInt 0));
  percent ← lift (get db "percentage_used" (PInt 0));
  critical ← lift (gt age (inject_Z 1800000000));   (* ~85% *)
  if (critical : bool) then
    datname ← lift (getitem db "datname");
    age_text ← lift (format_spec "," age);
    append ("- **" +:+ str datname +:+ "**: ❌ **CRITICAL** - " +:+ str percent
            +:+ "% used (" +:+ age_text +:+ " transactions old)");;
    _update_status "❌ ERROR";;
    mret true
  else
    elevated ← lift (gt age (inject_Z 1500000000));   (* ~70% *)
    if (elevated : bool) then
      datname ← lift (getitem db "datname");
      age_text ← lift (format_spec "," age);
      append ("- **" +:+ str datname +:+ ":** 🟠 **WARNING** - " +:+ str percent
              +:+ "% used (" +:+ age_text +:+ " transactions old)");;
      _update_status "🟠 WARNING";;
      mret true
    else mret has_risk.

Definition branch_get_xid_wraparound_risk (data : pyval) : M unit :=
  append "### 🟡 INFO: Transaction ID Wraparound Risk";;
  items ← lift (iter data);
  has_risk ← for_each items xid_database false;
  if negb (has_risk : bool) then
    append "All databases are well below the wraparound threshold."
  else mret tt.

(** [elif skill == "get_freeze_prediction"] *)
Definition freeze_item (flags : bool * bool) (item : pyval) : M (bool * bool) :=
  status ← lift (getitem item "freeze_status");
  overdue ← lift (if eq_str status "CRITICAL" then Returned true
                  else endswith status "_OVERDUE");
  let flags :=
    if (overdue : bool) then (true, snd flags)
    else if eq_str status "WARNING" then (fst flags, true)
    else flags in
  mxid_remain ← lift (get item "mxid_remain_ages" PNone);
  let mxid_str := match mxid_remain with PNone => "N/A" | _ => str mxid_remain end in
  schemaname ← lift (getitem item "schemaname");
  table_name ← lift (getitem item "table_name");
  total_size ← lift (getitem item "total_size");
  xid_remain ← lift (getitem item "xid_remain_ages" ≫= format_spec ",");
  append ("| " +:+ str schemaname +:+ " | `" +:+ str table_name +:+ "` | "
          +:+ str total_size +:+ " | " +:+ xid_remain +:+ " | " +:+ mxid_str
          +:+ " | **" +:+ str status +:+ "** |");;
  mret flags.

Definition branch_get_freeze_prediction (data : pyval) : M unit :=
  append "### 🟡 INFO: Freeze Storm Prediction (XID/MXID Wraparound)";;
  if truthy data then
    append "| Schema | Table Name | Total Size | XID Remain | MXID Remain | Status |";;
    append "|---|---|---|---|---|---|";;
    items ← lift (iter data);
    flags ← for_each items freeze_item (false, false);
    if fst (flags : bool * bool) then
      n ← report_len;
      k ← lift (len data);
      setitem (n - k - 2) "### ❌ ERROR: Critical Freeze Storm Risk Detected!";;
      _update_status "❌ ERROR"
    else if snd flags then
      n ← report_len;
      k ← lift (len data);
      setitem (n - k - 2) "### 🟠 WARNING: Freeze Storm Risk Detected";;
      _update_status "🟠 WARNING"
    else mret tt
  else
    append "No tables are currently approaching XID/MXID freeze limits.".

(** [elif skill == "get_stale_statistics"] *)
Definition stale_table (_ : unit) (item : pyval) : M unit :=
  schemaname ← lift (getitem item "schemaname");
  relname ← lift (getitem item "relname");
  n_live_tup ← lift (getitem item "n_live_tup" ≫= format_spec ",");
  modified_percent ← lift (getitem item "modified_percent");
  last_autoanalyze ← lift (getitem item "last_autoanalyze");
  append ("| " +:+ str schemaname +:+ " | `" +:+ str relname +:+ "` | "
          +:+ n_live_tup +:+ " | " +:+ str modified_percent +:+ "% | "
          +:+ str last_autoanalyze +:+ " |").

Definition branch_get_stale_statistics (data : pyval) : M unit :=
  append "### 🟡 INFO: Stale Table Statistics";;
  if truthy data then
    append "### 🟠 WARNING: Tables with Stale Statistics Found";;
    append "The following tables have had >10% of their rows modified since the last ANALYZE. Outdated stats can lead to poor query plans.";;
    append "| Schema | Table Name | Live Tuples | Modified % | Last Auto-Analyze |";;
    append "|---|---|---|---|---|";;
    items ← lift (iter data);
    for_each items stale_table tt;;
    _update_status "🟠 WARNING"
  else
    append "Table statistics appear to be up-to-date.".

(** [elif skill == "get_io_statistics"] *)
Definition branch_get_io_statistics (data : pyval) : M unit :=
  append "### 🟡 INFO: I/O Statistics";;
  if truthy data then
    io_stats ← lift (getitem0 data);
    temp_files ← lift (get io_stats "temp_files" (PInt 0));
    temp_bytes ← lift (get io_stats "temp_bytes" (PInt 0));
    blks_read ← lift (get io_stats "blks_read" (PInt 0));
    blks_hit ← lift (get io_stats "blks_hit" (PInt 0));
    total_blks ← lift (get io_stats "total_blks" (PInt 0));
    blk_read_time ← lift (get io_stats "blk_read_time" (PInt 0));
    blk_write_time ← lift (get io_stats "blk_write_time" (PInt 0));
    append ("- **Temp Files:** " +:+ str temp_files);;
    temp_bytes_pretty ← lift (get io_stats "temp_bytes_pretty" (PStr "N/A"));
    append ("- **Temp Bytes:** " +:+ str temp_bytes_pretty);;
    text ← lift (format_spec "," blks_read);
    append ("- **Blocks Read:** " +:+ text);;
    text ← lift (format_spec "," blks_hit);
    append ("- **Blocks Hit:** " +:+ text);;
    text ← lift (format_spec "," total_blks);
    append ("- **Total Blocks:** " +:+ text);;
    append ("- **Read Time (ms):** " +:+ str blk_read_time);;
    append ("- **Write Time (ms):** " +:+ str blk_write_time);;
    many ← lift (gt temp_files 100);
    if (many : bool) then
      append "### 🟠 WARNING: High Temp File Usage";;
      append "Large number of temp files may indicate inefficient queries or insufficient work_mem.";;
      _update_status "🟠 WARNING"
    else mret tt
  else
    append "Unable to retrieve I/O statistics.".

(** [elif skill == "get_io_statistics_v2"] *)
Definition io_row (_ : unit) (item : pyval) : M unit :=
  backend ← lift (get item "backend_type" (PStr "N/A"));
  obj ← lift (get item "object" (PStr "N/A"));
  ctx ← lift (get item "context" (PStr "N/A"));
  reads ← lift (get item "reads" (PInt 0));
  let reads := or_zero reads in
  writes ← lift (get item "writes" (PInt 0));
  let writes := or_zero writes in
  read_bytes ← lift (get item "read_bytes_pretty" (PStr "0 bytes"));
  write_bytes ← lift (get item "write_bytes_pretty" (PStr "0 bytes"));
  reads_text ← lift (format_spec "," reads);
  writes_text ← lift (format_spec "," writes);
  append ("| " +:+ str backend +:+ " | " +:+ str obj +:+ " | " +:+ str ctx +:+ " | "
          +:+ reads_text +:+ " | " +:+ str read_bytes +:+ " | " +:+ writes_text
          +:+ " | " +:+ str write_bytes +:+ " |").

Definition is_client_backend (x : pyval) : outcome bool :=
  backend_type ← get x "backend_type" PNone;
  if eq_str backend_type "client backend" then
    obj ← get x "object" PNone;
    Returned (eq_str obj "relation")
  else Returned false.

Definition branch_get_io_statistics_v2 (data : pyval) : M unit :=
  append "### 🟡 INFO: Extended I/O Statistics (pg_stat_io)";;
  if truthy data then
    append "| Backend Type | Object | Context | Reads | Read Bytes | Writes | Write Bytes |";;
    append "|---|---|---|---|---|---|---|";;
    items ← lift (slice_to 15 data ≫= iter);
    for_each items io_row tt;;
    client_backend ← lift (iter data ≫= first_match is_client_backend);
    if truthy client_backend then
      reads ← lift (get client_backend "reads" (PInt 0));
      let reads := or_zero reads in
      hits ← lift (get client_backend "hits" (PInt 0));
      let hits := or_zero hits in
      some ← lift (gt reads 0);
      hit_ratio ← (if (some : bool)
                   then lift (total ← add reads hits;
                              ratio ← truediv hits total;
                              Returned (ratio * 100)%Q)
                   else mret (inject_Z 0));
      append (nl +:+ "**Client Backend Relation I/O:**");;
      reads_text ← lift (format_spec "," reads);
      hits_text ← lift (format_spec "," hits);
      append ("- Reads: " +:+ reads_text +:+ ", Hits: " +:+ hits_text);;
      append ("- Hit Ratio: " +:+ format_fixed 2 hit_ratio +:+ "%")
    else mret tt
  else
    append "No I/O statistics available (pg_stat_io may not be available in this PostgreSQL version).".

(** [elif skill == "get_analyze_progress"] *)
Definition analyze_progress (_ : unit) (item : pyval) : M unit :=
  phase ← lift (get item "phase" (PStr "unknown"));
  progress_pct ← lift (get item "scan_progress_pct" (PInt 0));
  pid ← lift (get item "pid" (PStr "N/A"));
  relname ← lift (get item "relname" (PStr "N/A"));
  datname ← lift (get item "datname" (PStr "N/A"));
  append ("- **PID " +:+ str pid +:+ "**: Analyzing `" +:+ str relname +:+ "` in `"
          +:+ str datname +:+ "`");;
  append ("  - Phase: " +:+ str phase);;
  scanned ← lift (get item "sample_blks_scanned" (PInt 0));
  total ← lift (get item "sample_blks_total" (PInt 0));
  append ("  - Progress: " +:+ str progress_pct +:+ "% (" +:+ str scanned +:+ "/"
          +:+ str total +:+ " blocks)");;
  if eq_str phase "acquiring sample rows"
     || eq_str phase "acquiring inherited sample rows" then
    progress ← lift (float (or_zero progress_pct));
    throttled ← (if Qltb progress 5
                 then delay_time ← lift (get item "delay_time" (PInt 0));
                      lift (gt delay_time 60000)
                 else mret false);
    if (throttled : bool) then
      append "  - ⚠️ WARNING: ANALYZE may be throttled by vacuum_cost_delay";;
      _update_status "🟠 WARNING"
    else mret tt
  else mret tt.

Definition branch_get_analyze_progress (data : pyval) : M unit :=
  append "### 🟡 INFO: ANALYZE Progress";;
  if truthy data then
    items ← lift (iter data);
    for_each items analyze_progress tt
  else
    append "No ANALYZE operations currently running.".

(** [elif skill == "get_create_index_progress"] *)
Definition create_index_progress (_ : unit) (item : pyval) : M unit :=
  phase ← lift (get item "phase" (PStr "unknown"));
  pid ← lift (get item "pid" (PStr "N/A"));
  index_name ← lift (get item "index_name" (PStr "N/A"));
  table_name ← lift (get item "table_name" (PStr "N/A"));
  append ("- **PID " +:+ str pid +:+ "**: Creating index `" +:+ str index_name
          +:+ "` on `" +:+ str table_name +:+ "`");;
  command ← lift (get item "command" (PStr "N/A"));
  append ("  - Command: " +:+ str command);;
  append ("  - Phase: " +:+ str phase);;
  blks_done ← lift (get item "blks_done" (PInt 0));
  blks_total ← lift (get item "blks_total" (PInt 0));
  tuples_done ← lift (get item "tuples_done" (PInt 0));
  tuples_total ← lift (get item "tuples_total" (PInt 0));
  append ("  - Progress: " +:+ str blks_done +:+ "/" +:+ str blks_total
          +:+ " blocks, " +:+ str tuples_done +:+ "/" +:+ str tuples_total
          +:+ " tuples");;
  waiting ← lift (contains_str "waiting for writers" phase);
  if (waiting : bool) then
    append "  - ⚠️ Waiting for other transactions to release locks"
  else mret tt.

Definition branch_get_create_index_progress (data : pyval) : M unit :=
  append "### 🟡 INFO: CREATE INDEX / REINDEX Progress";;
  if truthy data then
    items ← lift (iter data);
    for_each items create_index_progress tt
  else
    append "No CREATE INDEX or REINDEX operations currently running.".

(** [elif skill == "get_cluster_progress"] *)
Definition cluster_progress (_ : unit) (item : pyval) : M unit :=
  phase ← lift (get item "phase" (PStr "unknown"));
  pid ← lift (get item "pid" (PStr "N/A"));
  relname ← lift (get item "relname" (PStr "N/A"));
  datname ← lift (get item "datname" (PStr "N/A"));
  append ("- **PID " +:+ str pid +:+ "**: Clustering `" +:+ str relname +:+ "` in `"
          +:+ str datname +:+ "`");;
  command ← lift (get item "command" (PStr "N/A"));
  append ("  - Command: " +:+ str command);;
  append ("  - Phase: " +:+ str phase);;
  tuples_done ← lift (get item "tuples_done" (PInt 0));
  tuples_total ← lift (get item "tuples_total" (PInt 0));
  append ("  - Progress: " +:+ str tuples_done +:+ "/" +:+ str tuples_total
          +:+ " tuples");;
  if eq_str phase "sorting tuples" then
    tuples_done ← lift (get item "tuples_done" (PInt 0));
    if eq_number tuples_done 0 then
      append "  - ⚠️ May indicate insufficient maintenance_work_mem"
    else mret tt
  else mret tt.

Definition branch_get_cluster_progress (data : pyval) : M unit :=
  append "### 🟡 INFO: CLUSTER / VACUUM FULL Progress";;
  if truthy data then
    items ← lift (iter data);
    for_each items cluster_progress tt
  else
    append "No CLUSTER or VACUUM FULL operations currently running.".

(** [elif skill == "get_wal_statistics"] *)
Definition branch_get_wal_statistics (data : pyval) : M unit :=
  append "### 🟡 INFO: WAL Statistics";;
  if truthy data then
    wal ← lift (getitem0 data);
    wal_buffers_full ← lift (get wal "wal_buffers_full" (PInt 0));
    text ← lift (get wal "wal_records" (PInt 0) ≫= format_spec ",");
    append ("- **WAL Records:** " +:+ text);;
    text ← lift (get wal "wal_fpi" (PInt 0) ≫= format_spec ",");
    append ("- **WAL FPI:** " +:+ text);;
    wal_bytes_pretty ← lift (get wal "wal_bytes_pretty" (PStr "N/A"));
    append ("- **WAL Bytes:** " +:+ str wal_bytes_pretty);;
    text ← lift (format_spec "," wal_buffers_full);
    append ("- **Buffers Full:** " +:+ text);;
    wal_write ← lift (get wal "wal_write" (PInt 0));
    append ("- **Write Time:** " +:+ str wal_write +:+ " ms");;
    wal_sync ← lift (get wal "wal_sync" (PInt 0));
    append ("- **Sync Time:** " +:+ str wal_sync +:+ " ms");;
    many ← lift (gt wal_buffers_full 100);
    if (many : bool) then
      append "### 🟠 WARNING: High wal_buffers_full count";;
      append "Consider increasing wal_buffers or optimizing write workload.";;
      _update_status "🟠 WARNING"
    else mret tt
  else
    append "Unable to retrieve WAL statistics.".

(** [elif skill == "get_checkpointer_stats"] *)
Definition branch_get_checkpointer_stats (data : pyval) : M unit :=
  append "### 🟡 INFO: Checkpointer Statistics";;
  if truthy data then
    cp ← lift (getitem0 data);
    timed ← lift (get cp "checkpoints_timed" (PInt 0));
    requested ← lift (get cp "checkpoints_req" (PInt 0));
    write_time ← lift (get cp "checkpoint_write_time" (PInt 0));
    sync_time ← lift (get cp "checkpoint_sync_time" (PInt 0));
    buffers_written ← lift (get cp "buffers_written" (PInt 0));
    append ("- **Timed Checkpoints:** " +:+ str timed);;
    append ("- **Requested Checkpoints:** " +:+ str requested);;
    text ← lift (format_spec "," buffers_written);
    append ("- **Buffers Written:** " +:+ text);;
    append ("- **Write Time:** " +:+ str write_time +:+ " ms");;
    append ("- **Sync Time:** " +:+ str sync_time +:+ " ms");;
    often ← lift (mul timed (PInt 2) ≫= greater requested);
    (if (often : bool) then
       append "### 🟠 WARNING: High ratio of requested checkpoints";;
       append "Consider tuning max_wal_size or checkpoint_timeout.";;
       _update_status "🟠 WARNING"
     else mret tt);;
    slow ← lift (slow_write ← gt write_time 10000;
                 if (slow_write : bool) then Returned true else gt sync_time 10000);
    if (slow : bool) then
      append "### 🟠 WARNING: High checkpoint I/O time";;
      append "Consider faster storage or tuning checkpoint segments.";;
      _update_status "🟠 WARNING"
    else mret tt
  else
    append "Unable to retrieve checkpointer statistics.".

(** [elif skill == "get_slru_stats"] *)
Definition slru_row (_ : unit) (item : pyval) : M unit :=
  hits ← lift (get item "blks_hit" (PInt 0));
  reads ← lift (get item "blks_read" (PInt 0));
  total ← lift (add hits reads);
  some ← lift (gt total 0);
  hit_ratio ← (if (some : bool)
               then ratio ← lift (truediv hits total);
                    mret (PFloat (round_to 2 (ratio * 100)%Q))
               else mret (PInt 0));
  name ← lift (get item "name" (PStr "N/A"));
  hits_text ← lift (format_spec "," hits);
  reads_text ← lift (format_spec "," reads);
  append ("| " +:+ str name +:+ " | " +:+ hits_text +:+ " | " +:+ reads_text
          +:+ " | " +:+ str hit_ratio +:+ "% |");;
  low ← lift (low_ratio ← lt hit_ratio 90;
              if (low_ratio : bool) then gt reads 1000 else Returned false);
  if (low : bool) then
    name ← lift (get item "name" (PStr "N/A"));
    append ("  - ⚠️ Low hit ratio for " +:+ str name)
  else mret tt.

Definition branch_get_slru_stats (data : pyval) : M unit :=
  append "### 🟡 INFO: SLRU Cache Statistics";;
  if truthy data then
    append "| SLRU Name | Hits | Reads | Hit Ratio |";;
    append "|---|---|---|---|";;
    items ← lift (iter data);
    for_each items slru_row tt
  else
    append "No significant SLRU activity detected.".

(** [elif skill == "get_database_conflict_stats"] *)
Definition conflict_row (has_conflicts : bool) (item : pyval) : M bool :=
  conflicts ← lift (get item "conflict_all" (PInt 0));
  some ← lift (gt conflicts 0);
  if (some : bool) then
    datname ← lift (get item "datname" (PStr "N/A"));
    text ← lift (format_spec "," conflicts);
    append ("- **" +:+ str datname +:+ "**: " +:+ text +:+ " conflicts");;
    tablespace ← lift (get item "conflict_tablespace" (PInt 0));
    append ("  - Tablespace: " +:+ str tablespace);;
    lock ← lift (get item "conflict_lock" (PInt 0));
    append ("  - Lock: " +:+ str lock);;
    snapshot ← lift (get item "conflict_snapshot" (PInt 0));
    append ("  - Snapshot: " +:+ str snapshot);;
    bufferpin ← lift (get item "conflict_bufferpin" (PInt 0));
    append ("  - Bufferpin: " +:+ str bufferpin);;
    deadlock ← lift (get item "conflict_deadlock" (PInt 0));
    append ("  - Deadlock: " +:+ str deadlock);;
    snapshot ← lift (get item "conflict_snapshot" (PInt 0));
    snapshots ← lift (gt snapshot 0);
    (if (snapshots : bool) then
       append "  - ⚠️ Consider increasing hot_standby_feedback"
     else mret tt);;
    mret true
  else mret has_conflicts.

Definition branch_get_database_conflict_stats (data : pyval) : M unit :=
  append "### 🟡 INFO: Database Conflict Statistics (Standby)";;
  if truthy data then
    items ← lift (iter data);
    has_conflicts ← for_each items conflict_row false;
    if (has_conflicts : bool) then
      append "### 🟠 WARNING: Standby conflicts detected";;
      append "Conflicts may indicate need to tune max_standby_streaming_delay";;
      _update_status "🟠 WARNING"
    else
      append "No recovery conflicts detected."
  else
    append "No standby conflict statistics available.".

(** [elif skill == "get_user_function_stats"] *)
Definition function_row (_ : unit) (item : pyval) : M unit :=
  schemaname ← lift (get item "schemaname" (PStr "N/A"));
  funcname ← lift (get item "funcname" (PStr "N/A"));
  calls ← lift (get item "calls" (PInt 0) ≫= format_spec ",");
  total_time ← lift (get item "total_time" (PInt 0) ≫= fixed 2);
  avg_time ← lift (get item "avg_time_ms" (PInt 0) ≫= fixed 2);
  append ("| " +:+ str schemaname +:+ "." +:+ str funcname +:+ " | " +:+ calls
          +:+ " | " +:+ total_time +:+ " | " +:+ avg_time +:+ " |").

(** The body of [for i, item in enumerate(data[:3])]. *)
Definition top_function (i : Z) (item : pyval) : M Z :=
  total_time ← lift (get item "total_time" (PInt 0) ≫= float);
  (if Qltb 1000 total_time then
     schemaname ← lift (get item "schemaname" (PStr "N/A"));
     funcname ← lift (get item "funcname" (PStr "N/A"));
     total_time ← lift (get item "total_time" (PInt 0) ≫= fixed 2);
     append ("  " +:+ pretty (i + 1) +:+ ". " +:+ str schemaname +:+ "."
             +:+ str funcname +:+ ": " +:+ total_time +:+ " ms total")
   else mret tt);;
  mret (i + 1).

Definition branch_get_user_function_stats (data : pyval) : M unit :=
  append "### 🟡 INFO: User Function Statistics";;
  if truthy data then
    append "| Function | Calls | Total Time (ms) | Avg Time (ms) |";;
    append "|---|---|---|---|";;
    items ← lift (iter data);
    for_each items function_row tt;;
    append "";;
    append "Top time-consuming functions:";;
    items ← lift (slice_to 3 data ≫= iter);
    for_each items top_function 0;;
    mret tt
  else
    append "No user function statistics available (track_functions may be off).".

(** [elif skill == "get_lock_waiters"] *)
Definition lock_waiter (_ : unit) (item : pyval) : M unit :=
  blocked_query ← lift (get item "blocked_query" (PStr ""));
  let blocked_query :=
    replace_char newline " " (take_code_points 60 (str blocked_query)) in
  blocking_query ← lift (get item "blocking_query" (PStr ""));
  let blocking_query :=
    replace_char newline " " (take_code_points 60 (str blocking_query)) in
  blocked_pid ← lift (get item "blocked_pid" (PStr "N/A"));
  blocked_user ← lift (get item "blocked_user" (PStr "N/A"));
  blocking_pid ← lift (get item "blocking_pid" (PStr "N/A"));
  blocking_user ← lift (get item "blocking_user" (PStr "N/A"));
  blocked_mode ← lift (get item "blocked_mode" (PStr "N/A"));
  blocked_relation ← lift (get item "blocked_relation" (PStr "N/A"));
  append ("| " +:+ str blocked_pid +:+ " | " +:+ str blocked_user +:+ " | `"
          +:+ blocked_query +:+ "` | " +:+ str blocking_pid +:+ " | "
          +:+ str blocking_user +:+ " | " +:+ str blocked_mode +:+ " | "
          +:+ str blocked_relation +:+ " |").

Definition branch_get_lock_waiters (data : pyval) : M unit :=
  append "### 🟡 INFO: Lock Waiters (Potential Deadlock Risk)";;
  if truthy data then
    n ← lift (len data);
    (if 5 <? n then
       append "### 🟠 WARNING: Multiple Lock Waiters Detected";;
       n ← lift (len data);
       append ("Found " +:+ pretty n +:+ " sessions waiting for locks. This may indicate potential deadlock risks.");;
       _update_status "🟠 WARNING"
     else
       append "### ✅ OK: Few Lock Waiters");;
    append "| Blocked PID | Blocked User | Blocked Query | Blocking PID | Blocking User | Blocked Mode | Relation |";;
    append "|---|---|---|---|---|---|---|";;
    items ← lift (iter data);
    for_each items lock_waiter tt
  else
    append "### ✅ OK: No Lock Waiters Detected".

(** [elif skill == "get_multixid_wraparound_risk"] *)
Definition multixid_database (has_risk : bool) (db : pyval) : M bool :=
  status ← lift (get db "status" (PStr "OK"));
  datname ← lift (get db "datname" (PStr "N/A"));
  mxid_age ← lift (get db "mxid_age" (PInt 0));
  remaining ← lift (get db "remaining_to_autovacuum" PNone);
  if eq_str status "INVALID_OR_FROZEN" then
    append ("- **" +:+ str datname
            +:+ "**: ✅ **FROZEN/INVALID** - datminmxid is frozen or invalid (no risk)");;
    mret has_risk
  else if eq_str status "FROZEN" then
    append ("- **" +:+ str datname
            +:+ "**: ✅ **FROZEN** - MultiXactIds are frozen (no risk)");;
    mret has_risk
  else if eq_str status "FORCE_AUTOVACUUM" then
    text ← lift (format_spec "," remaining);
    append ("- **" +:+ str datname
            +:+ "**: 🟠 **FORCE AUTOVACUUM** - Autovacuum will be forced ("
            +:+ text +:+ " remaining)");;
    _update_status "🟠 WARNING";;
    mret true
  else if eq_str status "CRITICAL" then
    text ← lift (format_spec "," mxid_age);
    append ("- **" +:+ str datname
            +:+ "**: ❌ **CRITICAL** - Approaching wraparound (" +:+ text +:+ " age)");;
    _update_status "❌ ERROR";;
    mret true
  else if eq_str status "WARNING" then
    text ← lift (format_spec "," mxid_age);
    append ("- **" +:+ str datname
            +:+ "**: 🟠 **WARNING** - Getting close to wraparound (" +:+ text
            +:+ " age)");;
    _update_status "🟠 WARNING";;
    mret true
  else
    text ← lift (format_spec "," remaining);
    append ("- **" +:+ str datname +:+ "**: ✅ **OK** - " +:+ text
            +:+ " MultiXactIds remaining before forced autovacuum");;
    mret has_risk.

Definition branch_get_multixid_wraparound_risk (data : pyval) : M unit :=
  append "### 🟡 INFO: MultiXactId Wraparound Risk";;
  has_risk ← (if truthy data then
                items ← lift (iter data);
                for_each items multixid_database false
              else mret false);
  if negb (has_risk : bool) then
    append "All databases are well below the MultiXactId wraparound threshold."
  else mret tt.

(** [elif skill == "get_connection_security_status"] *)
Definition unencrypted_connection (_ : unit) (conn : pyval) : M unit :=
  datname ← lift (get conn "datname" (PStr "N/A"));
  usename ← lift (get conn "usename" (PStr "N/A"));
  client_addr ← lift (get conn "client_addr" (PStr "N/A"));
  connection_type ← lift (get conn "connection_type" (PStr "N/A"));
  append ("| " +:+ str datname +:+ " | " +:+ str usename +:+ " | "
          +:+ str client_addr +:+ " | " +:+ str connection_type +:+ " |").

Definition branch_get_connection_security_status (data : pyval) : M unit :=
  append "### 🟡 INFO: Connection Security Status (SSL/GSSAPI)";;
  if truthy data then
    unencrypted ← lift (iter data ≫= select (fun d =>
                          t ← get d "connection_type" PNone;
                          Returned (eq_str t "unencrypted")));
    ssl ← lift (iter data ≫= select (fun d =>
                  e ← get d "ssl_enabled" PNone; Returned (eq_number e 1)));
    gssapi ← lift (iter data ≫= select (fun d =>
                     e ← get d "gssapi_encryption" PNone; Returned (eq_number e 1)));
    local ← lift (iter data ≫= select (fun d =>
                    t ← get d "connection_type" PNone; Returned (eq_str t "local")));
    append ("- **SSL Encrypted:** " +:+ pretty (length ssl) +:+ " connections");;
    append ("- **GSSAPI Encrypted:** " +:+ pretty (length gssapi) +:+ " connections");;
    append ("- **Local (Unix Socket):** " +:+ pretty (length local) +:+ " connections");;
    append ("- **Unencrypted (TCP):** " +:+ pretty (length unencrypted)
            +:+ " connections");;
    match unencrypted with
    | [] => mret tt
    | _ =>
        append "### 🟠 WARNING: Unencrypted Remote Connections Detected";;
        append "The following connections are not encrypted:";;
        append "| Database | User | Client Address | Connection Type |";;
        append "|---|---|---|---|";;
        for_each (firstn 10 unencrypted) unencrypted_connection tt;;   (* Show first 10 *)
        _update_status "🟠 WARNING"
    end
  else
    append "No connection security data available.".

(** [elif skill == "get_total_temp_bytes"] *)
Fixpoint sum_floats (key : string) (items : list pyval) (total : Q) : outcome Q :=
  match items with
  | [] => Returned total
  | item :: items' =>
      x ← get item key (PInt 0) ≫= float;
      sum_floats key items' (total + x)%Q
  end.

Definition temp_bytes_row (_ : unit) (item : pyval) : M unit :=
  datname ← lift (get item "datname" (PStr "N/A"));
  temp_files ← lift (get item "temp_files" (PInt 0) ≫= format_spec ",");
  temp_bytes_pretty ← lift (get item "temp_bytes_pretty" (PStr "N/A"));
  append ("| " +:+ str datname +:+ " | " +:+ temp_files +:+ " | "
          +:+ str temp_bytes_pretty +:+ " |").

Definition branch_get_total_temp_bytes (data : pyval) : M unit :=
  append "### 🟡 INFO: Total Temp Bytes Usage";;
  if truthy data then
    total_gb ← lift (iter data ≫= fun items => sum_floats "temp_bytes_gb" items 0);
    append ("**Total Temp Space Used:** " +:+ format_fixed 2 total_gb +:+ " GB");;
    append "";;
    append "| Database | Temp Files | Temp Size |";;
    append "|---|---|---|";;
    items ← lift (iter data);
    for_each items temp_bytes_row tt;;
    if Qltb 10 total_gb then   (* More than 10GB *)
      append "### 🟠 WARNING: High Temporary File Usage";;
      append "Large temporary file usage may indicate insufficient work_mem or inefficient queries.";;
      _update_status "🟠 WARNING"
    else mret tt
  else
    append "No databases exceed the temp bytes threshold.".

(** [elif skill == "get_checkpointer_write_sync_time"] *)
Definition branch_get_checkpointer_write_sync_time (data : pyval) : M unit :=
  append "### 🟡 INFO: Checkpointer Write/Sync Time Analysis";;
  if truthy data then
    cp ← lift (getitem0 data);
    write_time ← lift (get cp "write_time_ms" (PInt 0));
    sync_time ← lift (get cp "sync_time_ms" (PInt 0));
    avg_write ← lift (get cp "avg_write_time_per_checkpoint_ms" (PInt 0));
    avg_sync ← lift (get cp "avg_sync_time_per_checkpoint_ms" (PInt 0));
    num_timed ← lift (get cp "num_timed" (PInt 0));
    num_requested ← lift (get cp "num_requested" (PInt 0));
    status ← lift (get cp "checkpointer_status" (PStr "OK"));
    text ← lift (format_spec ",.2f" write_time);
    append ("- **Total Write Time:** " +:+ text +:+ " ms");;
    text ← lift (format_spec ",.2f" sync_time);
    append ("- **Total Sync Time:** " +:+ text +:+ " ms");;
    text ← lift (format_spec ",.2f" avg_write);
    append ("- **Avg Write per Checkpoint:** " +:+ text +:+ " ms");;
    text ← lift (format_spec ",.2f" avg_sync);
    append ("- **Avg Sync per Checkpoint:** " +:+ text +:+ " ms");;
    append ("- **Timed Checkpoints:** " +:+ str num_timed);;
    append ("- **Requested Checkpoints:** " +:+ str num_requested);;
    if eq_str status "WARNING" then
      often ← lift (mul num_timed (PInt 2) ≫= greater num_requested);
      (if (often : bool) then
         append "### 🟠 WARNING: High Requested Checkpoint Ratio";;
         append "Too many requested checkpoints vs timed checkpoints. Consider increasing max_wal_size.";;
         _update_status "🟠 WARNING"
       else mret tt);;
      slow ← lift (slow_write ← gt avg_write 5000;
                   if (slow_write : bool) then Returned true else gt avg_sync 5000);
      if (slow : bool) then
        append "### 🟠 WARNING: High Checkpoint I/O Time";;
        append "Average checkpoint write/sync time is high. Consider faster storage or checkpoint tuning.";;
        _update_status "🟠 WARNING"
      else mret tt
    else mret tt
  else
    append "Unable to retrieve checkpointer statistics.".

(** [elif skill == "get_logical_replication_status"] *)
Definition subscription (has_lag : bool) (item : pyval) : M bool :=
  send_lag ← lift (get item "send_lag_sec" (PInt 0));
  recv_lag ← lift (get item "receive_lag_sec" (PInt 0));
  subname ← lift (get item "subname" (PStr "N/A"));
  send_text ← lift (fixed 2 send_lag);
  recv_text ← lift (fixed 2 recv_lag);
  append ("| " +:+ str subname +:+ " | " +:+ send_text +:+ " | " +:+ recv_text
          +:+ " |");;
  behind ← lift (sending ← gt send_lag 300;
                 if (sending : bool) then Returned true else gt recv_lag 300);
  mret (if (behind : bool) then true else has_lag).   (* > 5 minutes *)

Definition branch_get_logical_replication_status (data : pyval) : M unit :=
  append "### 🟡 INFO: Logical Replication Status";;
  if truthy data then
    append "| Subscription | Send Lag (sec) | Receive Lag (sec) |";;
    append "|---|---|---|";;
    items ← lift (iter data);
    has_lag ← for_each items subscription false;
    if (has_lag : bool) then
      append "### 🟠 WARNING: Logical Replication Lag Detected";;
      append "Replication lag exceeds 5 minutes. Check network or subscriber performance.";;
      _update_status "🟠 WARNING"
    else mret tt
  else
    append "No logical replication subscriptions found.".

(** [elif skill == "get_long_running_prepared_transactions"] *)
Definition prepared_transaction (_ : unit) (item : pyval) : M unit :=
  gid ← lift (get item "gid" (PStr "N/A"));
  owner ← lift (get item "owner" (PStr "N/A"));
  database ← lift (get item "database" (PStr "N/A"));
  duration ← lift (get item "duration" (PStr "N/A"));
  append ("| " +:+ str gid +:+ " | " +:+ str owner +:+ " | " +:+ str database
          +:+ " | " +:+ str duration +:+ " |").

Definition branch_get_long_running_prepared_transactions (data : pyval) : M unit :=
  append "### 🟡 INFO: Long-Running Prepared Transactions (2PC)";;
  if truthy data then
    append "### 🟠 WARNING: Long-Running Prepared Transactions Detected";;
    n ← lift (len data);
    append ("Found " +:+ pretty n +:+ " prepared transactions older than threshold. These hold locks and prevent WAL cleanup.");;
    append "| GID | Owner | Database | Duration |";;
    append "|---|---|---|---|";;
    items ← lift (iter data);
    for_each items prepared_transaction tt;;
    _update_status "🟠 WARNING"
  else
    append "### ✅ OK: No Long-Running Prepared Transactions".

(** [elif skill == "get_long_running_transactions"]; [query_text] is
    computed and not used. *)
Definition long_transaction (_ : unit) (item : pyval) : M unit :=
  query ← lift (get item "query" (PStr ""));
  let query_text := replace_char newline " " (take_code_points 50 (str query)) in
  pid ← lift (get item "pid" (PStr "N/A"));
  usename ← lift (get item "usename" (PStr "N/A"));
  datname ← lift (get item "datname" (PStr "N/A"));
  transaction_duration ← lift (get item "transaction_duration" (PStr "N/A"));
  state ← lift (get item "state" (PStr "N/A"));
  append ("| " +:+ str pid +:+ " | " +:+ str usename +:+ " | " +:+ str datname
          +:+ " | " +:+ str transaction_duration +:+ " | " +:+ str state +:+ " |").

Definition branch_get_long_running_transactions (data : pyval) : M unit :=
  append "### 🟡 INFO: Long-Running Transactions";;
  if truthy data then
    append "### 🟠 WARNING: Long-Running Transactions Detected";;
    n ← lift (len data);
    append ("Found " +:+ pretty n +:+ " transactions running longer than threshold. These may hold locks and prevent vacuum.");;
    append "| PID | User | Database | Duration | State |";;
    append "|---|---|---|---|---|";;
    items ← lift (iter data);
    for_each items long_transaction tt;;
    _update_status "🟠 WARNING"
  else
    append "### ✅ OK: No Long-Running Transactions".

(** [elif skill == "get_temp_file_usage"] *)
Definition temp_file_row (_ : unit) (item : pyval) : M unit :=
  datname ← lift (get item "datname" (PStr "N/A"));
  temp_files ← lift (get item "temp_files" (PInt 0) ≫= format_spec ",");
  temp_bytes_pretty ← lift (get item "temp_bytes_pretty" (PStr "N/A"));
  ratio ← lift (get item "temp_files_ratio" (PInt 0) ≫= format_spec ".2%");
  append ("| " +:+ str datname +:+ " | " +:+ temp_files +:+ " | "
          +:+ str temp_bytes_pretty +:+ " | " +:+ ratio +:+ " |").

(** [sum(item.get("temp_files", 0) for item in items)] *)
Fixpoint sum_values (key : string) (items : list pyval) (total : pyval)
  : outcome pyval :=
  match items with
  | [] => Returned total
  | item :: items' =>
      x ← get item key (PInt 0);
      total' ← add total x;
      sum_values key items' total'
  end.

Definition branch_get_temp_file_usage (data : pyval) : M unit :=
  append "### 🟡 INFO: Temporary File Usage by Database";;
  if truthy data then
    append "| Database | Temp Files | Temp Size | Temp Files Ratio |";;
    append "|---|---|---|---|";;
    items ← lift (iter data);
    for_each items temp_file_row tt;;
    total_temp_files ← lift (iter data ≫= fun items =>
                             sum_values "temp_files" items (PInt 0));
    many ← lift (gt total_temp_files 100);
    if (many : bool) then
      text ← lift (format_spec "," total_temp_files);
      append (nl +:+ "**Total Temp Files:** " +:+ text);;
      append "### 🟠 WARNING: High Temporary File Count";;
      append "High temp file usage may indicate inefficient queries or insufficient work_mem.";;
      _update_status "🟠 WARNING"
    else mret tt
  else
    append "No temporary file usage detected.".

(** The chain after the branches of [Postgres] and [Chain]; it has no
    [else], a skill of another name adds nothing. *)
Definition last_branches (result skill data notes : pyval) : M unit :=
  if eq_str skill "get_top_sql_by_time" then
    branch_get_top_sql_by_time data notes
  else if eq_str skill "get_xid_wraparound_risk" then
    branch_get_xid_wraparound_risk data
  else if eq_str skill "get_freeze_prediction" then
    branch_get_freeze_prediction data
  else if eq_str skill "get_stale_statistics" then
    branch_get_stale_statistics data
  else if eq_str skill "get_io_statistics" then
    branch_get_io_statistics data
  else if eq_str skill "get_io_statistics_v2" then
    branch_get_io_statistics_v2 data
  else if eq_str skill "get_analyze_progress" then
    branch_get_analyze_progress data
  else if eq_str skill "get_create_index_progress" then
    branch_get_create_index_progress data
  else if eq_str skill "get_cluster_progress" then
    branch_get_cluster_progress data
  else if eq_str skill "get_wal_statistics" then
    branch_get_wal_statistics data
  else if eq_str skill "get_checkpointer_stats" then
    branch_get_checkpointer_stats data
  else if eq_str skill "get_slru_stats" then
    branch_get_slru_stats data
  else if eq_str skill "get_database_conflict_stats" then
    branch_get_database_conflict_stats data
  else if eq_str skill "get_user_function_stats" then
    branch_get_user_function_stats data
  else if eq_str skill "get_lock_waiters" then
    branch_get_lock_waiters data
  else if eq_str skill "get_multixid_wraparound_risk" then
    branch_get_multixid_wraparound_risk data
  else if eq_str skill "get_connection_security_status" then
    branch_get_connection_security_status data
  else if eq_str skill "get_total_temp_bytes" then
    branch_get_total_temp_bytes data
  else if eq_str skill "get_checkpointer_write_sync_time" then
    branch_get_checkpointer_write_sync_time data
  else if eq_str skill "get_logical_replication_status" then
    branch_get_logical_replication_status data
  else if eq_str skill "get_long_running_prepared_transactions" then
    branch_get_long_running_prepared_transactions data
  else if eq_str skill "get_long_running_transactions" then
    branch_get_long_running_transactions data
  else if eq_str skill "get_temp_file_usage" then
    branch_get_temp_file_usage data
  else mret tt.

Definition rest_of_chain : RestOfChain := {| remaining_branches := last_branches |}.

End Others.
End Others.

(** ** The postgres agent with its whole chain *)

Module Whole.
Section Whole.
Context {lib : PyLib} {ops : Others.PyOps} {world : World}.

Definition whole_chain : Postgres.RestOfChain :=
  Chain.chain Others.rest_of_chain.

Definition _analyze_and_report (result : pyval) : Postgres.M unit :=
  Postgres._analyze_and_report (rest := whole_chain) result.

Definition run_checks : Postgres.M Postgres.artifacts :=
  Postgres.run_checks (rest := whole_chain).

Definition main (script_path : string) : Z :=
  Postgres.main (rest := whole_chain) script_path.

End Whole.
End Whole.

(** ** What the further properties say about rows and checks *)

Module Settings.

(** A row of [get_critical_settings] with the two keys the loop indexes. *)
Definition row_ok (item : pyval) : bool :=
  returns (getitem item "name") && returns (getitem item "setting").

(** [setting_name == "fsync" and setting_value != "on"] *)
Definition fsync_off (item : pyval) : bool :=
  match getitem item "name", getitem item "setting" with
  | Returned setting_name, Returned setting_value =>
      eq_str setting_name "fsync" && negb (eq_str setting_value "on")
  | _, _ => false
  end.

(** [setting_name == "synchronous_commit" and setting_value not in ["on", "local"]] *)
Definition commit_relaxed (item : pyval) : bool :=
  match getitem item "name", getitem item "setting" with
  | Returned setting_name, Returned setting_value =>
      eq_str setting_name "synchronous_commit"
      && negb (eq_str setting_value "on" || eq_str setting_value "local")
  | _, _ => false
  end.

(** The overall status once [item] has been looked at. *)
Definition status_after (current : string) (item : pyval) : string :=
  if fsync_off item then "❌ ERROR"
  else if commit_relaxed item && negb (String.eqb current "❌ ERROR") then "🟠 WARNING"
  else current.

End Settings.

Module Findings.

(** The checks of the postgres agent whose rows are findings as such: the
    branch tests [if data] and nothing else.  For each the keys its loop
    indexes in a row, the status it passes to [_update_status], and the
    lines it writes before the rows. *)
Definition row_keys (skill : string) : list string :=
  if String.eqb skill "get_blocking_locks" then ["waiting_pid"; "blocking_pid"]
  else if String.eqb skill "get_invalid_indexes" then ["schema_name"; "index_name"]
  else if String.eqb skill "get_long_running_queries" then ["pid"; "usename"; "duration"]
  else if String.eqb skill "get_idle_in_transaction_sessions"
  then ["pid"; "usename"; "transaction_duration"]
  else if String.eqb skill "get_large_unused_indexes"
  then ["schemaname"; "table_name"; "index_name"; "index_size"]
  else if String.eqb skill "get_sequence_exhaustion"
  then ["schemaname"; "sequence_name"; "percentage_used"]
  else [].

Definition row_ok (skill : string) (item : pyval) : bool :=
  forallb (fun key => returns (getitem item key)) (row_keys skill).

Definition is_error (skill : string) : bool :=
  String.eqb skill "get_blocking_locks" || String.eqb skill "get_invalid_indexes".

Definition lines_before_rows (skill : string) : nat :=
  if String.eqb skill "get_large_unused_indexes" then 4
  else if String.eqb skill "get_sequence_exhaustion" then 5
  else 2.

End Findings.

Module Freeze.
Section Freeze.
Context {ops : Others.PyOps}.

(** A row of [get_freeze_prediction] the loop can print: the status is a
    string, the keys it indexes are there, and the remaining age is a number
    that [:,] can format. *)
Definition row_ok (item : pyval) : bool :=
  match getitem item "freeze_status" with
  | Returned (PStr _) =>
      returns (getitem item "schemaname")
      && returns (getitem item "table_name")
      && returns (getitem item "total_size")
      && returns (getitem item "xid_remain_ages" ≫= Others.format_spec ",")
  | _ => false
  end.

(** [status == "CRITICAL" or status.endswith("_OVERDUE")] *)
Definition overdue (item : pyval) : bool :=
  match getitem item "freeze_status" with
  | Returned (PStr status) =>
      String.eqb status "CRITICAL"
      || String.prefix (String.rev "_OVERDUE") (String.rev status)
  | _ => false
  end.

End Freeze.
End Freeze.

Module Quiet.

(** The checks whose branch of [_analyze_and_report] is transcribed above:
    each of them tests [if data] before it reads a row. *)
Definition checks : list string :=
  [ "get_blocking_locks"; "get_top_objects_by_size"; "get_table_hotspots";
    "get_wal_archiver_status"; "get_large_unused_indexes";
    "get_table_bloat"; "get_index_bloat"; "get_long_running_queries";
    "get_idle_in_transaction_sessions"; "get_connection_usage";
    "get_cache_hit_rate"; "get_invalid_indexes"; "get_rollback_rate";
    "get_replication_slots"; "get_autovacuum_status";
    "get_replication_status"; "get_database_sizes";
    "get_critical_settings"; "get_sequence_exhaustion";
    "get_wait_events"; "get_bgwriter_stats"; "get_deadlock_detection" ].

End Quiet.

Module Checks.

(** The checks of [run_all_checks], in the order in which it runs them. *)
Definition all_checks : list string :=
  PolarDB.polardb_core_checks ++ PolarDB.htap_checks ++ PolarDB.storage_checks
  ++ PolarDB.ha_checks ++ PolarDB.pg_checks.

(** The checks whose result [analyze_results] looks at. *)
Definition analysed : list string :=
  [ "get_polar_node_type"; "get_logindex_status"; "get_pfs_usage";
    "get_connection_usage"; "get_cache_hit_rate"; "get_long_running_queries";
    "get_replication_status"; "get_wal_archiver_status" ].

(** What a part of [analyze_results] after its first block may do to the
    agent: keep the script and the results, and append findings, issues for
    the checks [critical] and warnings for the checks [elevated], at most one
    finding for a check. *)
Definition finds (critical elevated : list string) (m : PolarDB.M unit) : Prop :=
  forall self self', m self = Returned (tt, self') ->
    PolarDB.check_script self' = PolarDB.check_script self
    /\ PolarDB.results self' = PolarDB.results self
    /\ exists new_issues new_warnings,
         PolarDB.issues self' = PolarDB.issues self ++ new_issues
         /\ PolarDB.warnings self' = PolarDB.warnings self ++ new_warnings
         /\ Forall (fun f => PolarDB.type f = "critical" /\ PolarDB.check f ∈ critical)
              new_issues
         /\ Forall (fun f => PolarDB.type f = "warning" /\ PolarDB.check f ∈ elevated)
              new_warnings
         /\ NoDup (map PolarDB.check (new_issues ++ new_warnings)).

(** Two agents that agree on what the analysis reads and writes: the results
    of the analysed checks and the findings so far. *)
Definition alike (self1 self2 : PolarDB.PolarDBCheckAgent) : Prop :=
  (forall name, name ∈ analysed ->
     dict_lookup name (PolarDB.results self1) = dict_lookup name (PolarDB.results self2))
  /\ PolarDB.issues self1 = PolarDB.issues self2
  /\ PolarDB.warnings self1 = PolarDB.warnings self2.

(** Two runs of a method that end alike: with the same exception, or with
    the same value in agents that are alike. *)
Definition same_end {A} (r1 r2 : outcome (A * PolarDB.PolarDBCheckAgent)) : Prop :=
  match r1, r2 with
  | Returned (a1, self1), Returned (a2, self2) => a1 = a2 /\ alike self1 self2
  | Raised e1, Raised e2 => e1 = e2
  | _, _ => False
  end.

(** A method that cannot tell such agents apart. *)
Definition blind {A} (m : PolarDB.M A) : Prop :=
  forall self1 self2, alike self1 self2 -> same_end (m self1) (m self2).

End Checks.

Module Examples.

(** The polardb script reports a primary node; every other check times out. *)
Definition node_type : pyval :=
  Demo.success "get_polar_node_type"
    [PDict [("node_type", PStr "primary"); ("polar_version", PStr "2.0")]].

Definition node_type_text : string :=
  Demo.result_text "get_polar_node_type"
    ("{" +:+ Demo.quoted "node_type" +:+ ": " +:+ Demo.quoted "primary" +:+ ", "
         +:+ Demo.quoted "polar_version" +:+ ": " +:+ Demo.quoted "2.0" +:+ "}").

Definition world_with_node_type : World :=
  Demo.world [("get_polar_node_type", CompletedProcess 0 node_type_text "")]
    TimeoutExpired.

Definition lib_with_node_type : PyLib := Demo.lib [(node_type_text, node_type)].

(** Every script fails on a column that is not there. *)
Definition world_with_typo : World :=
  Demo.world []
    (CompletedProcess 1 ""
       ("ERROR:  column " +:+ Demo.quoted "waiting_pid" +:+ " does not exist")).

(** Operators that do for the examples: numbers are added, multiplied and
    compared as rationals, formatted without separators and not rounded; a
    slice is taken of a list. *)
Definition plain_ops : Others.PyOps :=
  {| Others.format_number := fun _ x =>
       match number x with
       | Some q => Demo.fixed_point 2 q
       | None => "nan"
       end;
     Others.add := fun x y =>
       match number x, number y with
       | Some a, Some b => Returned (PFloat (a + b))
       | _, _ => Raised TypeError
       end;
     Others.mul := fun x y =>
       match number x, number y with
       | Some a, Some b => Returned (PFloat (a * b))
       | _, _ => Raised TypeError
       end;
     Others.greater := fun x y =>
       match number x, number y with
       | Some a, Some b => Returned (Qltb b a)
       | _, _ => Raised TypeError
       end;
     Others.round_to := fun _ q => q;
     Others.slice_to := fun n x =>
       match x with
       | PList l => Returned (PList (firstn (Z.to_nat n) l))
       | _ => Raised TypeError
       end |}.

(** An agent that holds the result of one check. *)
Definition agent_with (name : string) (result : pyval) : PolarDB.PolarDBCheckAgent :=
  {| PolarDB.check_script := "run_polardb_check.sh";
     PolarDB.results := [(name, result)];
     PolarDB.issues := [];
     PolarDB.warnings := [] |}.

End Examples.

(** * Properties *)

(** ** Status aggregation *)

Section StatusAggregation.
Import Postgres Aggregation.

Lemma combine_comm a b : combine a b = combine b a.
Proof. by destruct a, b. Qed.

Lemma combine_assoc a b c : combine a (combine b c) = combine (combine a b) c.
Proof. by destruct a, b, c. Qed.

Lemma combine_idem a : combine a a = a.
Proof. by destruct a. Qed.

Lemma combine_rank a b : rank (combine a b) = (rank a `max` rank b)%nat.
Proof. by destruct a, b. Qed.

Lemma update_status_banner a b self :
  _update_status (banner b) (with_status a self)
  = Returned (tt, with_status (combine a b) self).
Proof. by destruct a, b. Qed.

Lemma escalate_join fs : forall a self,
  escalate fs (with_status a self)
  = Returned (tt, with_status (combine a (join fs)) self).
Proof.
  induction fs as [|f fs IH]; intros a self; simpl.
  - by destruct a.
  - unfold mbind, M_bind. rewrite update_status_banner, IH.
    by rewrite combine_assoc.
Qed.

Lemma join_perm fs fs' : Permutation fs fs' -> join fs = join fs'.
Proof.
  induction 1 as [|f fs fs' _ IH|f g fs|fs1 fs2 fs3 _ IH1 _ IH2]; simpl.
  - done.
  - by rewrite IH.
  - by rewrite !combine_assoc, (combine_comm f g).
  - by rewrite IH1.
Qed.

(** The stored status is never lowered, whatever text is passed in. *)
Lemma update_status_monotone new_status a self :
  exists a', _update_status new_status (with_status a self)
             = Returned (tt, with_status a' self)
             /\ (rank a <= rank a')%nat.
Proof.
  unfold _update_status. simpl.
  destruct (String.eqb new_status "❌ ERROR").
  { exists ERROR. split; [done | destruct a; simpl; lia]. }
  destruct (String.eqb new_status "🟠 WARNING"); simpl.
  - destruct a; simpl.
    + exists WARNING. split; [done | simpl; lia].
    + exists WARNING. by split.
    + exists ERROR. by split.
  - exists a. split; [by destruct self, a | lia].
Qed.

(** C2.  [_update_status] is the fold by maximum over [OK < WARNING < ERROR]:
    an update never lowers the stored status; updating a stored [a] with a
    finding of severity [b] stores [combine a b]; from [OK], the findings
    [f1..fn] leave [join f1..fn]; [combine] is commutative, associative and
    idempotent, and the result is the same for every order of the findings. *)
Theorem update_status_is_max_fold :
  (forall a b, combine a b = combine b a)
  /\ (forall a b c, combine a (combine b c) = combine (combine a b) c)
  /\ (forall a, combine a a = a)
  /\ (forall a b, rank (combine a b) = (rank a `max` rank b)%nat)
  /\ (forall new_status a self,
        exists a', _update_status new_status (with_status a self)
                   = Returned (tt, with_status a' self)
                   /\ (rank a <= rank a')%nat)
  /\ (forall a b self,
        _update_status (banner b) (with_status a self)
        = Returned (tt, with_status (combine a b) self))
  /\ (forall fs self,
        escalate fs (with_status OK self) = Returned (tt, with_status (join fs) self))
  /\ (forall fs fs' self,
        Permutation fs fs' ->
        escalate fs (with_status OK self) = escalate fs' (with_status OK self)).
Proof.
  repeat split.
  - apply combine_comm.
  - apply combine_assoc.
  - apply combine_idem.
  - apply combine_rank.
  - intros. apply update_status_monotone.
  - intros. apply update_status_banner.
  - intros. rewrite escalate_join. by destruct (join fs).
  - intros fs fs' self Hp. by rewrite !escalate_join, (join_perm _ _ Hp).
Qed.

Lemma update_status_is_max_fold_witness :
  Permutation [WARNING; ERROR; OK] [OK; WARNING; ERROR]
  /\ escalate [WARNING; ERROR; OK] (with_status OK (__init__ "run_postgres_check.sh"))
     = escalate [OK; WARNING; ERROR] (with_status OK (__init__ "run_postgres_check.sh")).
Proof.
  assert (Hp : Permutation [WARNING; ERROR; OK] [OK; WARNING; ERROR]).
  { apply Permutation_sym, (Permutation_cons_app [WARNING; ERROR] []). by rewrite app_nil_r. }
  split; [exact Hp |].
  destruct update_status_is_max_fold as (_ & _ & _ & _ & _ & _ & _ & H).
  exact (H _ _ _ Hp).
Defined.

End StatusAggregation.

(** ** Deferred header of the bloat blocks *)

Section BloatHeader.
Import Postgres.
Context {lib : PyLib} {rest : RestOfChain}.

Lemma bind_lift_returned {A B} (a : A) (f : A -> M B) self :
  (lift (Returned a) ≫= f) self = f a self.
Proof. reflexivity. Qed.

Lemma bind_append {B} line (f : unit -> M B) self :
  (append line ≫= f) self = f tt (with_report (report self ++ [line]) self).
Proof. reflexivity. Qed.

Lemma bloat_item_ok item :
  Bloat.row_ok item = true ->
  exists line, forall b self,
    bloat_item b item self
    = Returned (b || Bloat.over_threshold item,
                with_report (report self ++ [line]) self).
Proof.
  destruct item as [| | | | |?|d]; try discriminate. unfold Bloat.row_ok, Bloat.over_threshold.
  destruct (get (PDict d) "bloat_percentage" (PInt 0) ≫= float) as [bp|] eqn:E1; [|discriminate].
  destruct (get (PDict d) "wasted_bytes" (PInt 0) ≫= float) as [wb|] eqn:E2; [|discriminate].
  destruct (get (PDict d) "total_bytes" (PInt 0) ≫= float) as [tb|] eqn:E3; [|discriminate].
  intros _. eexists. intros b self. unfold bloat_item.
  rewrite E1, E2, E3. rewrite !bind_lift_returned.
  destruct (Qltb 20 bp && Qltb (inject_Z (100 * 1024 ^ 2)) wb), b; reflexivity.
Qed.

Lemma bloat_loop rows :
  forallb Bloat.row_ok rows = true ->
  exists lines, length lines = length rows /\ forall b self,
    for_each rows bloat_item b self
    = Returned (b || existsb Bloat.over_threshold rows,
                with_report (report self ++ lines) self).
Proof.
  induction rows as [|item rows IH]; simpl.
  - intros _. exists []. split; [done|]. intros b [e r s w].
    by rewrite orb_false_r; unfold with_report; simpl; rewrite app_nil_r.
  - intros [Hi Hr]%andb_prop. destruct (bloat_item_ok _ Hi) as [line Hline].
    destruct (IH Hr) as (lines & Hlen & Hloop).
    exists (line :: lines). split; [simpl; lia|]. intros b self.
    unfold mbind at 1, M_bind. rewrite Hline, Hloop. simpl.
    by rewrite orb_assoc, <- app_assoc.
Qed.

Lemma get_dict d k default :
  get (PDict d) k default = Returned (from_option id default (dict_lookup k d)).
Proof. reflexivity. Qed.


Lemma bind_report_len {B} (f : Z -> M B) self :
  (report_len ≫= f) self = f (Z.of_nat (length (report self))) self.
Proof. reflexivity. Qed.

Lemma setitem_at (i : nat) line self :
  (i < length (report self))%nat ->
  setitem (Z.of_nat i) line self
  = Returned (tt, with_report (<[i := line]> (report self)) self).
Proof.
  intros Hi. unfold setitem.
  destruct (Z.ltb_spec (Z.of_nat i) 0) as [?|_]; [lia|].
  destruct (Z.leb_spec 0 (Z.of_nat i)) as [_|?]; [|lia].
  destruct (Z.ltb_spec (Z.of_nat i) (Z.of_nat (length (report self)))) as [_|?]; [|lia].
  simpl. by rewrite Nat2Z.id.
Qed.

Lemma update_status_report new_status self :
  exists self', _update_status new_status self = Returned (tt, self')
                /\ report self' = report self.
Proof.
  unfold _update_status.
  destruct (String.eqb new_status "❌ ERROR"); [by eexists|].
  destruct (_ && _); by eexists.
Qed.


(** The bloat branch on rows that [float] accepts and of which one is over the
    thresholds: the line after the header is the one replaced. *)
Lemma branch_bloat_run skill rows self :
  forallb Bloat.row_ok rows = true ->
  existsb Bloat.over_threshold rows = true ->
  exists lines, length lines = length rows /\
    branch_bloat (PStr skill) (PList rows) self
    = _update_status "🟠 WARNING"
        (with_report
           (report self
            ++ ("### 🟡 INFO: Top 10 Bloated " +:+ Bloat.obj_type skill +:+ "s")
            :: ("### 🟠 WARNING: Significant " +:+ Bloat.obj_type skill +:+ " Bloat Detected")
            :: "|---|---|---|---|---|" :: lines) self).
Proof.
  intros Hok Hover.
  destruct (bloat_loop rows Hok) as (lines & Hlen & Hloop).
  exists lines. split; [done|].
  assert (Hne : truthy (PList rows) = true) by (by destruct rows).
  unfold branch_bloat.
  change (if eq_str (PStr skill) "get_table_bloat" then "Table" else "Index")
    with (Bloat.obj_type skill).
  set (obj := Bloat.obj_type skill).
  rewrite bind_append, Hne, !bind_append. simpl iter. rewrite bind_lift_returned.
  unfold mbind at 1, M_bind at 1. rewrite Hloop, Hover. cbn [orb]. cbv iota beta.
  rewrite bind_report_len. simpl len. rewrite bind_lift_returned.
  unfold mbind at 1, M_bind at 1.
  set (R := report self).
  set (h := "### 🟡 INFO: Top 10 Bloated " +:+ obj +:+ "s").
  set (th := "| Schema | " +:+ obj +:+ " Name | Total Size | Bloat % | Wasted Space |").
  set (w := "### 🟠 WARNING: Significant " +:+ obj +:+ " Bloat Detected").
  simpl report.
  assert (Hflat : (((R ++ [h]) ++ [th]) ++ ["|---|---|---|---|---|"]) ++ lines
                  = R ++ h :: th :: "|---|---|---|---|---|" :: lines).
  { by rewrite <- !app_assoc. }
  rewrite Hflat.
  replace (Z.of_nat (length (R ++ h :: th :: "|---|---|---|---|---|" :: lines))
           - Z.of_nat (length rows) - 2) with (Z.of_nat (S (length R)))
    by (rewrite length_app; simpl; lia).
  rewrite setitem_at by (simpl; rewrite length_app; simpl; lia).
  simpl report. rewrite insert_app_r_alt by lia.
  by replace (S (length R) - length R)%nat with 1%nat by lia.
Qed.

(** C1.  The bloat branch does not finalize its header.  For [get_table_bloat]
    or [get_index_bloat] with status success, rows that are read without an
    exception and at least one row with [bloat_percentage > 20] and
    [wasted_bytes > 100 MiB], the analysis returns, the line written as the
    block's header is still the INFO header, and the WARNING header has
    replaced the line after it, the column titles of the table. *)
Theorem bloat_header_left_as_info d skill rows self :
  skill = "get_table_bloat" \/ skill = "get_index_bloat" ->
  dict_lookup "skill" d = Some (PStr skill) ->
  dict_lookup "status" d = Some (PStr "success") ->
  dict_lookup "data" d = Some (PList rows) ->
  forallb Bloat.row_ok rows = true ->
  existsb Bloat.over_threshold rows = true ->
  exists self',
    _analyze_and_report (PDict d) self = Returned (tt, self')
    /\ length (report self') = (length (report self) + 3 + length rows)%nat
    /\ report self' !! length (report self)
       = Some ("### 🟡 INFO: Top 10 Bloated " +:+ Bloat.obj_type skill +:+ "s")
    /\ report self' !! S (length (report self))
       = Some ("### 🟠 WARNING: Significant " +:+ Bloat.obj_type skill +:+ " Bloat Detected")
    /\ report self' !! S (S (length (report self))) = Some "|---|---|---|---|---|".
Proof.
  intros Hskill Hs Hst Hd Hok Hover.
  assert (Hbranch : _analyze_and_report (PDict d) self
                    = branch_bloat (PStr skill) (PList rows) self).
  { unfold _analyze_and_report. rewrite !get_dict, Hs, Hst, Hd.
    by destruct Hskill as [-> | ->]. }
  destruct (branch_bloat_run skill rows self Hok Hover) as (lines & Hlen & Hrun).
  match type of Hrun with _ = _update_status ?x ?s =>
    destruct (update_status_report x s) as (self' & Hup & Hrep) end.
  exists self'. split; [by rewrite Hbranch, Hrun|]. rewrite Hrep. simpl report.
  set (R := report self).
  repeat split.
  - rewrite length_app. simpl. lia.
  - by rewrite lookup_app_r, Nat.sub_diag by lia.
  - rewrite lookup_app_r by lia. by replace (S (length R) - length R)%nat with 1%nat by lia.
  - rewrite lookup_app_r by lia. by replace (S (S (length R)) - length R)%nat with 2%nat by lia.
Qed.

End BloatHeader.

Lemma bloat_header_left_as_info_witness :
  exists self',
    Postgres._analyze_and_report (lib := Demo.lib []) (rest := Demo.silent)
      (Demo.success "get_table_bloat" Demo.ten_rows)
      (Postgres.__init__ "run_postgres_check.sh")
    = Returned (tt, self')
    /\ length (Postgres.report self') = 13%nat
    /\ Postgres.report self' !! 0%nat = Some "### 🟡 INFO: Top 10 Bloated Tables"
    /\ Postgres.report self' !! 1%nat
       = Some "### 🟠 WARNING: Significant Table Bloat Detected"
    /\ Postgres.report self' !! 2%nat = Some "|---|---|---|---|---|".
Proof.
  apply (bloat_header_left_as_info (lib := Demo.lib []) (rest := Demo.silent)
           _ "get_table_bloat" Demo.ten_rows (Postgres.__init__ "run_postgres_check.sh"));
    first [by left | reflexivity].
Defined.

(** ** Header of the replication block *)

Section ReplicationHeader.
Import Postgres.
Context {lib : PyLib} {rest : RestOfChain}.

Lemma Qltb_lt x y : Qltb x y = true <-> (x < y)%Q.
Proof. unfold Qltb, Qlt. apply Z.ltb_lt. Qed.

Lemma Qltb_ge x y : Qltb x y = false <-> (y <= x)%Q.
Proof. unfold Qltb, Qle. apply Z.ltb_ge. Qed.

Lemma critical_elevated q : Qltb 1024 q = true -> Qltb 100 q = true.
Proof. rewrite !Qltb_lt. apply Qlt_trans. reflexivity. Qed.

Lemma replica_item_ok replica :
  Replication.row_ok replica = true ->
  exists line, forall b self,
    replica_item b replica self
    = Returned (b || Replication.elevated replica,
                with_report_status (Replication.status_after (report_status self) replica)
                  (with_report (report self ++ [line]) self)).
Proof.
  unfold Replication.row_ok, Replication.status_after, Replication.critical,
    Replication.elevated, Replication.lag_mb.
  destruct replica as [| | | | |?|d]; try discriminate.
  rewrite get_dict. unfold mbind at 1 2 3 4, outcome_bind.
  destruct (truediv _ _) as [q|] eqn:E; [|discriminate].
  intros _. eexists. intros b self. unfold replica_item.
  rewrite !get_dict, bind_lift_returned, E, !bind_lift_returned, bind_append.
  destruct (Qltb 1024 q) eqn:E1.
  { rewrite (critical_elevated _ E1), orb_true_r. by destruct self. }
  destruct (Qltb 100 q) eqn:E2.
  - unfold mbind, M_bind, _update_status. simpl report_status.
    destruct (String.eqb (report_status self) "❌ ERROR") eqn:E3; simpl;
      rewrite ?E3; by destruct self, b.
  - rewrite orb_false_r. by destruct self.
Qed.

Lemma replica_loop rows :
  forallb Replication.row_ok rows = true ->
  exists lines, length lines = length rows /\ forall b self,
    for_each rows replica_item b self
    = Returned (b || existsb Replication.elevated rows,
                with_report_status
                  (fold_left Replication.status_after rows (report_status self))
                  (with_report (report self ++ lines) self)).
Proof.
  induction rows as [|replica rows IH]; simpl.
  - intros _. exists []. split; [done|]. intros b [e r s w].
    by rewrite orb_false_r; unfold with_report; simpl; rewrite app_nil_r.
  - intros [Hi Hr]%andb_prop. destruct (replica_item_ok _ Hi) as [line Hline].
    destruct (IH Hr) as (lines & Hlen & Hloop).
    exists (line :: lines). split; [simpl; lia|]. intros b self.
    unfold mbind at 1, M_bind. rewrite Hline, Hloop. simpl.
    by rewrite orb_assoc, <- app_assoc.
Qed.

Lemma status_after_error rows :
  fold_left Replication.status_after rows "❌ ERROR" = "❌ ERROR".
Proof.
  induction rows as [|r rows IH]; [done|]. simpl.
  unfold Replication.status_after at 2. simpl. rewrite andb_false_r.
  by destruct (Replication.critical r).
Qed.

Lemma status_after_critical rows : forall current,
  existsb Replication.critical rows = true ->
  fold_left Replication.status_after rows current = "❌ ERROR".
Proof.
  induction rows as [|r rows IH]; [done|]. simpl. intros current.
  unfold Replication.status_after at 2.
  destruct (Replication.critical r); simpl; [intros _; apply status_after_error | apply IH].
Qed.

Lemma status_after_warning rows : forall current,
  existsb Replication.critical rows = false ->
  existsb Replication.elevated rows = true ->
  current = "✅ OK" \/ current = "🟠 WARNING" ->
  fold_left Replication.status_after rows current = "🟠 WARNING".
Proof.
  induction rows as [|r rows IH]; [done|]. simpl. intros current [Hc Hcs]%orb_false_elim He Hcur.
  unfold Replication.status_after at 2. rewrite Hc.
  destruct (Replication.elevated r) eqn:Er; simpl in *.
  - assert (String.eqb current "❌ ERROR" = false) as -> by (by destruct Hcur as [-> | ->]).
    simpl. destruct (existsb Replication.elevated rows) eqn:Ee.
    + apply IH; auto.
    + clear IH Hcs. induction rows as [|r' rows IH']; [done|]. simpl in *.
      apply orb_false_elim in Ee as [Ee1 Ee2].
      unfold Replication.status_after at 2.
      assert (Replication.critical r' = false) as ->.
      { unfold Replication.critical, Replication.elevated in *.
        destruct (Replication.lag_mb r') as [q|]; [|done].
        destruct (Qltb 1024 q) eqn:E; [|done]. by rewrite (critical_elevated _ E) in Ee1. }
      rewrite Ee1. simpl. by apply IH'.
  - apply IH; auto.
Qed.

Lemma branch_replication_status_run rows self :
  forallb Replication.row_ok rows = true ->
  existsb Replication.elevated rows = true ->
  exists lines, length lines = length rows /\
    branch_get_replication_status (PList rows) self
    = Returned (tt,
        with_report_status
          (fold_left Replication.status_after rows (report_status self))
          (with_report
             (report self ++ "### 🟠 WARNING: Replication Lag Detected" :: lines) self)).
Proof.
  intros Hok Hlag.
  destruct (replica_loop rows Hok) as (lines & Hlen & Hloop).
  exists lines. split; [done|].
  assert (Hne : truthy (PList rows) = true) by (by destruct rows).
  unfold branch_get_replication_status.
  rewrite bind_append, Hne. cbn [negb]. cbv iota. simpl iter. rewrite bind_lift_returned.
  unfold mbind at 1, M_bind at 1. rewrite Hloop, Hlag. cbn [orb]. cbv iota beta.
  simpl len. rewrite bind_lift_returned.
  set (R := report self). simpl report.
  unfold setitem. simpl report.
  rewrite <- app_assoc. simpl app.
  assert (Hl : Z.of_nat (length (R ++ "### 🟡 INFO: Replication Status" :: lines))
               = Z.of_nat (length R) + 1 + Z.of_nat (length rows)).
  { rewrite length_app. simpl. lia. }
  rewrite Hl.
  destruct (Z.ltb_spec (- Z.of_nat (length rows) - 1) 0) as [_|?]; [|lia].
  replace (- Z.of_nat (length rows) - 1 + (Z.of_nat (length R) + 1 + Z.of_nat (length rows)))
    with (Z.of_nat (length R)) by lia.
  destruct (Z.leb_spec 0 (Z.of_nat (length R))) as [_|?]; [|lia].
  destruct (Z.ltb_spec (Z.of_nat (length R))
              (Z.of_nat (length R) + 1 + Z.of_nat (length rows))) as [_|?]; [|lia].
  cbn [andb]. cbv iota. rewrite Nat2Z.id.
  rewrite insert_app_r_alt, Nat.sub_diag by lia. reflexivity.
Qed.


Lemma critical_rows_elevated rows :
  existsb Replication.critical rows = true -> existsb Replication.elevated rows = true.
Proof.
  induction rows as [|r rows IH]; [done|]. simpl.
  intros [Hc|Hc]%orb_prop; [|by rewrite IH, orb_true_r].
  unfold Replication.critical, Replication.elevated in *.
  destruct (Replication.lag_mb r) as [q|]; [|done].
  by rewrite (critical_elevated _ Hc).
Qed.

Lemma analyze_replication_status d rows self :
  dict_lookup "skill" d = Some (PStr "get_replication_status") ->
  dict_lookup "status" d = Some (PStr "success") ->
  dict_lookup "data" d = Some (PList rows) ->
  _analyze_and_report (PDict d) self = branch_get_replication_status (PList rows) self.
Proof.
  intros Hs Hst Hd. unfold _analyze_and_report. by rewrite !get_dict, Hs, Hst, Hd.
Qed.

(** C5.  The replication block under-reports a lag of more than 1 GiB.  For
    [get_replication_status] with status success and replicas that are read
    without an exception, one of them more than 1 GiB behind, the analysis
    returns with the overall status at ERROR, and the header it has rewritten
    is the WARNING header. *)
Theorem replication_header_under_reports d rows self :
  dict_lookup "skill" d = Some (PStr "get_replication_status") ->
  dict_lookup "status" d = Some (PStr "success") ->
  dict_lookup "data" d = Some (PList rows) ->
  forallb Replication.row_ok rows = true ->
  existsb Replication.critical rows = true ->
  exists self',
    _analyze_and_report (PDict d) self = Returned (tt, self')
    /\ report_status self' = "❌ ERROR"
    /\ report self' !! length (report self)
       = Some "### 🟠 WARNING: Replication Lag Detected"
    /\ length (report self') = (length (report self) + 1 + length rows)%nat.
Proof.
  intros Hs Hst Hd Hok Hcrit.
  destruct (branch_replication_status_run rows self Hok (critical_rows_elevated _ Hcrit))
    as (lines & Hlen & Hrun).
  eexists. split; [by rewrite (analyze_replication_status d rows)|].
  simpl. repeat split.
  - by apply status_after_critical.
  - by rewrite lookup_app_r, Nat.sub_diag by lia.
  - rewrite length_app. simpl. lia.
Qed.

(** The part of the claim the code does keep: with no replica more than 1 GiB
    behind and one more than 100 MiB behind, status and header are both
    WARNING. *)
Lemma replication_header_warning d rows self :
  dict_lookup "skill" d = Some (PStr "get_replication_status") ->
  dict_lookup "status" d = Some (PStr "success") ->
  dict_lookup "data" d = Some (PList rows) ->
  forallb Replication.row_ok rows = true ->
  existsb Replication.critical rows = false ->
  existsb Replication.elevated rows = true ->
  report_status self = "✅ OK" \/ report_status self = "🟠 WARNING" ->
  exists self',
    _analyze_and_report (PDict d) self = Returned (tt, self')
    /\ report_status self' = "🟠 WARNING"
    /\ report self' !! length (report self)
       = Some "### 🟠 WARNING: Replication Lag Detected".
Proof.
  intros Hs Hst Hd Hok Hcrit Hel Hcur.
  destruct (branch_replication_status_run rows self Hok Hel) as (lines & Hlen & Hrun).
  eexists. split; [by rewrite (analyze_replication_status d rows)|].
  simpl. split.
  - by apply status_after_warning.
  - by rewrite lookup_app_r, Nat.sub_diag by lia.
Qed.

End ReplicationHeader.

Lemma replication_header_under_reports_witness :
  exists self',
    Postgres._analyze_and_report (lib := Demo.lib []) (rest := Demo.silent)
      (Demo.success "get_replication_status" [Demo.far_replica])
      (Postgres.__init__ "run_postgres_check.sh")
    = Returned (tt, self')
    /\ Postgres.report_status self' = "❌ ERROR"
    /\ Postgres.report self' !! 0%nat = Some "### 🟠 WARNING: Replication Lag Detected"
    /\ length (Postgres.report self') = 2%nat.
Proof.
  apply (replication_header_under_reports (lib := Demo.lib []) (rest := Demo.silent)
           _ [Demo.far_replica] (Postgres.__init__ "run_postgres_check.sh"));
    reflexivity.
Defined.

(** ** Rows with missing or malformed fields *)

Section Malformed.
Import Postgres.
Context {lib : PyLib} {rest : RestOfChain}.

(** C6.  Classification can raise.  [get_connection_usage] and
    [get_blocking_locks] index their rows, so a row without the field is a
    [KeyError]; [max_connections] of 0 is a [ZeroDivisionError]; and [float] of
    a [null] is a [TypeError] even where the field is read with [get].  Nothing
    in [run_checks] catches them. *)
Theorem classification_raises self :
  _analyze_and_report Demo.usage_without_count self = Raised KeyError
  /\ _analyze_and_report Demo.lock_without_waiter self = Raised KeyError
  /\ _analyze_and_report Demo.usage_of_zero self = Raised ZeroDivisionError
  /\ _analyze_and_report Demo.bloat_with_null self = Raised TypeError.
Proof. repeat split; reflexivity. Qed.

End Malformed.

(** One such row ends the whole run: no report is written and the interpreter
    exits with 1. *)
Lemma missing_field_aborts_run :
  json_loads (PyLib := Demo.lib_without_count) Demo.usage_without_count_text
  = Parsed Demo.usage_without_count
  /\ Postgres.run_checks (lib := Demo.lib_without_count)
       (world := Demo.world_without_count) (rest := Demo.silent)
       (Postgres.__init__ "run_postgres_check.sh")
     = Raised KeyError
  /\ Postgres.main (lib := Demo.lib_without_count)
       (world := Demo.world_without_count) (rest := Demo.silent)
       "run_postgres_check.sh" = 1.
Proof. repeat split; vm_compute; reflexivity. Qed.

(** ** Replication slots without data *)

(** A branch run on a result that is given: unfold the binds, compute, and
    bring the appended lines together. *)
Tactic Notation "run_branch" reference(branch) :=
  unfold Postgres._analyze_and_report, branch, mbind, Postgres.M_bind; cbn;
  unfold Postgres.append, Postgres.with_report; cbn;
  rewrite <- ?app_assoc; reflexivity.

Section ReplicationSlots.
Import Postgres.
Context {lib : PyLib} {world : World} {rest : RestOfChain}.

(** Without data and with no note, or an empty one: the healthy text, and
    the status is left alone. *)
Lemma no_slots_no_note notes self :
  notes = [] \/ notes = [("notes", PStr "")] ->
  _analyze_and_report
    (PDict ([("skill", PStr "get_replication_slots"); ("status", PStr "success");
             ("data", PList [])] ++ notes)) self
  = Returned (tt, with_report (report self ++ ["### 🟡 INFO: Replication Slots Status";
                                                "No replication slots found."]) self).
Proof.
  intros [-> | ->]; run_branch branch_get_replication_slots.
Qed.

(** With the note ["view or table does not exist"] and nothing after it: the
    block says that slots do not apply. *)
Lemma no_slots_exact_note self :
  _analyze_and_report
    (PDict [("skill", PStr "get_replication_slots"); ("status", PStr "success");
            ("data", PList []); ("notes", PStr "view or table does not exist")]) self
  = Returned (tt, with_report
      (report self ++ ["### 🟡 INFO: Replication Slots Status";
                       "Replication slots are not applicable or view does not exist."])
      self).
Proof.
  run_branch branch_get_replication_slots.
Qed.

Lemma note_is_longer stderr :
  String.eqb ("view or table does not exist: " +:+ stderr) "view or table does not exist"
  = false.
Proof. reflexivity. Qed.

(** C8.  The note [_run_skill] writes is never that text.  When the script
    fails and its error output contains ["does not exist"], [_run_skill]
    returns a success result without data whose note is
    ["view or table does not exist: "] followed by the error output, and for
    that result the block reads ["No replication slots found."], the healthy
    case. *)
Theorem missing_view_reads_as_no_slots self returncode stdout stderr :
  subprocess_run [executor_script self; "get_replication_slots"]
  = CompletedProcess returncode stdout stderr ->
  returncode <> 0 ->
  contains "does not exist" stderr = true ->
  _run_skill self "get_replication_slots"
  = PDict [("skill", PStr "get_replication_slots"); ("status", PStr "success");
           ("data", PList []);
           ("notes", PStr ("view or table does not exist: " +:+ stderr))]
  /\ forall self',
       _analyze_and_report (_run_skill self "get_replication_slots") self'
       = Returned (tt, with_report
           (report self' ++ ["### 🟡 INFO: Replication Slots Status";
                             "No replication slots found."]) self').
Proof.
  intros Hrun Hcode Herr.
  assert (Hskill : _run_skill self "get_replication_slots"
    = PDict [("skill", PStr "get_replication_slots"); ("status", PStr "success");
             ("data", PList []);
             ("notes", PStr ("view or table does not exist: " +:+ stderr))]).
  { unfold _run_skill. rewrite Hrun, Herr.
    by destruct (Z.eqb_spec returncode 0). }
  split; [done|]. intros self'. rewrite Hskill.
  unfold _analyze_and_report, branch_get_replication_slots, mbind, M_bind; cbn.
  rewrite note_is_longer; cbn.
  unfold append, with_report; cbn. by rewrite <- app_assoc.
Qed.

End ReplicationSlots.

Lemma missing_view_reads_as_no_slots_witness :
  let self := Postgres.__init__ "run_postgres_check.sh" in
  Postgres._analyze_and_report (lib := Demo.lib []) (rest := Demo.silent)
    (Postgres._run_skill (lib := Demo.lib []) (world := Demo.world_without_view)
       self "get_replication_slots") self
  = Returned (tt, Postgres.with_report
      ["### 🟡 INFO: Replication Slots Status"; "No replication slots found."] self).
Proof.
  intros self.
  apply (missing_view_reads_as_no_slots (lib := Demo.lib [])
           (world := Demo.world_without_view) (rest := Demo.silent)
           self 1 "" _ eq_refl); [discriminate | reflexivity].
Defined.

(** ** Output that is not JSON, and the other ways a check can end *)

Section CheckExecution.
Context {lib : PyLib} {world : World}.

(** C9, as amended.  Output that [json.loads] rejects never raises a parse
    exception into the agent.  The postgres agent, when the script exited with
    0 and printed more than white space, returns status ["fail"] with the parse
    error and the raw output in the text under ["data"]; the polardb agent
    returns status ["unknown"] with the raw output under ["raw_output"]. *)
Theorem unparseable_output_is_synthesized name returncode stdout stderr e :
  (forall self : Postgres.PostgresAgent,
     subprocess_run [Postgres.executor_script self; name]
     = CompletedProcess returncode stdout stderr ->
     returncode = 0 ->
     strip stdout <> "" ->
     json_loads stdout = JSONDecodeError e ->
     Postgres._run_skill self name
     = PDict [("skill", PStr name); ("status", PStr "fail");
              ("data", PStr ("Failed to parse JSON output: " +:+ e
                             +:+ ". Raw output: " +:+ stdout))])
  /\ (forall self : PolarDB.PolarDBCheckAgent,
        let output := if String.eqb (strip stdout) "" then strip stderr else strip stdout in
        subprocess_run [PolarDB.check_script self; name]
        = CompletedProcess returncode stdout stderr ->
        json_loads output = JSONDecodeError e ->
        PolarDB.run_check self name
        = PDict [("skill", PStr name); ("status", PStr "unknown");
                 ("raw_output", PStr output)]).
Proof.
  split.
  - intros self Hrun -> Hblank Hjson. unfold Postgres._run_skill.
    rewrite Hrun, Hjson. simpl.
    by destruct (String.eqb_spec (strip stdout) "").
  - intros self output Hrun Hjson. unfold PolarDB.run_check.
    rewrite Hrun. fold output. by rewrite Hjson.
Qed.

End CheckExecution.

Lemma unparseable_output_is_synthesized_witness :
  Postgres._run_skill (lib := Demo.lib []) (world := Demo.world_of_garbage)
    (Postgres.__init__ "run_postgres_check.sh") "get_cache_hit_rate"
  = PDict [("skill", PStr "get_cache_hit_rate"); ("status", PStr "fail");
           ("data", PStr ("Failed to parse JSON output: "
                          +:+ "Expecting value: line 1 column 1 (char 0)"
                          +:+ ". Raw output: " +:+ "psql: could not connect to server"))]
  /\ PolarDB.run_check (lib := Demo.lib []) (world := Demo.world_of_garbage)
       (PolarDB.__init__ "run_polardb_check.sh") "get_cache_hit_rate"
     = PDict [("skill", PStr "get_cache_hit_rate"); ("status", PStr "unknown");
              ("raw_output", PStr "psql: could not connect to server")].
Proof.
  destruct (unparseable_output_is_synthesized (lib := Demo.lib [])
              (world := Demo.world_of_garbage) "get_cache_hit_rate" 0
              "psql: could not connect to server" ""
              "Expecting value: line 1 column 1 (char 0)") as [Hpg Hpolar].
  split.
  - apply Hpg; [reflexivity | reflexivity | discriminate | reflexivity].
  - apply Hpolar; reflexivity.
Defined.

(** The claim as first stated fails on each agent: the polardb status is
    ["unknown"] and neither result has a ["message"]; and output that is only
    white space, which is not JSON either, is a success without data for the
    postgres agent. *)
Lemma unparseable_output_counterexample :
  json_loads (PyLib := Demo.lib []) "psql: could not connect to server"
  = JSONDecodeError "Expecting value: line 1 column 1 (char 0)"
  /\ get (PolarDB.run_check (lib := Demo.lib []) (world := Demo.world_of_garbage)
            (PolarDB.__init__ "run_polardb_check.sh") "get_cache_hit_rate")
       "status" PNone = Returned (PStr "unknown")
  /\ get (PolarDB.run_check (lib := Demo.lib []) (world := Demo.world_of_garbage)
            (PolarDB.__init__ "run_polardb_check.sh") "get_cache_hit_rate")
       "message" PNone = Returned PNone
  /\ get (Postgres._run_skill (lib := Demo.lib []) (world := Demo.world_of_garbage)
            (Postgres.__init__ "run_postgres_check.sh") "get_cache_hit_rate")
       "message" PNone = Returned PNone
  /\ json_loads (PyLib := Demo.lib []) ""
     = JSONDecodeError "Expecting value: line 1 column 1 (char 0)"
  /\ get (Postgres._run_skill (lib := Demo.lib []) (world := Demo.world_of_silence)
            (Postgres.__init__ "run_postgres_check.sh") "get_cache_hit_rate")
       "status" PNone = Returned (PStr "success").
Proof. repeat split; reflexivity. Qed.


(** ** Checks that did not succeed *)

Section FailedChecks.
Context {lib : PyLib} {world : World} {rest : Postgres.RestOfChain}.

Lemma contains_app_r needle a b :
  contains needle b = true -> contains needle (a +:+ b) = true.
Proof.
  intros Hb. induction a as [|c a IH]; [done|].
  simpl. by rewrite IH, orb_true_r.
Qed.

(** The postgres agent: two lines and the status at ERROR, whatever the skill. *)
Lemma failed_skill_block d self :
  Blocks.failed_for_postgres d = true ->
  Postgres._analyze_and_report (PDict d) self
  = Returned (tt, Postgres.with_report_status "❌ ERROR"
                    (Postgres.with_report
                       (Postgres.report self ++ Blocks.failed_lines d) self)).
Proof.
  unfold Blocks.failed_for_postgres, Blocks.failed_lines. intros Hst.
  unfold Postgres._analyze_and_report. rewrite !get_dict, !bind_lift_returned, Hst.
  rewrite !bind_append. unfold Postgres._update_status, Postgres.with_report; cbn.
  by rewrite <- app_assoc.
Qed.

(** A timeout of the postgres agent's script is a failed result whose text
    says so. *)
Lemma timeout_is_failure (self : Postgres.PostgresAgent) skill :
  subprocess_run [Postgres.executor_script self; skill] = TimeoutExpired ->
  exists text,
    Postgres._run_skill self skill
    = PDict [("skill", PStr skill); ("status", PStr "fail"); ("data", PStr text)]
    /\ contains "timed out" text = true.
Proof.
  intros Hrun. unfold Postgres._run_skill. rewrite Hrun.
  eexists. split; [reflexivity|].
  unfold str_TimeoutExpired.
  apply (contains_app_r _ "An unexpected error occurred: ").
  apply (contains_app_r _ "Command '").
  apply contains_app_r. reflexivity.
Qed.

Lemma first_row_failed d :
  Blocks.failed_for_polardb d = true -> PolarDB.first_row (PDict d) = Returned None.
Proof.
  unfold Blocks.failed_for_polardb, PolarDB.first_row. rewrite get_dict. simpl.
  by intros ->%negb_true_iff.
Qed.

(** The polardb agent: a block whose check did not succeed changes nothing. *)
Lemma failed_check_not_classified name block d (self : PolarDB.PolarDBCheckAgent) :
  In (name, block) Blocks.analysis ->
  dict_lookup name (PolarDB.results self) = Some (PDict d) ->
  Blocks.failed_for_polardb d = true ->
  block self = Returned (tt, self).
Proof.
  intros Hin Hres Hfail. simpl in Hin.
  repeat (destruct Hin as [[= <- <-]|Hin];
          [ cbv delta [PolarDB.analyze_polar_node_type PolarDB.analyze_logindex_status
                       PolarDB.analyze_pfs_usage PolarDB.analyze_connection_usage
                       PolarDB.analyze_cache_hit_rate PolarDB.analyze_long_running_queries
                       PolarDB.analyze_replication_status
                       PolarDB.analyze_wal_archiver_status];
            unfold PolarDB.when_present; rewrite Hres;
            unfold mbind, PolarDB.M_bind; by rewrite (first_row_failed _ Hfail) |]).
  destruct Hin.
Qed.

Lemma absent_check_not_classified name block (self : PolarDB.PolarDBCheckAgent) :
  In (name, block) Blocks.analysis ->
  dict_lookup name (PolarDB.results self) = None ->
  block self = Returned (tt, self).
Proof.
  intros Hin Hres. simpl in Hin.
  repeat (destruct Hin as [[= <- <-]|Hin];
          [ cbv delta [PolarDB.analyze_polar_node_type PolarDB.analyze_logindex_status
                       PolarDB.analyze_pfs_usage PolarDB.analyze_connection_usage
                       PolarDB.analyze_cache_hit_rate PolarDB.analyze_long_running_queries
                       PolarDB.analyze_replication_status
                       PolarDB.analyze_wal_archiver_status];
            unfold PolarDB.when_present; by rewrite Hres |]).
  destruct Hin.
Qed.

(** When no stored result is a success, the analysis records nothing. *)
Lemma nothing_classified (self : PolarDB.PolarDBCheckAgent) :
  (forall name data,
     dict_lookup name (PolarDB.results self) = Some data ->
     exists d, data = PDict d /\ Blocks.failed_for_polardb d = true) ->
  PolarDB.analyze_results self = Returned (tt, self).
Proof.
  intros Hall.
  assert (Hblock : forall name block,
            In (name, block) Blocks.analysis -> block self = Returned (tt, self)).
  { intros name block Hin.
    destruct (dict_lookup name (PolarDB.results self)) as [data|] eqn:Hres.
    - destruct (Hall _ _ Hres) as (d & -> & Hfail).
      by apply (failed_check_not_classified name block d).
    - by apply (absent_check_not_classified name block). }
  assert (Hin : Forall (fun b => b.2 self = Returned (tt, self)) Blocks.analysis).
  { apply Forall_forall. intros [name block] Hin. apply (Hblock name).
    by apply list_elem_of_In. }
  unfold Blocks.analysis in Hin.
  repeat (apply Forall_cons in Hin as [? Hin]). simpl in *.
  unfold PolarDB.analyze_results, mbind, PolarDB.M_bind.
  by repeat match goal with H : _ = Returned (tt, self) |- _ => rewrite H; clear H end.
Qed.

(** C3, as amended.  A check whose status is not success is never given to
    a skill's rule.  The postgres agent writes for it one failed-skill entry,
    carrying the result's data, and sets the overall status to ERROR; a timeout
    of its script is such a result, and the entry contains ["timed out"].  The
    polardb agent records nothing for it: no issue, no warning, and the overall
    status is not changed by it. *)
Theorem failed_check_classification :
  (forall d self,
     Blocks.failed_for_postgres d = true ->
     Postgres._analyze_and_report (PDict d) self
     = Returned (tt, Postgres.with_report_status "❌ ERROR"
                       (Postgres.with_report
                          (Postgres.report self ++ Blocks.failed_lines d) self)))
  /\ (forall (self self' : Postgres.PostgresAgent) skill,
        subprocess_run [Postgres.executor_script self; skill] = TimeoutExpired ->
        exists text,
          contains "timed out" text = true
          /\ Postgres._analyze_and_report (Postgres._run_skill self skill) self'
             = Returned (tt, Postgres.with_report_status "❌ ERROR"
                 (Postgres.with_report
                    (Postgres.report self'
                     ++ [ "### ❌ Skill Failed: `" +:+ skill +:+ "`";
                          "Error details: `" +:+ text +:+ "`" ]) self')))
  /\ (forall name block d (self : PolarDB.PolarDBCheckAgent),
        In (name, block) Blocks.analysis ->
        dict_lookup name (PolarDB.results self) = Some (PDict d) ->
        Blocks.failed_for_polardb d = true ->
        block self = Returned (tt, self))
  /\ (forall self : PolarDB.PolarDBCheckAgent,
        (forall name data,
           dict_lookup name (PolarDB.results self) = Some data ->
           exists d, data = PDict d /\ Blocks.failed_for_polardb d = true) ->
        PolarDB.analyze_results self = Returned (tt, self)).
Proof.
  split; [exact failed_skill_block|].
  split; [|split; [exact failed_check_not_classified | exact nothing_classified]].
  intros self self' skill Hrun.
  destruct (timeout_is_failure self skill Hrun) as (text & -> & Htext).
  exists text. split; [done|]. by rewrite failed_skill_block.
Qed.

End FailedChecks.

Lemma failed_check_classification_witness :
  (exists text,
     contains "timed out" text = true
     /\ Postgres._analyze_and_report (lib := Demo.lib []) (rest := Demo.silent)
          (Postgres._run_skill (lib := Demo.lib []) (world := Demo.world_of_timeouts)
             (Postgres.__init__ "run_postgres_check.sh") "get_cache_hit_rate")
          (Postgres.__init__ "run_postgres_check.sh")
        = Returned (tt, Postgres.with_report_status "❌ ERROR"
            (Postgres.with_report
               [ "### ❌ Skill Failed: `get_cache_hit_rate`";
                 "Error details: `" +:+ text +:+ "`" ]
               (Postgres.__init__ "run_postgres_check.sh"))))
  /\ PolarDB.analyze_cache_hit_rate (lib := Demo.lib [])
       {| PolarDB.check_script := "run_polardb_check.sh";
          PolarDB.results :=
            [("get_cache_hit_rate",
              PDict [("skill", PStr "get_cache_hit_rate"); ("status", PStr "timeout");
                     ("message", PStr "Check timed out after 60 seconds")])];
          PolarDB.issues := [];
          PolarDB.warnings := [] |}
     = Returned (tt,
       {| PolarDB.check_script := "run_polardb_check.sh";
          PolarDB.results :=
            [("get_cache_hit_rate",
              PDict [("skill", PStr "get_cache_hit_rate"); ("status", PStr "timeout");
                     ("message", PStr "Check timed out after 60 seconds")])];
          PolarDB.issues := [];
          PolarDB.warnings := [] |}).
Proof.
  destruct (failed_check_classification (lib := Demo.lib [])
              (world := Demo.world_of_timeouts) (rest := Demo.silent))
    as (_ & Htimeout & Hblock & _).
  split.
  - apply (Htimeout (Postgres.__init__ "run_postgres_check.sh")
             (Postgres.__init__ "run_postgres_check.sh") "get_cache_hit_rate").
    reflexivity.
  - apply (Hblock "get_cache_hit_rate" _
             [("skill", PStr "get_cache_hit_rate"); ("status", PStr "timeout");
              ("message", PStr "Check timed out after 60 seconds")]);
      [simpl; auto 10 | reflexivity | reflexivity].
Defined.

(** The claim as first stated fails for the polardb agent: when every check
    times out there is no finding, the report says HEALTHY and the exit code
    is 0. *)
Lemma failed_check_counterexample :
  get (PolarDB.run_check (lib := Demo.lib []) (world := Demo.world_of_timeouts)
         (PolarDB.__init__ "run_polardb_check.sh") "get_connection_usage")
    "status" PNone
  = Returned (PStr "timeout")
  /\ (exists self,
        (PolarDB.run_all_checks (lib := Demo.lib []) (world := Demo.world_of_timeouts)
           ;; PolarDB.analyze_results (lib := Demo.lib []))
          (PolarDB.__init__ "run_polardb_check.sh")
        = Returned (tt, self)
        /\ PolarDB.issues self = []
        /\ PolarDB.warnings self = []
        /\ PolarDB.overall_status self = PolarDB.HEALTHY)
  /\ PolarDB.main (lib := Demo.lib []) (world := Demo.world_of_timeouts)
       "run_polardb_check.sh" = 0.
Proof.
  split; [reflexivity|]. split; [|vm_compute; reflexivity].
  eexists. split; [vm_compute; reflexivity|]. by repeat split.
Qed.

(** ** Every way [run_check] can end *)

Section RunCheck.
Context {lib : PyLib} {world : World}.

(** C10, as amended.  [run_check] returns on every path.  On the three paths
    where it builds the result itself the result is a dict with ["skill"] and
    ["status"]: status ["timeout"] and the fixed message after a timeout,
    ["unknown"] and the raw text under ["raw_output"] after output that is not
    JSON, ["error"] and the exception's text after any other exception.  Output
    that is JSON is returned as parsed, whatever it is.  ["error"] is none of
    [success], [fail], [timeout], [unknown], and a result with status
    ["unknown"] or ["error"] is given no finding by the analysis. *)
Theorem run_check_paths (self : PolarDB.PolarDBCheckAgent) check_name :
  match subprocess_run [PolarDB.check_script self; check_name] with
  | CompletedProcess _ stdout stderr =>
      let output := if String.eqb (strip stdout) "" then strip stderr else strip stdout in
      match json_loads output with
      | Parsed data => PolarDB.run_check self check_name = data
      | JSONDecodeError _ =>
          PolarDB.run_check self check_name
          = PDict [("skill", PStr check_name); ("status", PStr "unknown");
                   ("raw_output", PStr output)]
      end
  | TimeoutExpired =>
      PolarDB.run_check self check_name
      = PDict [("skill", PStr check_name); ("status", PStr "timeout");
               ("message", PStr "Check timed out after 60 seconds")]
  | OtherException str_e =>
      PolarDB.run_check self check_name
      = PDict [("skill", PStr check_name); ("status", PStr "error");
               ("message", PStr str_e)]
  end
  /\ ~ In "error" ["success"; "fail"; "timeout"; "unknown"]
  /\ (forall name block d (agent : PolarDB.PolarDBCheckAgent),
        In (name, block) Blocks.analysis ->
        dict_lookup name (PolarDB.results agent) = Some (PDict d) ->
        dict_lookup "status" d = Some (PStr "unknown")
        \/ dict_lookup "status" d = Some (PStr "error") ->
        block agent = Returned (tt, agent)).
Proof.
  split; [|split].
  - unfold PolarDB.run_check.
    destruct (subprocess_run _) as [rc out err| |msg]; [|done..].
    cbv zeta. by destruct (json_loads _).
  - simpl. intros [?|[?|[?|[?|[]]]]]; discriminate.
  - intros name block d agent Hin Hres Hst.
    apply (failed_check_not_classified name block d agent Hin Hres).
    unfold Blocks.failed_for_polardb. by destruct Hst as [-> | ->].
Qed.

End RunCheck.

Lemma run_check_paths_witness :
  let agent :=
    {| PolarDB.check_script := "run_polardb_check.sh";
       PolarDB.results :=
         [("get_cache_hit_rate",
           PolarDB.run_check (lib := Demo.lib []) (world := Demo.world_of_garbage)
             (PolarDB.__init__ "run_polardb_check.sh") "get_cache_hit_rate")];
       PolarDB.issues := [];
       PolarDB.warnings := [] |} in
  PolarDB.analyze_cache_hit_rate (lib := Demo.lib []) agent = Returned (tt, agent).
Proof.
  intros agent.
  destruct (run_check_paths (lib := Demo.lib []) (world := Demo.world_of_garbage)
              (PolarDB.__init__ "run_polardb_check.sh") "get_cache_hit_rate")
    as (_ & _ & Hblock).
  apply (Hblock "get_cache_hit_rate" _
           [("skill", PStr "get_cache_hit_rate"); ("status", PStr "unknown");
            ("raw_output", PStr "psql: could not connect to server")]);
    [simpl; auto 10 | reflexivity | by left].
Defined.

(** The claim as first stated fails where the output is JSON but not a
    result: the empty list is returned as it is, and it has no ["skill"]. *)
Lemma run_check_counterexample :
  json_loads (PyLib := Demo.lib_with_empty_list) "[]" = Parsed (PList [])
  /\ PolarDB.run_check (lib := Demo.lib_with_empty_list)
       (world := Demo.world_of_empty_lists)
       (PolarDB.__init__ "run_polardb_check.sh") "get_px_nodes"
     = PList []
  /\ get (PolarDB.run_check (lib := Demo.lib_with_empty_list)
            (world := Demo.world_of_empty_lists)
            (PolarDB.__init__ "run_polardb_check.sh") "get_px_nodes")
       "skill" PNone = Raised AttributeError.
Proof. repeat split; reflexivity. Qed.

(** ** The exit code *)

Section ExitCode.
Context {lib : PyLib} {world : World} {rest : Postgres.RestOfChain}.

Lemma run_returns_no_issues path success self :
  PolarDB.run (PolarDB.__init__ path) = Returned (success, self) ->
  success = match PolarDB.issues self with [] => true | _ => false end.
Proof.
  unfold PolarDB.run, mbind, PolarDB.M_bind.
  destruct (PolarDB.run_all_checks _) as [[[] s1]|]; [|done].
  destruct (PolarDB.analyze_results s1) as [[[] s2]|]; [|done].
  unfold PolarDB.report_text, PolarDB.lift.
  destruct (PolarDB.generate_report s2); [|done].
  unfold PolarDB.no_issues. by intros [= <- <-].
Qed.

Lemma critical_iff_issues (self : PolarDB.PolarDBCheckAgent) :
  PolarDB.overall_status self = PolarDB.CRITICAL <-> PolarDB.issues self <> [].
Proof.
  unfold PolarDB.overall_status.
  destruct (PolarDB.issues self), (PolarDB.warnings self); split; try done.
Qed.

(** C4, as amended.  The polardb agent exits with 0 when its run completes
    and has recorded no critical issue, that is, when the overall status is
    HEALTHY or WARNING, and with 1 when the status is CRITICAL or an exception
    ended the run.  The postgres agent does not look at the status: it exits
    with 0 whenever its run completes, and with 1 only after an exception. *)
Theorem exit_code_of_a_run path :
  (forall success self,
     PolarDB.run (PolarDB.__init__ path) = Returned (success, self) ->
     (PolarDB.main path = 0 <-> PolarDB.issues self = [])
     /\ (PolarDB.main path = 0 <-> PolarDB.overall_status self <> PolarDB.CRITICAL)
     /\ (PolarDB.main path = 1 <-> PolarDB.overall_status self = PolarDB.CRITICAL))
  /\ (forall e, PolarDB.run (PolarDB.__init__ path) = Raised e -> PolarDB.main path = 1)
  /\ (forall files self,
        Postgres.run_checks (Postgres.__init__ path) = Returned (files, self) ->
        Postgres.main path = 0)
  /\ (forall e,
        Postgres.run_checks (Postgres.__init__ path) = Raised e ->
        Postgres.main path = 1).
Proof.
  split; [|split; [|split]].
  - intros success self Hrun.
    pose proof (run_returns_no_issues _ _ _ Hrun) as Hs.
    unfold PolarDB.main. rewrite Hrun, critical_iff_issues.
    destruct (PolarDB.issues self) as [|f fs]; rewrite Hs; clear.
    + intuition congruence.
    + intuition congruence.
  - intros e Hrun. unfold PolarDB.main. rewrite Hrun. reflexivity.
  - intros files self Hrun. unfold Postgres.main. rewrite Hrun. reflexivity.
  - intros e Hrun. unfold Postgres.main. rewrite Hrun. reflexivity.
Qed.

End ExitCode.

Lemma exit_code_of_a_run_witness :
  PolarDB.main (lib := Demo.lib_at_96) (world := Demo.world_at_96)
    "run_polardb_check.sh" = 1
  /\ Postgres.main (lib := Demo.lib []) (world := Demo.world_of_timeouts)
       (rest := Demo.silent) "run_postgres_check.sh" = 0.
Proof.
  split.
  - destruct (exit_code_of_a_run (lib := Demo.lib_at_96) (world := Demo.world_at_96)
                (rest := Demo.silent) "run_polardb_check.sh") as (Hpolar & _).
    eassert (Hrun : PolarDB.run (lib := Demo.lib_at_96) (world := Demo.world_at_96)
                      (PolarDB.__init__ "run_polardb_check.sh") = Returned (_, _))
      by (vm_compute; reflexivity).
    destruct (Hpolar _ _ Hrun) as (_ & _ & Hone).
    apply Hone. vm_compute. reflexivity.
  - destruct (exit_code_of_a_run (lib := Demo.lib []) (world := Demo.world_of_timeouts)
                (rest := Demo.silent) "run_postgres_check.sh") as (_ & _ & Hpg & _).
    eassert (Hrun : Postgres.run_checks (lib := Demo.lib [])
                      (world := Demo.world_of_timeouts) (rest := Demo.silent)
                      (Postgres.__init__ "run_postgres_check.sh") = Returned (_, _))
      by (vm_compute; reflexivity).
    exact (Hpg _ _ Hrun).
Defined.

(** The claim as first stated fails on each agent.  A polardb run whose only
    finding is a warning has the overall status WARNING and exits with 0; a
    postgres run in which every check fails has the overall status ERROR and
    exits with 0. *)
Lemma exit_code_counterexample :
  (exists self,
     PolarDB.run (lib := Demo.lib_at_97) (world := Demo.world_at_97)
       (PolarDB.__init__ "run_polardb_check.sh") = Returned (true, self)
     /\ length (PolarDB.warnings self) = 1%nat
     /\ PolarDB.overall_status self = PolarDB.WARNING)
  /\ PolarDB.main (lib := Demo.lib_at_97) (world := Demo.world_at_97)
       "run_polardb_check.sh" = 0
  /\ (exists files self,
        Postgres.run_checks (lib := Demo.lib []) (world := Demo.world_of_timeouts)
          (rest := Demo.silent) (Postgres.__init__ "run_postgres_check.sh")
        = Returned (files, self)
        /\ Postgres.report_status self = "❌ ERROR")
  /\ Postgres.main (lib := Demo.lib []) (world := Demo.world_of_timeouts)
       (rest := Demo.silent) "run_postgres_check.sh" = 0.
Proof.
  split; [|split; [vm_compute; reflexivity|split; [|vm_compute; reflexivity]]].
  - eexists. split; [vm_compute; reflexivity|]. split; vm_compute; reflexivity.
  - eexists. eexists. split; [vm_compute; reflexivity|]. vm_compute; reflexivity.
Qed.

(** ** Connection usage *)

Section ConnectionUsage.
Context {lib : PyLib} {rest : Postgres.RestOfChain}.

Lemma positive_gt vm m : number vm = Some m -> (0 < m)%Q -> gt vm 0 = Returned true.
Proof.
  intros Hvm Hm. unfold gt. rewrite Hvm. f_equal. by apply Qltb_lt.
Qed.

(** What is above 95 is above 80. *)
Lemma above_95_above_80 usage :
  Binary64.gt usage 95 = true -> Binary64.gt usage 80 = true.
Proof.
  destruct usage as [q| |s|]; simpl; try done.
  rewrite !Qltb_lt. apply Qlt_trans. reflexivity.
Qed.

(** The polardb agent: one critical issue above 95, one warning above 80 and
    up to 95, nothing up to 80. *)
Lemma polardb_connection_usage (self : PolarDB.PolarDBCheckAgent) d row vc vm m ratio :
  dict_lookup "get_connection_usage" (PolarDB.results self) = Some (PDict d) ->
  dict_lookup "status" d = Some (PStr "success") ->
  dict_lookup "data" d = Some (PList [PDict row]) ->
  dict_lookup "current_connections" row = Some vc ->
  dict_lookup "max_connections" row = Some vm ->
  number vm = Some m -> (0 < m)%Q ->
  Binary64.truediv vc vm = Returned ratio ->
  let usage := Binary64.mul ratio (Binary64.Finite 100) in
  (Binary64.gt usage 95 = true ->
     exists f, PolarDB.analyze_connection_usage self = PolarDB.issues_append f self
               /\ PolarDB.type f = "critical"
               /\ PolarDB.check f = "get_connection_usage")
  /\ (Binary64.gt usage 80 = true /\ Binary64.gt usage 95 = false ->
        exists f, PolarDB.analyze_connection_usage self = PolarDB.warnings_append f self
                  /\ PolarDB.type f = "warning"
                  /\ PolarDB.check f = "get_connection_usage")
  /\ (Binary64.gt usage 80 = false ->
        PolarDB.analyze_connection_usage self = Returned (tt, self)).
Proof.
  intros Hres Hst Hd Hc Hm Hvm Hpos Hdiv usage.
  assert (Hrow : PolarDB.first_row (PDict d) = Returned (Some (PDict row))).
  { unfold PolarDB.first_row, getitem. rewrite !get_dict, Hst, Hd. reflexivity. }
  assert (Hrun : PolarDB.analyze_connection_usage self
    = (if Binary64.gt usage 95 then
         PolarDB.issues_append
           {| PolarDB.type := "critical";
              PolarDB.check := "get_connection_usage";
              PolarDB.message := "Connection usage is critical: " +:+ str vc +:+ "/"
                                 +:+ str vm +:+ " (" +:+ Binary64.format 1 usage +:+ "%)";
              PolarDB.recommendation :=
                "Increase max_connections or optimize connection pooling" |}
       else if Binary64.gt usage 80 then
         PolarDB.warnings_append
           {| PolarDB.type := "warning";
              PolarDB.check := "get_connection_usage";
              PolarDB.message := "Connection usage is high: " +:+ str vc +:+ "/"
                                 +:+ str vm +:+ " (" +:+ Binary64.format 1 usage +:+ "%)";
              PolarDB.recommendation :=
                "Monitor connection growth and consider connection pooling" |}
       else mret tt) self).
  { unfold PolarDB.analyze_connection_usage, PolarDB.when_present. rewrite Hres.
    unfold mbind at 1, PolarDB.M_bind at 1. rewrite Hrow. simpl PolarDB.lift.
    cbv iota beta. rewrite !get_dict, Hc, Hm. simpl default.
    unfold mbind at 1, PolarDB.M_bind at 1. simpl PolarDB.lift. cbv iota beta.
    unfold mbind at 1, PolarDB.M_bind at 1. simpl PolarDB.lift. cbv iota beta.
    unfold mbind at 1, PolarDB.M_bind at 1. rewrite (positive_gt vm m Hvm Hpos).
    simpl PolarDB.lift. cbv iota beta.
    unfold mbind at 1, PolarDB.M_bind at 1. rewrite Hdiv.
    unfold mbind at 1, outcome_bind. simpl PolarDB.lift. cbv iota beta.
    reflexivity. }
  rewrite Hrun. repeat split.
  - intros ->. eexists. by repeat split.
  - intros [-> ->]. eexists. by repeat split.
  - intros H80. destruct (Binary64.gt usage 95) eqn:H95.
    + by rewrite (above_95_above_80 _ H95) in H80.
    + by rewrite H80.
Qed.

(** The postgres agent: the block is a header and the line of counts; the
    header is the ERROR one above 95, the WARNING one above 80 and up to 95,
    the OK one up to 80, and the overall status is raised with it. *)
Lemma postgres_connection_usage (self : Postgres.PostgresAgent) d row more vu vm ratio :
  dict_lookup "skill" d = Some (PStr "get_connection_usage") ->
  dict_lookup "status" d = Some (PStr "success") ->
  dict_lookup "data" d = Some (PList (PDict row :: more)) ->
  dict_lookup "used_connections" row = Some vu ->
  dict_lookup "max_connections" row = Some vm ->
  Binary64.truediv vu vm = Returned ratio ->
  let usage := Binary64.mul ratio (Binary64.Finite 100) in
  exists header self',
    Postgres._analyze_and_report (PDict d) self = Returned (tt, self')
    /\ Postgres.report self'
       = Postgres.report self
         ++ [header; "Current active connections: " +:+ str vu +:+ " / " +:+ str vm]
    /\ (Binary64.gt usage 95 = true ->
          header = "### ❌ ERROR: High Connection Usage ("
                   +:+ Binary64.format 1 usage +:+ "%)"
          /\ Postgres.report_status self' = "❌ ERROR")
    /\ (Binary64.gt usage 80 = true /\ Binary64.gt usage 95 = false ->
          header = "### 🟠 WARNING: High Connection Usage ("
                   +:+ Binary64.format 1 usage +:+ "%)"
          /\ Postgres.report_status self'
             = if String.eqb (Postgres.report_status self) "❌ ERROR"
               then "❌ ERROR" else "🟠 WARNING")
    /\ (Binary64.gt usage 80 = false ->
          header = "### ✅ OK: Connection Usage (" +:+ Binary64.format 1 usage +:+ "%)"
          /\ Postgres.report_status self' = Postgres.report_status self).
Proof.
  intros Hs Hst Hd Hu Hm Hdiv usage.
  assert (Hbranch : Postgres._analyze_and_report (PDict d) self
    = Postgres.branch_get_connection_usage (PList (PDict row :: more)) self).
  { unfold Postgres._analyze_and_report. by rewrite !get_dict, Hs, Hst, Hd. }
  rewrite Hbranch. unfold Postgres.branch_get_connection_usage.
  cbn [truthy getitem0].
  assert (Hused : (Returned (PDict row) ≫= fun row0 => getitem row0 "used_connections")
                  = Returned vu)
    by (unfold mbind, outcome_bind, getitem; by rewrite Hu).
  assert (Hmax : (Returned (PDict row) ≫= fun row0 => getitem row0 "max_connections")
                 = Returned vm)
    by (unfold mbind, outcome_bind, getitem; by rewrite Hm).
  rewrite Hused, bind_lift_returned, Hmax, bind_lift_returned.
  rewrite Hdiv, bind_lift_returned.
  fold usage.
  destruct (Binary64.gt usage 95) eqn:H95.
  { rewrite (above_95_above_80 _ H95). eexists _, _. split.
    - unfold mbind, Postgres.M_bind, Postgres.append, Postgres._update_status. cbn.
      reflexivity.
    - cbn. rewrite <- app_assoc. split; [reflexivity|]. split; [done|]. split.
      + by intros [_ ?].
      + done. }
  destruct (Binary64.gt usage 80) eqn:H80.
  { eexists _, (if String.eqb (Postgres.report_status self) "❌ ERROR" then _ else _).
    split.
    - unfold mbind, Postgres.M_bind, Postgres.append, Postgres._update_status. cbn.
      destruct (String.eqb (Postgres.report_status self) "❌ ERROR"); cbn; reflexivity.
    - destruct (String.eqb (Postgres.report_status self) "❌ ERROR") eqn:He;
        cbn; rewrite <- app_assoc; (split; [reflexivity|]); (split; [|split]);
        try done.
      intros _. split; [done|]. by apply String.eqb_eq in He. }
  eexists _, _. split.
  - unfold mbind, Postgres.M_bind, Postgres.append. cbn. reflexivity.
  - cbn. rewrite <- app_assoc. split; [reflexivity|]. split; [|split]; try done.
    by intros [? _].
Qed.

End ConnectionUsage.

Section ConnectionUsageClaim.
Context {lib : PyLib} {rest : Postgres.RestOfChain}.

(** C7, as amended.  Connection usage thresholds.  [usage] is the double
    that [(count / max) * 100] evaluates to, the quotient rounded and then the
    product, for the single row of a successful connection usage check; each
    agent reads the count under its own key, [current_connections] for the
    polardb agent and [used_connections] for the postgres agent.  Above 95
    there is exactly one ERROR finding, above 80 and up to 95 exactly one
    WARNING finding, and up to 80 none, the postgres block then being headed
    OK.  The polardb run on [{current_connections: 96, max_connections: 100}]
    records one critical issue, reports CRITICAL and exits with 1.  The
    postgres run on [{used_connections: 96, max_connections: 100}] writes
    one ERROR header, for 96.0%, ends with the overall status ERROR and exits
    with 0. *)
Theorem connection_usage_thresholds vc vm m ratio :
  number vm = Some m -> (0 < m)%Q ->
  Binary64.truediv vc vm = Returned ratio ->
  let usage := Binary64.mul ratio (Binary64.Finite 100) in
  (forall (self : PolarDB.PolarDBCheckAgent) d row,
     dict_lookup "get_connection_usage" (PolarDB.results self) = Some (PDict d) ->
     dict_lookup "status" d = Some (PStr "success") ->
     dict_lookup "data" d = Some (PList [PDict row]) ->
     dict_lookup "current_connections" row = Some vc ->
     dict_lookup "max_connections" row = Some vm ->
     (Binary64.gt usage 95 = true ->
        exists f, PolarDB.analyze_connection_usage self = PolarDB.issues_append f self
                  /\ PolarDB.type f = "critical"
                  /\ PolarDB.check f = "get_connection_usage")
     /\ (Binary64.gt usage 80 = true /\ Binary64.gt usage 95 = false ->
           exists f, PolarDB.analyze_connection_usage self = PolarDB.warnings_append f self
                     /\ PolarDB.type f = "warning"
                     /\ PolarDB.check f = "get_connection_usage")
     /\ (Binary64.gt usage 80 = false ->
           PolarDB.analyze_connection_usage self = Returned (tt, self)))
  /\ (forall (self : Postgres.PostgresAgent) d row,
        dict_lookup "skill" d = Some (PStr "get_connection_usage") ->
        dict_lookup "status" d = Some (PStr "success") ->
        dict_lookup "data" d = Some (PList [PDict row]) ->
        dict_lookup "used_connections" row = Some vc ->
        dict_lookup "max_connections" row = Some vm ->
        exists header self',
          Postgres._analyze_and_report (PDict d) self = Returned (tt, self')
          /\ Postgres.report self'
             = Postgres.report self
               ++ [header;
                   "Current active connections: " +:+ str vc +:+ " / " +:+ str vm]
          /\ (Binary64.gt usage 95 = true ->
                header = "### ❌ ERROR: High Connection Usage ("
                         +:+ Binary64.format 1 usage +:+ "%)"
                /\ Postgres.report_status self' = "❌ ERROR")
          /\ (Binary64.gt usage 80 = true /\ Binary64.gt usage 95 = false ->
                header = "### 🟠 WARNING: High Connection Usage ("
                         +:+ Binary64.format 1 usage +:+ "%)"
                /\ Postgres.report_status self'
                   = if String.eqb (Postgres.report_status self) "❌ ERROR"
                     then "❌ ERROR" else "🟠 WARNING")
          /\ (Binary64.gt usage 80 = false ->
                header = "### ✅ OK: Connection Usage ("
                         +:+ Binary64.format 1 usage +:+ "%)"
                /\ Postgres.report_status self' = Postgres.report_status self))
  /\ (exists self f,
        PolarDB.run (lib := Demo.lib_at_96) (world := Demo.world_at_96)
          (PolarDB.__init__ "run_polardb_check.sh") = Returned (false, self)
        /\ PolarDB.issues self = [f]
        /\ PolarDB.type f = "critical"
        /\ PolarDB.check f = "get_connection_usage"
        /\ PolarDB.warnings self = []
        /\ PolarDB.overall_status self = PolarDB.CRITICAL
        /\ PolarDB.main (lib := Demo.lib_at_96) (world := Demo.world_at_96)
             "run_polardb_check.sh" = 1)
  /\ (exists files self,
        Whole.run_checks (lib := Demo.lib_with_96_used) (ops := Examples.plain_ops)
          (world := Demo.world_with_96_used)
          (Postgres.__init__ "run_postgres_check.sh") = Returned (files, self)
        /\ filter (fun line => String.prefix "### ❌" line) (Postgres.report self)
           = ["### ❌ ERROR: High Connection Usage (96.0%)"]
        /\ Postgres.report_status self = "❌ ERROR"
        /\ Whole.main (lib := Demo.lib_with_96_used) (ops := Examples.plain_ops)
             (world := Demo.world_with_96_used) "run_postgres_check.sh" = 0).
Proof.
  intros Hvm Hpos Hdiv usage. split; [|split; [|split]].
  - intros self d row Hres Hst Hd Hc Hm.
    exact (polardb_connection_usage self d row vc vm m ratio
             Hres Hst Hd Hc Hm Hvm Hpos Hdiv).
  - intros self d row Hs Hst Hd Hc Hm.
    exact (postgres_connection_usage self d row [] vc vm ratio Hs Hst Hd Hc Hm Hdiv).
  - eexists _, _. split; [vm_compute; reflexivity|].
    split; [vm_compute; reflexivity|]. repeat split; vm_compute; reflexivity.
  - eexists _, _. split; [vm_compute; reflexivity|].
    repeat split; vm_compute; reflexivity.
Qed.

End ConnectionUsageClaim.

Lemma connection_usage_thresholds_witness :
  let polardb :=
    {| PolarDB.check_script := "run_polardb_check.sh";
       PolarDB.results := [("get_connection_usage", Demo.usage_96)];
       PolarDB.issues := [];
       PolarDB.warnings := [] |} in
  (exists f, PolarDB.analyze_connection_usage (lib := Demo.lib []) polardb
             = PolarDB.issues_append f polardb
             /\ PolarDB.type f = "critical"
             /\ PolarDB.check f = "get_connection_usage")
  /\ (exists header self',
        Postgres._analyze_and_report (lib := Demo.lib []) (rest := Demo.silent)
          (Demo.success "get_connection_usage"
             [Demo.connection_row "used_connections" 96 100])
          (Postgres.__init__ "run_postgres_check.sh")
        = Returned (tt, self')
        /\ header = "### ❌ ERROR: High Connection Usage (96.0%)"
        /\ Postgres.report self' = [header; "Current active connections: 96 / 100"]
        /\ Postgres.report_status self' = "❌ ERROR").
Proof.
  intros polardb.
  destruct (connection_usage_thresholds (lib := Demo.lib []) (rest := Demo.silent)
              (PInt 96) (PInt 100) (inject_Z 100)
              (Binary64.Finite (8646911284551352 # 9007199254740992))
              eq_refl eq_refl eq_refl) as (Hpolar & Hpg & _).
  split.
  - destruct (Hpolar polardb
                [("skill", PStr "get_connection_usage"); ("status", PStr "success");
                 ("data", PList [Demo.connection_row "current_connections" 96 100])]
                [("current_connections", PInt 96); ("max_connections", PInt 100)]
                eq_refl eq_refl eq_refl eq_refl eq_refl) as (Hcrit & _).
    apply Hcrit. reflexivity.
  - destruct (Hpg (Postgres.__init__ "run_postgres_check.sh")
                [("skill", PStr "get_connection_usage"); ("status", PStr "success");
                 ("data", PList [Demo.connection_row "used_connections" 96 100])]
                [("used_connections", PInt 96); ("max_connections", PInt 100)]
                eq_refl eq_refl eq_refl eq_refl eq_refl)
      as (header & self' & Hrun & Hrep & Hcrit & _).
    destruct (Hcrit eq_refl) as [Hh Hst].
    exists header, self'. rewrite Hrep. by repeat split.
Defined.

(** The claim as first stated fails for the postgres agent.  It reads the
    count under [used_connections]: the row of the claim raises [KeyError],
    in the analysis and so in the run, which ends without a report and with
    the exit code of an uncaught exception.  With the count under its own key
    the overall status is ERROR and the exit code is 0.  And [usage] is the
    rounded number: for a ratio just above 0.95 it is 95.0, above 80 and not
    above 95. *)
Lemma connection_usage_counterexample :
  Postgres._analyze_and_report (lib := Demo.lib_at_96) (rest := Demo.silent)
    Demo.usage_96 (Postgres.__init__ "run_postgres_check.sh")
  = Raised KeyError
  /\ Whole.run_checks (lib := Demo.lib_at_96) (ops := Examples.plain_ops)
       (world := Demo.world_with_polardb_row)
       (Postgres.__init__ "run_postgres_check.sh")
     = Raised KeyError
  /\ Whole.main (lib := Demo.lib_at_96) (ops := Examples.plain_ops)
       (world := Demo.world_with_polardb_row) "run_postgres_check.sh" = 1
  /\ (exists files self,
        Whole.run_checks (lib := Demo.lib_with_96_used) (ops := Examples.plain_ops)
          (world := Demo.world_with_96_used)
          (Postgres.__init__ "run_postgres_check.sh") = Returned (files, self)
        /\ Postgres.report_status self = "❌ ERROR")
  /\ Whole.main (lib := Demo.lib_with_96_used) (ops := Examples.plain_ops)
       (world := Demo.world_with_96_used) "run_postgres_check.sh" = 0
  /\ (exists ratio,
        Binary64.truediv (PFloat (8556839292003943 # 9007199254740992)) (PInt 1)
        = Returned ratio
        /\ Qltb 95 ((8556839292003943 # 9007199254740992) / 1 * 100) = true
        /\ Binary64.gt (Binary64.mul ratio (Binary64.Finite 100)) 95 = false
        /\ Binary64.gt (Binary64.mul ratio (Binary64.Finite 100)) 80 = true).
Proof.
  split; [vm_compute; reflexivity|].
  split; [vm_compute; reflexivity|].
  split; [vm_compute; reflexivity|].
  split; [eexists _, _; split; vm_compute; reflexivity|].
  split; [vm_compute; reflexivity|].
  eexists. split; [vm_compute; reflexivity|]. repeat split; vm_compute; reflexivity.
Qed.

(** * Further properties *)

(** ** What one analysis may change *)

Section FrameLemmas.
Import Postgres Frame.
Context {lib : PyLib}.

Lemma extends_intro (P : nat -> Prop) self self' lines :
  executor_script self' = executor_script self ->
  raw_results self' = raw_results self ->
  (status_rank (report_status self) <= status_rank (report_status self'))%nat ->
  P (length lines) ->
  report self' = report self ++ lines ->
  extends P self self'.
Proof. intros. split; [done|]. split; [done|]. split; [done|]. by exists lines. Qed.

Lemma extends_refl self : extends (eq 0%nat) self self.
Proof. apply (extends_intro _ _ _ []); try done. by rewrite app_nil_r. Qed.

Lemma extends_weaken (P : nat -> Prop) self self' :
  extends P self self' -> extends (fun _ => True) self self'.
Proof. intros (? & ? & ? & lines & _ & ?). by apply (extends_intro _ _ _ lines). Qed.

Lemma extends_trans n k s1 s2 s3 :
  extends (eq n) s1 s2 -> extends (eq k) s2 s3 -> extends (eq (n + k)%nat) s1 s3.
Proof.
  intros (E1 & R1 & S1 & l1 & N1 & L1) (E2 & R2 & S2 & l2 & N2 & L2).
  apply (extends_intro _ _ _ (l1 ++ l2)); [congruence | congruence | lia | |].
  - rewrite length_app. lia.
  - by rewrite L2, L1, app_assoc.
Qed.

Lemma extends_trans_any s1 s2 s3 :
  extends (fun _ => True) s1 s2 -> extends (fun _ => True) s2 s3 ->
  extends (fun _ => True) s1 s3.
Proof.
  intros (E1 & R1 & S1 & l1 & N1 & L1) (E2 & R2 & S2 & l2 & N2 & L2).
  apply (extends_intro _ _ _ (l1 ++ l2)); [congruence | congruence | lia | done |].
  by rewrite L2, L1, app_assoc.
Qed.

Lemma grows_keeps {A} n (m : M A) : grows n m -> keeps m.
Proof. intros Hm s a s' Hrun. eapply extends_weaken, Hm, Hrun. Qed.

Lemma grows_ret {A} (a : A) : grows 0 (mret a).
Proof. intros s a' s' [= <- <-]. apply extends_refl. Qed.

Lemma grows_lift {A} (m : outcome A) : grows 0 (lift m).
Proof. intros s a s'. destruct m; [|done]. intros [= <- <-]. apply extends_refl. Qed.

Lemma grows_report_len : grows 0 report_len.
Proof. intros s a s' [= <- <-]. apply extends_refl. Qed.

Lemma grows_append line : grows 1 (append line).
Proof.
  intros s a s' [= <- <-]. by apply (extends_intro _ _ _ [line]).
Qed.

Lemma rank_error status : (status_rank status <= status_rank "❌ ERROR")%nat.
Proof.
  change (status_rank "❌ ERROR") with 2%nat. unfold status_rank.
  repeat case_match; lia.
Qed.

Lemma grows_update_status new_status : grows 0 (_update_status new_status).
Proof.
  intros s a s'. unfold _update_status.
  destruct (String.eqb new_status "❌ ERROR").
  { intros [= <- <-]. apply (extends_intro _ _ _ []); try done;
      [apply rank_error | by rewrite app_nil_r]. }
  destruct (String.eqb new_status "🟠 WARNING"); simpl.
  - destruct (String.eqb (report_status s) "❌ ERROR") eqn:E; simpl.
    + intros [= <- <-]. apply extends_refl.
    + intros [= <- <-]. apply (extends_intro _ _ _ []); try done.
      * unfold status_rank. rewrite E. simpl. case_match; lia.
      * by rewrite app_nil_r.
  - intros [= <- <-]. apply extends_refl.
Qed.

Lemma grows_bind {A B} n k (m : M A) (f : A -> M B) :
  grows n m -> (forall a, grows k (f a)) -> grows (n + k) (m ≫= f).
Proof.
  intros Hm Hf s b s'. unfold mbind, M_bind.
  destruct (m s) as [[a s1]|] eqn:E; [|done].
  intros Hrun. eapply extends_trans; [eapply Hm, E | eapply Hf, Hrun].
Qed.

Lemma keeps_bind {A B} (m : M A) (f : A -> M B) :
  keeps m -> (forall a, keeps (f a)) -> keeps (m ≫= f).
Proof.
  intros Hm Hf s b s'. unfold mbind, M_bind.
  destruct (m s) as [[a s1]|] eqn:E; [|done].
  intros Hrun. eapply extends_trans_any; [eapply Hm, E | eapply Hf, Hrun].
Qed.

Lemma grows_for_each {A} (body : A -> pyval -> M A) items :
  (forall a x, grows 1 (body a x)) -> forall a, grows (length items) (for_each items body a).
Proof.
  intros Hbody. induction items as [|x items IH]; intros a; simpl.
  - apply grows_ret.
  - apply (grows_bind 1 (length items)); [apply Hbody | apply IH].
Qed.

Lemma keeps_for_each {A} (body : A -> pyval -> M A) items :
  (forall a x, keeps (body a x)) -> forall a, keeps (for_each items body a).
Proof.
  intros Hbody. induction items as [|x items IH]; intros a; simpl.
  - apply (grows_keeps 0), grows_ret.
  - apply keeps_bind; [apply Hbody | apply IH].
Qed.


Lemma grows_lift_bind {A B} n (m : outcome A) (f : A -> M B) :
  (forall a, grows n (f a)) -> grows n (lift m ≫= f).
Proof. intros Hf. apply (grows_bind 0 n); [apply grows_lift | done]. Qed.

Lemma grows_append_bind {B} n line (f : unit -> M B) :
  (forall u, grows n (f u)) -> grows (S n) (append line ≫= f).
Proof. intros Hf. apply (grows_bind 1 n); [apply grows_append | done]. Qed.

Lemma grows_update_bind {B} n new_status (f : unit -> M B) :
  (forall u, grows n (f u)) -> grows n (_update_status new_status ≫= f).
Proof. intros Hf. apply (grows_bind 0 n); [apply grows_update_status | done]. Qed.

(** One step of a proof that a body keeps to the rules. *)
Ltac grows_step :=
  match goal with
  | |- grows _ (lift _ ≫= _) => apply grows_lift_bind; intros ?
  | |- grows _ (append _ ≫= _) => apply grows_append_bind; intros ?
  | |- grows _ (_update_status _ ≫= _) => apply grows_update_bind; intros ?
  | |- grows 0 (mret _) => apply grows_ret
  | |- grows 1 (append _) => apply grows_append
  | |- grows 0 (_update_status _) => apply grows_update_status
  | |- grows _ (if ?c then _ else _) => destruct c
  end.

Ltac keeps_step :=
  match goal with
  | |- keeps (_ ≫= _) => apply keeps_bind; [|intros ?]
  | |- keeps (lift _) => apply (grows_keeps 0), grows_lift
  | |- keeps (append _) => apply (grows_keeps 1), grows_append
  | |- keeps (_update_status _) => apply (grows_keeps 0), grows_update_status
  | |- keeps (mret _) => apply (grows_keeps 0), grows_ret
  | |- keeps (for_each _ _ _) => apply keeps_for_each; intros ? ?
  | |- keeps (if ?c then _ else _) => destruct c
  | |- keeps (let '(_, _) := ?p in _) => destruct p
  | |- keeps (match ?l with [] => _ | _ :: _ => _ end) => destruct l
  end.

Lemma grows_bloat_item b item : grows 1 (bloat_item b item).
Proof. unfold bloat_item. repeat grows_step. Qed.

Lemma grows_replica_item b item : grows 1 (replica_item b item).
Proof. unfold replica_item. repeat grows_step. Qed.

Lemma grows_critical_setting b item : grows 1 (Chain.critical_setting b item).
Proof.
  unfold Chain.critical_setting. do 2 grows_step.
  apply (grows_bind 0 1); [repeat grows_step | intros [? ?]; repeat grows_step].
Qed.


Create HintDb branches.

#[local] Hint Unfold blocking_lock replication_slot
  Chain.top_object Chain.table_hotspot Chain.unused_index Chain.long_running_query
  Chain.idle_session Chain.invalid_index Chain.rollback_rate Chain.autovacuum_worker
  Chain.database_size Chain.sequence_row Chain.wait_event
  branch_get_blocking_locks branch_get_connection_usage branch_get_replication_slots
  Chain.branch_get_top_objects_by_size Chain.branch_get_table_hotspots
  Chain.branch_get_wal_archiver_status Chain.branch_get_large_unused_indexes
  Chain.branch_get_long_running_queries Chain.branch_get_idle_in_transaction_sessions
  Chain.branch_get_cache_hit_rate Chain.branch_get_invalid_indexes
  Chain.branch_get_rollback_rate Chain.branch_get_autovacuum_status
  Chain.branch_get_database_sizes Chain.branch_get_sequence_exhaustion
  Chain.branch_get_wait_events Chain.branch_get_bgwriter_stats
  Chain.branch_get_deadlock_detection : branches.

Ltac keeps_branch := repeat first [keeps_step | progress autounfold with branches].

Lemma keeps_plain_branches (result data notes : pyval) :
  keeps (branch_get_blocking_locks data)
  /\ keeps (branch_get_connection_usage data)
  /\ keeps (branch_get_replication_slots result data notes)
  /\ keeps (Chain.branch_get_top_objects_by_size data)
  /\ keeps (Chain.branch_get_table_hotspots data)
  /\ keeps (Chain.branch_get_wal_archiver_status data notes)
  /\ keeps (Chain.branch_get_large_unused_indexes data)
  /\ keeps (Chain.branch_get_long_running_queries data)
  /\ keeps (Chain.branch_get_idle_in_transaction_sessions data)
  /\ keeps (Chain.branch_get_cache_hit_rate data)
  /\ keeps (Chain.branch_get_invalid_indexes data)
  /\ keeps (Chain.branch_get_rollback_rate data)
  /\ keeps (Chain.branch_get_autovacuum_status data)
  /\ keeps (Chain.branch_get_database_sizes data)
  /\ keeps (Chain.branch_get_sequence_exhaustion data)
  /\ keeps (Chain.branch_get_wait_events data)
  /\ keeps (Chain.branch_get_bgwriter_stats data)
  /\ keeps (Chain.branch_get_deadlock_detection data).
Proof. repeat match goal with |- _ /\ _ => split end; keeps_branch. Qed.


(** A loop that returns has run over a list when its body raises on the
    characters of a string and on the keys of a dict. *)
Lemma loop_over_a_list {A} (body : A -> pyval -> M A) data items a self r :
  (forall a t self a' self', body a (PStr t) self <> Returned (a', self')) ->
  truthy data = true ->
  iter data = Returned items ->
  for_each items body a self = Returned r ->
  data = PList items.
Proof.
  intros Hstr Ht Hit Hloop.
  destruct data as [| | | |t|l|d]; try discriminate.
  - destruct t as [|c t]; [discriminate|]. simpl in Hit. injection Hit as <-.
    simpl in Hloop. unfold mbind, M_bind in Hloop.
    destruct (body a _ self) as [[a' s']|] eqn:E; [by apply Hstr in E | done].
  - simpl in Hit. by injection Hit as <-.
  - destruct d as [|[k v] d]; [discriminate|]. simpl in Hit. injection Hit as <-.
    simpl in Hloop. unfold mbind, M_bind in Hloop.
    destruct (body a _ self) as [[a' s']|] eqn:E; [by apply Hstr in E | done].
Qed.

Lemma rewrite_second_line self0 self h t1 t2 lines w :
  report self = (((report self0 ++ [h]) ++ [t1]) ++ [t2]) ++ lines ->
  setitem (Z.of_nat (length (report self)) - Z.of_nat (length lines) - 2) w self
  = Returned (tt, with_report (report self0 ++ h :: w :: t2 :: lines) self).
Proof.
  intros Hrep.
  assert (Hflat : report self = report self0 ++ h :: t1 :: t2 :: lines)
    by (by rewrite Hrep, <- !app_assoc).
  replace (Z.of_nat (length (report self)) - Z.of_nat (length lines) - 2)
    with (Z.of_nat (S (length (report self0))))
    by (rewrite Hflat, length_app; simpl; lia).
  rewrite setitem_at by (rewrite Hflat, length_app; simpl; lia).
  rewrite Hflat, insert_app_r_alt by lia.
  by replace (S (length (report self0)) - length (report self0))%nat with 1%nat by lia.
Qed.

Lemma rewrite_first_line self0 self h lines w :
  report self = (report self0 ++ [h]) ++ lines ->
  setitem (- Z.of_nat (length lines) - 1) w self
  = Returned (tt, with_report (report self0 ++ w :: lines) self).
Proof.
  intros Hrep.
  assert (Hflat : report self = report self0 ++ h :: lines)
    by (by rewrite Hrep, <- !app_assoc).
  unfold setitem.
  assert (Hlen : Z.of_nat (length (report self))
                 = Z.of_nat (length (report self0)) + 1 + Z.of_nat (length lines))
    by (rewrite Hflat, length_app; simpl; lia).
  rewrite Hlen.
  destruct (Z.ltb_spec (- Z.of_nat (length lines) - 1) 0) as [_|?]; [|lia].
  replace (- Z.of_nat (length lines) - 1
           + (Z.of_nat (length (report self0)) + 1 + Z.of_nat (length lines)))
    with (Z.of_nat (length (report self0))) by lia.
  destruct (Z.leb_spec 0 (Z.of_nat (length (report self0)))) as [_|?]; [|lia].
  destruct (Z.ltb_spec (Z.of_nat (length (report self0)))
              (Z.of_nat (length (report self0)) + 1 + Z.of_nat (length lines)))
    as [_|?]; [|lia].
  cbn [andb]. cbv iota. rewrite Nat2Z.id, Hflat.
  by rewrite insert_app_r_alt, Nat.sub_diag by lia.
Qed.

Lemma keeps_branch_bloat skill data : keeps (branch_bloat skill data).
Proof.
  intros self a self' Hrun. unfold branch_bloat in Hrun.
  rewrite bind_append in Hrun.
  destruct (truthy data) eqn:Ht.
  2: { injection Hrun as <- <-. eapply (extends_intro _ _ _ [_; _]); try done.
       simpl. by rewrite <- app_assoc. }
  rewrite !bind_append in Hrun.
  destruct (iter data) as [items|] eqn:Hit; [|done].
  rewrite bind_lift_returned in Hrun. unfold mbind at 1, M_bind at 1 in Hrun.
  match type of Hrun with context [for_each items bloat_item false ?s] =>
    destruct (for_each items bloat_item false s) as [[has self4]|] eqn:Hloop; [|done];
    pose proof (grows_for_each bloat_item items grows_bloat_item false _ _ _ Hloop)
      as (Hs & Hr & Hk & lines & Hn & Hl);
    assert (Hlist : data = PList items)
      by (by eapply (loop_over_a_list bloat_item); eauto)
  end.
  simpl in Hs, Hr, Hk, Hl.
  destruct has.
  2: { injection Hrun as <- <-.
       eapply (extends_intro _ _ _ (_ :: _ :: _ :: lines)); try done.
       by rewrite Hl, <- !app_assoc. }
  rewrite bind_report_len, Hlist in Hrun. simpl len in Hrun.
  rewrite bind_lift_returned in Hrun. unfold mbind at 1, M_bind at 1 in Hrun.
  rewrite Hn, (rewrite_second_line self _ _ _ _ _ _ Hl) in Hrun.
  apply grows_update_status in Hrun as (Hs' & Hr' & Hk' & lines' & Hn' & Hl').
  simpl in *. destruct lines'; [|done]. rewrite app_nil_r in Hl'.
  eapply (extends_intro _ _ _ (_ :: _ :: _ :: lines)); try done; try congruence.
  lia.
Qed.


Lemma keeps_branch_get_replication_status data :
  keeps (branch_get_replication_status data).
Proof.
  intros self a self' Hrun. unfold branch_get_replication_status in Hrun.
  rewrite bind_append in Hrun.
  destruct (truthy data) eqn:Ht; cbn [negb] in Hrun.
  2: { injection Hrun as <- <-. eapply (extends_intro _ _ _ [_; _]); try done.
       simpl. by rewrite <- app_assoc. }
  destruct (iter data) as [items|] eqn:Hit; [|done].
  rewrite bind_lift_returned in Hrun. unfold mbind at 1, M_bind at 1 in Hrun.
  match type of Hrun with context [for_each items replica_item false ?s] =>
    destruct (for_each items replica_item false s) as [[has self4]|] eqn:Hloop; [|done];
    pose proof (grows_for_each replica_item items grows_replica_item false _ _ _ Hloop)
      as (Hs & Hr & Hk & lines & Hn & Hl);
    assert (Hlist : data = PList items)
      by (by eapply (loop_over_a_list replica_item); eauto)
  end.
  simpl in Hs, Hr, Hk, Hl.
  destruct has.
  2: { injection Hrun as <- <-.
       eapply (extends_intro _ _ _ (_ :: lines)); try done.
       by rewrite Hl, <- !app_assoc. }
  rewrite Hlist in Hrun. simpl len in Hrun. rewrite bind_lift_returned in Hrun.
  rewrite Hn, (rewrite_first_line self _ _ _ _ Hl) in Hrun.
  injection Hrun as <- <-.
  by eapply (extends_intro _ _ _ (_ :: lines)).
Qed.

Lemma keeps_branch_get_critical_settings data :
  keeps (Chain.branch_get_critical_settings data).
Proof.
  intros self a self' Hrun. unfold Chain.branch_get_critical_settings in Hrun.
  rewrite bind_append in Hrun.
  destruct (truthy data) eqn:Ht.
  2: { injection Hrun as <- <-. eapply (extends_intro _ _ _ [_; _]); try done.
       simpl. by rewrite <- app_assoc. }
  rewrite !bind_append in Hrun.
  destruct (iter data) as [items|] eqn:Hit; [|done].
  rewrite bind_lift_returned in Hrun. unfold mbind at 1, M_bind at 1 in Hrun.
  match type of Hrun with context [for_each items Chain.critical_setting false ?s] =>
    destruct (for_each items Chain.critical_setting false s)
      as [[has self4]|] eqn:Hloop; [|done];
    pose proof (grows_for_each Chain.critical_setting items grows_critical_setting
                  false _ _ _ Hloop) as (Hs & Hr & Hk & lines & Hn & Hl);
    assert (Hlist : data = PList items)
      by (by eapply (loop_over_a_list Chain.critical_setting); eauto)
  end.
  simpl in Hs, Hr, Hk, Hl.
  destruct has.
  2: { injection Hrun as <- <-.
       eapply (extends_intro _ _ _ (_ :: _ :: _ :: lines)); try done.
       by rewrite Hl, <- !app_assoc. }
  rewrite bind_report_len, Hlist in Hrun. simpl len in Hrun.
  rewrite bind_lift_returned in Hrun.
  rewrite Hn, (rewrite_second_line self _ _ _ _ _ _ Hl) in Hrun.
  injection Hrun as <- <-.
  by eapply (extends_intro _ _ _ (_ :: _ :: _ :: lines)).
Qed.

Section OthersFrame.
Import Others.
Context {ops : PyOps}.

Create HintDb last_branches.

#[local] Hint Unfold top_sql xid_database stale_table io_row analyze_progress
  create_index_progress cluster_progress slru_row conflict_row function_row
  top_function lock_waiter multixid_database unencrypted_connection temp_bytes_row
  subscription prepared_transaction long_transaction temp_file_row
  branch_get_top_sql_by_time branch_get_xid_wraparound_risk branch_get_stale_statistics
  branch_get_io_statistics branch_get_io_statistics_v2 branch_get_analyze_progress
  branch_get_create_index_progress branch_get_cluster_progress
  branch_get_wal_statistics branch_get_checkpointer_stats branch_get_slru_stats
  branch_get_database_conflict_stats branch_get_user_function_stats
  branch_get_lock_waiters branch_get_multixid_wraparound_risk
  branch_get_connection_security_status branch_get_total_temp_bytes
  branch_get_checkpointer_write_sync_time branch_get_logical_replication_status
  branch_get_long_running_prepared_transactions branch_get_long_running_transactions
  branch_get_temp_file_usage : last_branches.

Ltac keeps_last := repeat first [keeps_step | progress autounfold with last_branches].

Lemma keeps_last_branches (data notes : pyval) :
  keeps (branch_get_top_sql_by_time data notes)
  /\ keeps (branch_get_xid_wraparound_risk data)
  /\ keeps (branch_get_stale_statistics data)
  /\ keeps (branch_get_io_statistics data)
  /\ keeps (branch_get_io_statistics_v2 data)
  /\ keeps (branch_get_analyze_progress data)
  /\ keeps (branch_get_create_index_progress data)
  /\ keeps (branch_get_cluster_progress data)
  /\ keeps (branch_get_wal_statistics data)
  /\ keeps (branch_get_checkpointer_stats data)
  /\ keeps (branch_get_slru_stats data)
  /\ keeps (branch_get_database_conflict_stats data)
  /\ keeps (branch_get_user_function_stats data)
  /\ keeps (branch_get_lock_waiters data)
  /\ keeps (branch_get_multixid_wraparound_risk data)
  /\ keeps (branch_get_connection_security_status data)
  /\ keeps (branch_get_total_temp_bytes data)
  /\ keeps (branch_get_checkpointer_write_sync_time data)
  /\ keeps (branch_get_logical_replication_status data)
  /\ keeps (branch_get_long_running_prepared_transactions data)
  /\ keeps (branch_get_long_running_transactions data)
  /\ keeps (branch_get_temp_file_usage data).
Proof.
  repeat match goal with |- _ /\ _ => split end; keeps_last.
Qed.

Lemma grows_freeze_item flags item : grows 1 (freeze_item flags item).
Proof. unfold freeze_item. repeat grows_step. Qed.

Lemma keeps_branch_get_freeze_prediction data :
  keeps (branch_get_freeze_prediction data).
Proof.
  intros self a self' Hrun. unfold branch_get_freeze_prediction in Hrun.
  rewrite bind_append in Hrun.
  destruct (truthy data) eqn:Ht.
  2: { injection Hrun as <- <-. eapply (extends_intro _ _ _ [_; _]); try done.
       simpl. by rewrite <- app_assoc. }
  rewrite !bind_append in Hrun.
  destruct (iter data) as [items|] eqn:Hit; [|done].
  rewrite bind_lift_returned in Hrun. unfold mbind at 1, M_bind at 1 in Hrun.
  match type of Hrun with context [for_each items freeze_item ?f ?s] =>
    destruct (for_each items freeze_item f s) as [[[critical warning] self4]|] eqn:Hloop;
      [|done];
    pose proof (grows_for_each freeze_item items grows_freeze_item _ _ _ _ Hloop)
      as (Hs & Hr & Hk & lines & Hn & Hl);
    assert (Hlist : data = PList items)
      by (by eapply (loop_over_a_list freeze_item); eauto)
  end.
  simpl in Hs, Hr, Hk, Hl. cbn [fst snd] in Hrun.
  destruct critical; [|destruct warning].
  3: { injection Hrun as <- <-.
       eapply (extends_intro _ _ _ (_ :: _ :: _ :: lines)); try done.
       by rewrite Hl, <- !app_assoc. }
  all: rewrite bind_report_len, Hlist in Hrun; simpl len in Hrun;
    rewrite bind_lift_returned in Hrun; unfold mbind at 1, M_bind at 1 in Hrun;
    rewrite Hn, (rewrite_second_line self _ _ _ _ _ _ Hl) in Hrun;
    apply grows_update_status in Hrun as (Hs' & Hr' & Hk' & lines' & Hn' & Hl');
    simpl in *; (destruct lines'; [|done]); rewrite app_nil_r in Hl';
    eapply (extends_intro _ _ _ (_ :: _ :: _ :: lines)); try done; try congruence;
    lia.
Qed.

Lemma polite_rest_of_chain : polite rest_of_chain.
Proof.
  intros result skill data notes. cbn [remaining_branches rest_of_chain].
  unfold last_branches.
  destruct (keeps_last_branches data notes)
    as (? & ? & ? & ? & ? & ? & ? & ? & ? & ? & ? & ? & ? & ? & ? & ? & ? & ? & ? & ?
        & ? & ?).
  pose proof (keeps_branch_get_freeze_prediction data).
  repeat first [assumption | keeps_step].
Qed.

End OthersFrame.

Section Analysis.
Context {rest : RestOfChain}.

Lemma keeps_analyze result : polite rest -> keeps (Chain.analyze result).
Proof.
  intros Hrest. unfold Chain.analyze, _analyze_and_report.
  apply keeps_bind; [apply (grows_keeps 0), grows_lift | intros skill].
  apply keeps_bind; [apply (grows_keeps 0), grows_lift | intros status].
  apply keeps_bind; [apply (grows_keeps 0), grows_lift | intros data].
  apply keeps_bind; [apply (grows_keeps 0), grows_lift | intros notes].
  destruct (keeps_plain_branches result data notes)
    as (? & ? & ? & ? & ? & ? & ? & ? & ? & ? & ? & ? & ? & ? & ? & ? & ? & ?).
  pose proof (keeps_branch_bloat skill data).
  pose proof (keeps_branch_get_replication_status data).
  pose proof (keeps_branch_get_critical_settings data).
  pose proof (Hrest result skill data notes).
  cbn [remaining_branches Chain.chain]. unfold Chain.more_branches.
  repeat first [assumption | keeps_step].
Qed.

End Analysis.

Lemma polite_silent : polite Demo.silent.
Proof. intros result skill data notes. apply (grows_keeps 0), grows_ret. Qed.

Section WholeAnalysis.
Context {ops : Others.PyOps}.

Lemma keeps_whole_analysis result : keeps (Whole._analyze_and_report result).
Proof.
  change (keeps (Chain.analyze (rest := Others.rest_of_chain) result)).
  exact (keeps_analyze result polite_rest_of_chain).
Qed.

(** X1.  An analysis never lowers the overall status: whatever the result
    and whichever branch of the chain it takes, if [_analyze_and_report]
    returns, the rank of [report_status] has not gone down. *)
Theorem analysis_never_lowers_status result self self' :
  Whole._analyze_and_report result self = Returned (tt, self') ->
  (status_rank (report_status self) <= status_rank (report_status self'))%nat.
Proof. intros Hrun. by destruct (keeps_whole_analysis result _ _ _ Hrun) as (_ & _ & ? & _). Qed.

(** X2.  An analysis only adds lines at the end of the report: the lines of
    the earlier blocks are all still there, also where a header is rewritten in
    place, and neither the script path nor the raw results are touched. *)
Theorem analysis_only_appends result self self' :
  Whole._analyze_and_report result self = Returned (tt, self') ->
  executor_script self' = executor_script self
  /\ raw_results self' = raw_results self
  /\ exists lines, report self' = report self ++ lines.
Proof.
  intros Hrun.
  destruct (keeps_whole_analysis result _ _ _ Hrun) as (? & ? & _ & lines & _ & ?).
  eauto.
Qed.

End WholeAnalysis.


End FrameLemmas.

Lemma analysis_never_lowers_status_witness :
  exists self',
    Whole._analyze_and_report (lib := Demo.lib []) (ops := Examples.plain_ops)
      (Demo.success "get_table_bloat" Demo.ten_rows)
      (Postgres.__init__ "run_postgres_check.sh") = Returned (tt, self')
    /\ (Frame.status_rank "✅ OK"
        <= Frame.status_rank (Postgres.report_status self'))%nat.
Proof.
  eassert (Hrun : Whole._analyze_and_report (lib := Demo.lib [])
                    (ops := Examples.plain_ops)
                    (Demo.success "get_table_bloat" Demo.ten_rows)
                    (Postgres.__init__ "run_postgres_check.sh") = Returned (tt, _))
    by (vm_compute; reflexivity).
  eexists. split; [exact Hrun|].
  exact (analysis_never_lowers_status _ _ _ Hrun).
Defined.

Lemma analysis_only_appends_witness :
  exists self',
    Whole._analyze_and_report (lib := Demo.lib []) (ops := Examples.plain_ops)
      (Demo.success "get_replication_status" [Demo.near_replica])
      (Postgres.with_report ["earlier block"]
         (Postgres.__init__ "run_postgres_check.sh")) = Returned (tt, self')
    /\ exists lines, Postgres.report self' = ["earlier block"] ++ lines.
Proof.
  eassert (Hrun : Whole._analyze_and_report (lib := Demo.lib [])
                    (ops := Examples.plain_ops)
                    (Demo.success "get_replication_status" [Demo.near_replica])
                    (Postgres.with_report ["earlier block"]
                       (Postgres.__init__ "run_postgres_check.sh"))
                  = Returned (tt, _))
    by (vm_compute; reflexivity).
  eexists. split; [exact Hrun|].
  exact (proj2 (proj2 (analysis_only_appends _ _ _ Hrun))).
Defined.

(** ** The dictionary of results *)

Lemma Returned_inj {A} (a b : A) : Returned a = Returned b -> a = b.
Proof. by intros [= ->]. Qed.

Lemma fold_dict_set_ext (f g : string -> pyval) skills : forall d,
  (forall skill, f skill = g skill) ->
  fold_left (fun d skill => dict_set skill (f skill) d) skills d
  = fold_left (fun d skill => dict_set skill (g skill) d) skills d.
Proof.
  induction skills as [|skill skills IH]; intros d Hfg; simpl; [done|].
  by rewrite Hfg, IH.
Qed.

Lemma dict_set_fresh k v d :
  k ∉ map fst d -> dict_set k v d = d ++ [(k, v)].
Proof.
  induction d as [|[k' v'] d IH]; simpl; [done|].
  intros Hk. apply not_elem_of_cons in Hk as [Hne Hk].
  destruct (String.eqb_spec k k'); [done|]. by rewrite IH.
Qed.

Lemma fold_dict_set_fresh (f : string -> pyval) skills : forall d,
  NoDup skills ->
  (forall skill, skill ∈ skills -> skill ∉ map fst d) ->
  fold_left (fun d skill => dict_set skill (f skill) d) skills d
  = d ++ map (fun skill => (skill, f skill)) skills.
Proof.
  induction skills as [|skill skills IH]; intros d Hnd Hd; simpl.
  - by rewrite app_nil_r.
  - apply NoDup_cons in Hnd as [Hnot Hnd].
    rewrite dict_set_fresh by (apply Hd; left).
    rewrite IH; [by rewrite <- app_assoc | done |].
    intros k Hk. rewrite map_app. simpl. intros [Hin|Hin]%elem_of_app.
    + apply (Hd k); [by right | done].
    + apply list_elem_of_singleton in Hin as ->. done.
Qed.

(** ** The run over the checklist *)


Section RunOverChecklist.
Import Postgres Frame.
Context {lib : PyLib} {world : World} {rest : RestOfChain}.

Lemma run_skill_script (s1 s2 : PostgresAgent) skill :
  executor_script s1 = executor_script s2 -> _run_skill s1 skill = _run_skill s2 skill.
Proof. intros Hs. unfold _run_skill. by rewrite Hs. Qed.

Lemma run_one_spec skill self self' :
  polite rest ->
  run_one (rest := Chain.chain rest) skill self = Returned (tt, self') ->
  executor_script self' = executor_script self
  /\ raw_results self' = dict_set skill (_run_skill self skill) (raw_results self)
  /\ (status_rank (report_status self) <= status_rank (report_status self'))%nat
  /\ exists block, report self' = report self ++ block ++ [separator].
Proof.
  intros Hrest. unfold run_one, call_run_skill, store_raw, mbind, M_bind.
  match goal with |- context [_analyze_and_report ?r ?s] =>
    destruct (_analyze_and_report r s) as [[[] self1]|] eqn:Hrun; [|done];
    apply (keeps_analyze _ Hrest) in Hrun as (Hs & Hr & Hk & block & _ & Hl)
  end.
  simpl in *. intros [= <-]. simpl.
  repeat match goal with |- _ /\ _ => split end; try done.
  exists block. by rewrite Hl, app_assoc.
Qed.

Lemma run_list_spec skills : forall self self',
  polite rest ->
  run_list (rest := Chain.chain rest) skills self = Returned (tt, self') ->
  executor_script self' = executor_script self
  /\ raw_results self'
     = fold_left (fun d skill => dict_set skill (_run_skill self skill) d)
         skills (raw_results self)
  /\ (status_rank (report_status self) <= status_rank (report_status self'))%nat
  /\ exists blocks,
       length blocks = length skills
       /\ report self'
          = report self ++ concat (map (fun block => block ++ [separator]) blocks).
Proof.
  induction skills as [|skill skills IH]; intros self self' Hrest; simpl.
  - intros [= <-]. repeat match goal with |- _ /\ _ => split end; try done.
    exists []. by rewrite app_nil_r.
  - unfold mbind, M_bind.
    destruct (run_one skill self) as [[[] self1]|] eqn:Hone; [|done].
    apply (run_one_spec _ _ _ Hrest) in Hone as (Hs1 & Hr1 & Hk1 & block & Hl1).
    intros Hrun. apply (IH _ _ Hrest) in Hrun as (Hs & Hr & Hk & blocks & Hn & Hl).
    repeat match goal with |- _ /\ _ => split end.
    + congruence.
    + rewrite Hr, Hr1. apply fold_dict_set_ext. intros k.
      by apply run_skill_script.
    + lia.
    + exists (block :: blocks). split; [simpl; lia|].
      rewrite Hl, Hl1. simpl. by rewrite <- !app_assoc.
Qed.

(** The block of one check is what the analysis of its result appends. *)
Lemma run_one_block skill self self' :
  polite rest ->
  run_one (rest := Chain.chain rest) skill self = Returned (tt, self') ->
  exists before after block,
    executor_script before = executor_script self
    /\ report before = report self
    /\ Chain.analyze (rest := rest) (_run_skill self skill) before = Returned (tt, after)
    /\ report after = report before ++ block
    /\ report self' = report self ++ block ++ [separator].
Proof.
  intros Hrest. unfold run_one, call_run_skill, store_raw, mbind, M_bind.
  match goal with |- context [_analyze_and_report ?r ?s] =>
    destruct (_analyze_and_report r s) as [[[] self1]|] eqn:Hrun; [|done];
    pose proof Hrun as Hkeep;
    apply (keeps_analyze _ Hrest) in Hkeep as (Hs & Hr & Hk & block & _ & Hl);
    intros [= <-]; exists s, self1, block
  end.
  simpl in *.
  repeat match goal with |- _ /\ _ => split end; try done.
  by rewrite Hl, app_assoc.
Qed.

Lemma run_list_blocks skills : forall self self',
  polite rest ->
  run_list (rest := Chain.chain rest) skills self = Returned (tt, self') ->
  exists blocks,
    length blocks = length skills
    /\ report self'
       = report self ++ concat (map (fun block => block ++ [separator]) blocks)
    /\ forall (i : nat) skill block,
         skills !! i = Some skill -> blocks !! i = Some block ->
         exists before after,
           executor_script before = executor_script self
           /\ report before
              = report self
                ++ concat (map (fun block => block ++ [separator]) (take i blocks))
           /\ Chain.analyze (rest := rest) (_run_skill self skill) before
              = Returned (tt, after)
           /\ report after = report before ++ block.
Proof.
  induction skills as [|skill skills IH]; intros self self' Hrest; simpl.
  - intros [= <-]. exists []. split; [done|]. split; [by rewrite app_nil_r|].
    intros i k b Hk. by rewrite lookup_nil in Hk.
  - unfold mbind, M_bind.
    destruct (run_one skill self) as [[[] self1]|] eqn:Hone; [|done].
    pose proof (run_one_spec _ _ _ Hrest Hone) as (Hs1 & _).
    apply (run_one_block _ _ _ Hrest) in Hone
      as (before & after & block & Hsb & Hrb & Hrun0 & Hra & Hl1).
    intros Hrun. apply (IH _ _ Hrest) in Hrun as (blocks & Hn & Hl & Hall).
    exists (block :: blocks). split; [simpl; lia|]. split.
    + rewrite Hl, Hl1. simpl. by rewrite <- !app_assoc.
    + intros [|i] k b Hk Hb; simpl in Hk, Hb.
      * injection Hk as <-. injection Hb as <-.
        exists before, after. simpl. rewrite app_nil_r. by repeat split.
      * destruct (Hall i k b Hk Hb) as (before' & after' & Hs' & Hr' & Hrun' & Ha').
        exists before', after'. split; [congruence|]. split.
        { rewrite Hr', Hl1. simpl. by rewrite <- !app_assoc. }
        split; [|done].
        by rewrite (run_skill_script self self1) by done.
Qed.

End RunOverChecklist.

Section WholeChecklist.
Import Postgres Frame.
Context {lib : PyLib} {ops : Others.PyOps} {world : World}.

(** X3.  One block for each check, in the order of the list.  When the loop
    of [run_checks] returns, the report has grown by one block of lines for
    each skill, each closed by the separator line.  The block at the place
    of a skill is what the analysis of the result of that skill appended to
    the report as it stood after the blocks before it.  The overall status
    has not gone down. *)
Theorem one_block_per_check skills self self' :
  run_list (rest := Whole.whole_chain) skills self = Returned (tt, self') ->
  (status_rank (report_status self) <= status_rank (report_status self'))%nat
  /\ exists blocks,
       length blocks = length skills
       /\ report self'
          = report self ++ concat (map (fun block => block ++ [separator]) blocks)
       /\ forall (i : nat) skill block,
            skills !! i = Some skill -> blocks !! i = Some block ->
            exists before after,
              executor_script before = executor_script self
              /\ report before
                 = report self
                   ++ concat (map (fun block => block ++ [separator]) (take i blocks))
              /\ Whole._analyze_and_report (_run_skill self skill) before
                 = Returned (tt, after)
              /\ report after = report before ++ block.
Proof.
  unfold Whole.whole_chain. intros Hrun.
  pose proof (run_list_spec (rest := Others.rest_of_chain) skills _ _
                polite_rest_of_chain Hrun) as (_ & _ & Hrank & _).
  split; [exact Hrank|].
  exact (run_list_blocks (rest := Others.rest_of_chain) skills _ _
           polite_rest_of_chain Hrun).
Qed.

Lemma checklist_NoDup : NoDup checklist.
Proof. apply (bool_decide_unpack _). by vm_compute. Qed.

(** X4.  The raw results of a completed run are the results of [_run_skill],
    one entry for each skill of the checklist and in its order. *)
Theorem run_checks_raw_results path files self' :
  Whole.run_checks (__init__ path) = Returned (files, self') ->
  raw_results self'
  = map (fun skill => (skill, _run_skill (__init__ path) skill)) checklist.
Proof.
  unfold Whole.run_checks, Whole.whole_chain, run_checks, mbind, M_bind.
  destruct (run_list checklist (__init__ path)) as [[[] self1]|] eqn:Hlist; [|done].
  pose proof (run_list_spec (rest := Others.rest_of_chain) checklist _ _
                polite_rest_of_chain Hlist) as (_ & Hr & _).
  unfold generate_report. intros [= _ <-]. simpl. rewrite Hr.
  rewrite fold_dict_set_fresh; [done | apply checklist_NoDup |].
  intros k _. simpl. apply not_elem_of_nil.
Qed.

Lemma pop_separators_spec lines n : forall fuel,
  last lines <> Some separator -> (n <= fuel)%nat ->
  pop_separators fuel (lines ++ replicate n separator) = lines.
Proof.
  induction n as [|n IH]; intros fuel Hlast Hn.
  - simpl. rewrite app_nil_r. destruct fuel as [|fuel]; simpl; [done|].
    destruct (last lines) as [line|] eqn:Hl; [|done].
    destruct (String.eqb_spec line separator) as [->|]; [done|done].
  - destruct fuel as [|fuel]; [lia|].
    rewrite replicate_S_end, app_assoc. simpl.
    rewrite last_snoc, String.eqb_refl, removelast_last.
    apply IH; [done | lia].
Qed.

(** X5.  The separators at the end of the report are dropped before it is
    written, all of them and nothing else: what the report holds before them
    is what the agent keeps and what the file has under the title and the
    status line. *)
Theorem report_ends_without_separator self lines n :
  last lines <> Some separator ->
  report self = lines ++ replicate n separator ->
  exists files self',
    generate_report self = Returned (files, self')
    /\ report self' = lines
    /\ report_status self' = report_status self
    /\ raw_results self' = raw_results self
    /\ daily_health_report files
       = join_lines (("# PostgreSQL Health Report - " +:+ now)
                     :: ("## Overall Status: " +:+ report_status self) :: lines).
Proof.
  intros Hlast Hreport. unfold generate_report. do 2 eexists.
  split; [reflexivity|]. simpl.
  rewrite Hreport, pop_separators_spec; [done | done |].
  rewrite length_app, length_replicate. lia.
Qed.

End WholeChecklist.

Lemma one_block_per_check_witness :
  exists self',
    Postgres.run_list (lib := Demo.lib []) (world := Demo.world_of_timeouts)
      (rest := Whole.whole_chain (lib := Demo.lib []) (ops := Examples.plain_ops))
      ["get_blocking_locks"; "get_table_bloat"]
      (Postgres.__init__ "run_postgres_check.sh") = Returned (tt, self')
    /\ exists blocks,
         length blocks = 2%nat
         /\ Postgres.report self'
            = concat (map (fun block => block ++ [Postgres.separator]) blocks)
         /\ exists before after block,
              blocks !! 1%nat = Some block
              /\ Postgres.report before
                 = concat (map (fun block => block ++ [Postgres.separator])
                             (take 1 blocks))
              /\ Whole._analyze_and_report (lib := Demo.lib [])
                   (ops := Examples.plain_ops)
                   (Postgres._run_skill (lib := Demo.lib [])
                      (world := Demo.world_of_timeouts)
                      (Postgres.__init__ "run_postgres_check.sh") "get_table_bloat")
                   before
                 = Returned (tt, after)
              /\ Postgres.report after = Postgres.report before ++ block.
Proof.
  eassert (Hrun : Postgres.run_list (lib := Demo.lib [])
                    (world := Demo.world_of_timeouts)
                    (rest := Whole.whole_chain (lib := Demo.lib [])
                               (ops := Examples.plain_ops))
                    ["get_blocking_locks"; "get_table_bloat"]
                    (Postgres.__init__ "run_postgres_check.sh") = Returned (tt, _))
    by (vm_compute; reflexivity).
  eexists. split; [exact Hrun|].
  destruct (one_block_per_check _ _ _ Hrun) as (_ & blocks & Hlen & Hrep & Hall).
  exists blocks. split; [exact Hlen|]. split; [exact Hrep|].
  destruct blocks as [|b0 [|b1 [|]]]; try discriminate.
  destruct (Hall 1%nat "get_table_bloat" b1 eq_refl eq_refl)
    as (before & after & _ & Hb & Ha & Hr).
  exists before, after, b1. by repeat split.
Defined.

Lemma run_checks_raw_results_witness :
  exists files self',
    Whole.run_checks (lib := Demo.lib []) (ops := Examples.plain_ops)
      (world := Demo.world_of_silence)
      (Postgres.__init__ "run_postgres_check.sh") = Returned (files, self')
    /\ Postgres.raw_results self'
       = map (fun skill =>
                (skill, Postgres._run_skill (lib := Demo.lib [])
                          (world := Demo.world_of_silence)
                          (Postgres.__init__ "run_postgres_check.sh") skill))
           Postgres.checklist.
Proof.
  eassert (Hrun : Whole.run_checks (lib := Demo.lib []) (ops := Examples.plain_ops)
                    (world := Demo.world_of_silence)
                    (Postgres.__init__ "run_postgres_check.sh") = Returned (_, _))
    by (vm_compute; reflexivity).
  do 2 eexists. split; [exact Hrun|].
  exact (run_checks_raw_results _ _ _ Hrun).
Defined.

Lemma report_ends_without_separator_witness :
  exists files self',
    Postgres.generate_report (lib := Demo.lib [])
      (Postgres.with_report
         ["### OK"; Postgres.separator; Postgres.separator]
         (Postgres.__init__ "run_postgres_check.sh")) = Returned (files, self')
    /\ Postgres.report self' = ["### OK"].
Proof.
  assert (Hlast : last ["### OK"] <> Some Postgres.separator)
    by (vm_compute; discriminate).
  destruct (report_ends_without_separator (lib := Demo.lib [])
              (Postgres.with_report
                 ["### OK"; Postgres.separator; Postgres.separator]
                 (Postgres.__init__ "run_postgres_check.sh"))
              ["### OK"] 2 Hlast eq_refl) as (files & self' & Hrun & Hreport & _).
  exists files, self'. split; [exact Hrun | exact Hreport].
Defined.

(** ** Sizes for the reader *)

Section HumanReadable.
Import Postgres.
Context {lib : PyLib}.

Local Notation "'shrink'" := (fun x : Q => Qdiv x 1024).

(** [num_bytes] after [k] rounds of [num_bytes /= 1024.0]. *)
Lemma scale_by_1024 (k : nat) (q : Q) :
  (Nat.iter k shrink q == q / 1024 ^ Z.of_nat k)%Q.
Proof.
  induction k as [|k IH].
  - simpl. field.
  - rewrite Nat.iter_succ, IH, Nat2Z.inj_succ.
    unfold Z.succ. rewrite Qpower_plus by discriminate. field.
    apply Qpower_not_0. discriminate.
Qed.

Lemma iter_shift (k : nat) (q : Q) :
  Nat.iter k shrink (q / 1024)%Q = Nat.iter (S k) shrink q.
Proof. exact (eq_sym (Nat.iter_succ_r k shrink q)). Qed.

Lemma human_readable_loop units : forall k q,
  (forall j, (j < k)%nat ->
     (1024 <= Qabs (Nat.iter j shrink q))%Q) ->
  ((k < length units)%nat -> (Qabs (Nat.iter k shrink q) < 1024)%Q) ->
  (k <= length units)%nat ->
  _bytes_to_human_readable_loop units q
  = format_fixed 2 (Nat.iter k shrink q) +:+ " "
    +:+ nth k units "PB".
Proof.
  induction units as [|unit units IH]; intros k q Hbelow Hk Hlen.
  - simpl in Hlen. assert (k = 0%nat) as -> by lia. reflexivity.
  - simpl. destruct k as [|k].
    + apply Qltb_lt in Hk; [|simpl; lia]. simpl in Hk. by rewrite Hk.
    + assert (H0 : Qltb (Qabs q) 1024 = false)
        by (apply Qltb_ge, (Hbelow 0%nat); lia).
      rewrite H0.
      rewrite (IH k (q / 1024)%Q).
      * by rewrite iter_shift.
      * intros j Hj. rewrite iter_shift. apply Hbelow. lia.
      * intros Hk'. rewrite iter_shift. apply Hk. simpl. lia.
      * simpl in Hlen. lia.
Qed.

Lemma Qabs_scaled (k : nat) (q : Q) :
  (Qabs (Nat.iter k shrink q) == Qabs q / 1024 ^ Z.of_nat k)%Q.
Proof.
  rewrite scale_by_1024. unfold Qdiv. rewrite Qabs_Qmult.
  apply Qmult_comp; [reflexivity|].
  apply Qabs_pos. apply Qinv_le_0_compat, Qpower_pos. discriminate.
Qed.

Lemma power_1024_pos (k : Z) : (0 < 1024 ^ k)%Q.
Proof. apply Qpower_0_lt. reflexivity. Qed.

(** X6.  [_bytes_to_human_readable] picks the unit by magnitude: a value of
    magnitude in [1024^k, 1024^(k+1)) is written with the [k]-th unit after
    [k] divisions by 1024, two digits after the point; below 1024 (zero and
    fractions too) the unit is bytes, from 1024^5 on it is PB however large
    the value; [None] gives N/A. *)
Theorem bytes_unit_by_magnitude (v : pyval) (q : Q) (k : nat) :
  v <> PNone -> float v = Returned q ->
  (k <= 5)%nat ->
  (k = 0%nat \/ 1024 ^ Z.of_nat k <= Qabs q)%Q ->
  (k = 5%nat \/ Qabs q < 1024 ^ (Z.of_nat k + 1))%Q ->
  _bytes_to_human_readable PNone = Returned "N/A"
  /\ exists scaled,
       (scaled == q / 1024 ^ Z.of_nat k)%Q
       /\ _bytes_to_human_readable v
          = Returned (format_fixed 2 scaled +:+ " "
                      +:+ nth k ["bytes"; "KB"; "MB"; "GB"; "TB"; "PB"] "").
Proof.
  intros Hv Hq Hk Hlow Hhigh. split; [reflexivity|].
  exists (Nat.iter k shrink q). split; [apply scale_by_1024|].
  assert (Hrun : _bytes_to_human_readable v
                 = Returned (_bytes_to_human_readable_loop
                               ["bytes"; "KB"; "MB"; "GB"; "TB"] q)).
  { unfold _bytes_to_human_readable. destruct v; try done; by rewrite Hq. }
  rewrite Hrun. f_equal.
  rewrite (human_readable_loop _ k).
  - do 2 f_equal. do 6 (destruct k as [|k]; [reflexivity|]). simpl in Hk. lia.
  - intros j Hj. rewrite Qabs_scaled.
    apply Qle_shift_div_l; [apply power_1024_pos|].
    destruct Hlow as [->|Hlow]; [lia|].
    eapply Qle_trans; [|exact Hlow].
    assert (E : (1024 * 1024 ^ Z.of_nat j == 1024 ^ (Z.of_nat j + 1))%Q)
      by (rewrite Qpower_plus, Qpower_1_r by discriminate; ring).
    rewrite E. apply Qpower_le_compat_l; [lia | discriminate].
  - simpl. intros Hk5. rewrite Qabs_scaled.
    apply Qlt_shift_div_r; [apply power_1024_pos|].
    destruct Hhigh as [->|Hhigh]; [lia|].
    assert (E : (1024 * 1024 ^ Z.of_nat k == 1024 ^ (Z.of_nat k + 1))%Q)
      by (rewrite Qpower_plus, Qpower_1_r by discriminate; ring).
    by rewrite E.
  - simpl. lia.
Qed.

End HumanReadable.

Lemma bytes_unit_by_magnitude_witness :
  exists scaled,
    (scaled == inject_Z 5242880 / 1024 ^ 2)%Q
    /\ Postgres._bytes_to_human_readable (lib := Demo.lib []) (PInt 5242880)
       = Returned (format_fixed (PyLib := Demo.lib []) 2 scaled +:+ " MB").
Proof.
  apply (bytes_unit_by_magnitude (lib := Demo.lib [])
           (PInt 5242880) (inject_Z 5242880) 2).
  - discriminate.
  - reflexivity.
  - lia.
  - right. vm_compute. discriminate.
  - right. vm_compute. reflexivity.
Defined.

(** ** Checks without rows *)

Section EmptyResults.
Import Postgres.
Context {lib : PyLib} {world : World} {rest : RestOfChain}.

Lemma quiet_without_rows d skill data notes self :
  dict_lookup "skill" d = Some (PStr skill) ->
  dict_lookup "status" d = Some (PStr "success") ->
  from_option id (PList []) (dict_lookup "data" d) = data ->
  truthy data = false ->
  dict_lookup "notes" d = None /\ notes = "" \/ dict_lookup "notes" d = Some (PStr notes) ->
  skill ∈ Quiet.checks ->
  exists lines,
    Chain.analyze (PDict d) self
    = Returned (tt, with_report (report self ++ lines) self)
    /\ (1 <= length lines <= 2)%nat.
Proof.
  intros Hskill Hstatus Hdata Hempty Hnotes Hin.
  assert (Hnote : get (PDict d) "notes" PNone = Returned PNone
                  \/ get (PDict d) "notes" PNone = Returned (PStr notes)).
  { rewrite !get_dict. destruct Hnotes as [[-> _] | ->]; by auto. }
  assert (Hnotes' : get (PDict d) "notes" (PStr "") = Returned (PStr notes)).
  { rewrite !get_dict. by destruct Hnotes as [[-> ->] | ->]. }
  unfold Chain.analyze, _analyze_and_report.
  rewrite Hnotes', !get_dict, Hskill, Hstatus, Hdata. cbn [from_option id].
  unfold Quiet.checks in Hin.
  repeat (apply elem_of_cons in Hin as [->|Hin]);
    [..| destruct (proj1 (elem_of_nil _) Hin)].
  all: rewrite !bind_lift_returned; cbn [eq_str negb String.eqb Ascii.eqb Bool.eqb orb].
  all: cbn [remaining_branches Chain.chain]; unfold Chain.more_branches;
       cbn [eq_str negb String.eqb Ascii.eqb Bool.eqb orb].
  all: unfold branch_get_blocking_locks, branch_bloat, branch_get_connection_usage,
         branch_get_replication_slots, branch_get_replication_status,
         Chain.branch_get_top_objects_by_size, Chain.branch_get_table_hotspots,
         Chain.branch_get_wal_archiver_status, Chain.branch_get_large_unused_indexes,
         Chain.branch_get_long_running_queries,
         Chain.branch_get_idle_in_transaction_sessions,
         Chain.branch_get_cache_hit_rate, Chain.branch_get_invalid_indexes,
         Chain.branch_get_rollback_rate, Chain.branch_get_autovacuum_status,
         Chain.branch_get_database_sizes, Chain.branch_get_critical_settings,
         Chain.branch_get_sequence_exhaustion, Chain.branch_get_wait_events,
         Chain.branch_get_bgwriter_stats, Chain.branch_get_deadlock_detection.
  all: rewrite ?Hempty; cbn [negb andb].
  all: try (destruct Hnote as [Hnote|Hnote]; rewrite <- get_dict, Hnote;
            destruct (contains "does not exist" notes) eqn:Hcontains;
            destruct (eq_str (PStr notes) "view or table does not exist") eqn:Hview).
  all: unfold mbind, M_bind, mret, M_ret, append, lift, with_report, contains_str;
       cbn; rewrite ?Hcontains, ?Hview; cbn; rewrite <- ?app_assoc.
  all: try (eexists; split; [reflexivity | simpl; lia]).
  all: repeat case_match; cbn; rewrite <- ?app_assoc;
       eexists; (split; [reflexivity | simpl; lia]).
Qed.

End EmptyResults.

Section QuietChecklist.
Import Postgres.
Context {lib : PyLib} {ops : Others.PyOps} {world : World}.

Lemma quiet_last_branches d skill notes self :
  dict_lookup "skill" d = Some (PStr skill) ->
  dict_lookup "status" d = Some (PStr "success") ->
  from_option id (PList []) (dict_lookup "data" d) = PList [] ->
  dict_lookup "notes" d = None /\ notes = "" \/ dict_lookup "notes" d = Some (PStr notes) ->
  skill ∈ [ "get_top_sql_by_time"; "get_xid_wraparound_risk"; "get_freeze_prediction";
            "get_stale_statistics"; "get_io_statistics"; "get_io_statistics_v2";
            "get_analyze_progress"; "get_create_index_progress";
            "get_cluster_progress"; "get_wal_statistics"; "get_checkpointer_stats";
            "get_slru_stats"; "get_database_conflict_stats";
            "get_user_function_stats"; "get_lock_waiters";
            "get_multixid_wraparound_risk"; "get_connection_security_status";
            "get_total_temp_bytes"; "get_checkpointer_write_sync_time";
            "get_logical_replication_status";
            "get_long_running_prepared_transactions";
            "get_long_running_transactions"; "get_temp_file_usage" ] ->
  exists lines,
    Whole._analyze_and_report (PDict d) self
    = Returned (tt, with_report (report self ++ lines) self)
    /\ (1 <= length lines <= 2)%nat.
Proof.
  intros Hskill Hstatus Hdata Hnotes Hin.
  assert (Hnotes' : get (PDict d) "notes" (PStr "") = Returned (PStr notes)).
  { rewrite !get_dict. by destruct Hnotes as [[-> ->] | ->]. }
  unfold Whole._analyze_and_report, Whole.whole_chain, _analyze_and_report.
  rewrite Hnotes', !get_dict, Hskill, Hstatus, Hdata. cbn [from_option id].
  repeat (apply elem_of_cons in Hin as [->|Hin]);
    [..| destruct (proj1 (elem_of_nil _) Hin)].
  all: rewrite !bind_lift_returned; cbn [eq_str negb String.eqb Ascii.eqb Bool.eqb orb].
  all: cbn [remaining_branches Chain.chain]; unfold Chain.more_branches;
       cbn [eq_str negb String.eqb Ascii.eqb Bool.eqb orb].
  all: cbn [remaining_branches Others.rest_of_chain]; unfold Others.last_branches;
       cbn [eq_str negb String.eqb Ascii.eqb Bool.eqb orb].
  all: unfold Others.branch_get_top_sql_by_time, Others.branch_get_xid_wraparound_risk,
         Others.branch_get_freeze_prediction, Others.branch_get_stale_statistics,
         Others.branch_get_io_statistics, Others.branch_get_io_statistics_v2,
         Others.branch_get_analyze_progress, Others.branch_get_create_index_progress,
         Others.branch_get_cluster_progress, Others.branch_get_wal_statistics,
         Others.branch_get_checkpointer_stats, Others.branch_get_slru_stats,
         Others.branch_get_database_conflict_stats,
         Others.branch_get_user_function_stats, Others.branch_get_lock_waiters,
         Others.branch_get_multixid_wraparound_risk,
         Others.branch_get_connection_security_status,
         Others.branch_get_total_temp_bytes,
         Others.branch_get_checkpointer_write_sync_time,
         Others.branch_get_logical_replication_status,
         Others.branch_get_long_running_prepared_transactions,
         Others.branch_get_long_running_transactions,
         Others.branch_get_temp_file_usage.
  all: cbn [truthy negb andb].
  all: try destruct (contains "does not exist" notes) eqn:Hcontains.
  all: unfold mbind, M_bind, mret, M_ret, append, lift, with_report, contains_str;
       cbn; rewrite ?Hcontains; cbn; rewrite <- ?app_assoc.
  all: eexists; (split; [reflexivity | simpl; lia]).
Qed.

Lemma checklist_covered skill :
  skill ∈ checklist ->
  skill ∈ Quiet.checks
  \/ skill ∈ [ "get_top_sql_by_time"; "get_xid_wraparound_risk"; "get_freeze_prediction";
               "get_stale_statistics"; "get_io_statistics"; "get_io_statistics_v2";
               "get_analyze_progress"; "get_create_index_progress";
               "get_cluster_progress"; "get_wal_statistics"; "get_checkpointer_stats";
               "get_slru_stats"; "get_database_conflict_stats";
               "get_user_function_stats"; "get_lock_waiters";
               "get_multixid_wraparound_risk"; "get_connection_security_status";
               "get_total_temp_bytes"; "get_checkpointer_write_sync_time";
               "get_logical_replication_status";
               "get_long_running_prepared_transactions";
               "get_long_running_transactions"; "get_temp_file_usage" ].
Proof.
  intros Hin. unfold checklist in Hin.
  repeat (apply elem_of_cons in Hin as [->|Hin]);
    [..| destruct (proj1 (elem_of_nil _) Hin)];
    first [ left; apply (bool_decide_unpack _); by vm_compute
          | right; apply (bool_decide_unpack _); by vm_compute ].
Qed.

Lemma quiet_checklist d skill notes self :
  dict_lookup "skill" d = Some (PStr skill) ->
  dict_lookup "status" d = Some (PStr "success") ->
  from_option id (PList []) (dict_lookup "data" d) = PList [] ->
  dict_lookup "notes" d = None /\ notes = "" \/ dict_lookup "notes" d = Some (PStr notes) ->
  skill ∈ checklist ->
  exists lines,
    Whole._analyze_and_report (PDict d) self
    = Returned (tt, with_report (report self ++ lines) self)
    /\ (1 <= length lines <= 2)%nat.
Proof.
  intros Hskill Hstatus Hdata Hnotes [Hin|Hin]%checklist_covered.
  - change (Whole._analyze_and_report (PDict d) self)
      with (Chain.analyze (rest := Others.rest_of_chain) (PDict d) self).
    exact (quiet_without_rows d skill (PList []) notes self
             Hskill Hstatus Hdata eq_refl Hnotes Hin).
  - exact (quiet_last_branches d skill notes self Hskill Hstatus Hdata Hnotes Hin).
Qed.

(** What [_run_skill] returns when the script printed nothing, or failed on
    something that does not exist. *)
Lemma run_skill_without_rows self skill returncode stdout stderr :
  subprocess_run [executor_script self; skill]
  = CompletedProcess returncode stdout stderr ->
  returncode = 0 /\ strip stdout = ""
  \/ returncode <> 0 /\ contains "does not exist" stderr = true ->
  exists d notes,
    _run_skill self skill = PDict d
    /\ dict_lookup "skill" d = Some (PStr skill)
    /\ dict_lookup "status" d = Some (PStr "success")
    /\ from_option id (PList []) (dict_lookup "data" d) = PList []
    /\ (dict_lookup "notes" d = None /\ notes = ""
        \/ dict_lookup "notes" d = Some (PStr notes)).
Proof.
  intros Hrun Hcase. unfold _run_skill. rewrite Hrun.
  destruct Hcase as [[-> Hblank]|[Hcode Herr]].
  - cbn [Z.eqb negb]. rewrite Hblank. cbn [String.eqb].
    eexists _, "". split; [reflexivity|]. repeat split; by auto.
  - apply Z.eqb_neq in Hcode. rewrite Hcode, Herr. cbn [negb].
    eexists _, _. split; [reflexivity|]. repeat split. right. reflexivity.
Qed.

(** X7.  A check without rows is never a finding.  For each of the 45 checks
    of the checklist, a result with status success, no rows and notes that
    are a string (or absent), the analysis returns, adds one or two lines to
    the report and changes nothing else: the overall status stays as it is. *)
Theorem empty_result_is_quiet result skill notes self :
  get result "skill" (PStr "unknown_skill") = Returned (PStr skill) ->
  get result "status" (PStr "fail") = Returned (PStr "success") ->
  get result "data" (PList []) = Returned (PList []) ->
  get result "notes" (PStr "") = Returned (PStr notes) ->
  skill ∈ checklist ->
  exists lines,
    Whole._analyze_and_report result self
    = Returned (tt, with_report (report self ++ lines) self)
    /\ (1 <= length lines <= 2)%nat.
Proof.
  intros Hskill Hstatus Hdata Hnotes Hin.
  destruct result as [| | | | | |d]; try discriminate.
  revert Hskill Hstatus Hdata Hnotes. rewrite !get_dict.
  intros Hskill%Returned_inj Hstatus%Returned_inj Hdata%Returned_inj
    Hnotes%Returned_inj.
  apply (quiet_checklist d skill notes); try done.
  - destruct (dict_lookup "skill" d); [by simpl in Hskill; subst|].
    simpl in Hskill. injection Hskill as <-. exfalso. revert Hin.
    apply (bool_decide_unpack _). by vm_compute.
  - destruct (dict_lookup "status" d); [by simpl in Hstatus; subst|done].
  - destruct (dict_lookup "notes" d); simpl in Hnotes; [right; by subst|].
    left. by injection Hnotes as <-.
Qed.

(** X8.  A failure whose message says that something does not exist reads
    as a healthy check.  When the script of a check of the checklist exits
    with an error and its stderr contains [does not exist] (a missing view,
    but a missing column, function or database as well), [_run_skill]
    returns a success without rows, and the analysis writes the block of an
    empty result: one or two lines, the overall status as it was. *)
Theorem error_that_does_not_exist_reads_as_healthy self skill returncode stdout stderr :
  skill ∈ checklist ->
  subprocess_run [executor_script self; skill] = CompletedProcess returncode stdout stderr ->
  returncode <> 0 ->
  contains "does not exist" stderr = true ->
  exists lines,
    Whole._analyze_and_report (_run_skill self skill) self
    = Returned (tt, with_report (report self ++ lines) self)
    /\ (1 <= length lines <= 2)%nat.
Proof.
  intros Hin Hrun Hcode Herr.
  destruct (run_skill_without_rows self skill _ _ _ Hrun)
    as (d & notes & -> & Hskill & Hstatus & Hdata & Hnotes); [by right|].
  by apply (quiet_checklist d skill notes).
Qed.

Lemma quiet_run_list script skills : forall self,
  executor_script self = script ->
  (forall skill, skill ∈ skills ->
     skill ∈ checklist
     /\ exists returncode stdout stderr,
          subprocess_run [script; skill] = CompletedProcess returncode stdout stderr
          /\ (returncode = 0 /\ strip stdout = ""
              \/ returncode <> 0 /\ contains "does not exist" stderr = true)) ->
  exists self',
    run_list (rest := Whole.whole_chain) skills self = Returned (tt, self')
    /\ report_status self' = report_status self.
Proof.
  induction skills as [|skill skills IH]; intros self Hscript Hall.
  - by exists self.
  - destruct (Hall skill) as (Hin & returncode & stdout & stderr & Hrun & Hcase);
      [left|].
    rewrite <- Hscript in Hrun.
    destruct (run_skill_without_rows self skill _ _ _ Hrun Hcase)
      as (d & notes & Hd & Hskill & Hstatus & Hdata & Hnotes).
    cbn [run_list]. unfold mbind at 1, M_bind at 1.
    unfold run_one, call_run_skill, store_raw. unfold mbind at 1 2, M_bind at 1 2.
    rewrite Hd.
    match goal with |- context [(_analyze_and_report (PDict d) ≫= _) ?s] =>
      destruct (quiet_checklist d skill notes s Hskill Hstatus Hdata Hnotes Hin)
        as (lines & Hquiet & _)
    end.
    unfold Whole._analyze_and_report in Hquiet.
    unfold mbind at 1, M_bind at 1. rewrite Hquiet. unfold append at 1.
    match goal with |- context [run_list skills ?s] =>
      destruct (IH s) as (self' & Hrest & Hsame)
    end.
    + exact Hscript.
    + intros k Hk. apply Hall. by right.
    + exists self'. split; [exact Hrest | exact Hsame].
Qed.

(** X9.  Scripts that say nothing read as a healthy database.  If every
    script of the checklist prints nothing and exits with 0, or fails on
    something that does not exist, the run completes and the overall status
    it reports is OK. *)
Theorem silent_scripts_read_as_healthy script :
  (forall skill, skill ∈ checklist ->
     exists returncode stdout stderr,
       subprocess_run [script; skill] = CompletedProcess returncode stdout stderr
       /\ (returncode = 0 /\ strip stdout = ""
           \/ returncode <> 0 /\ contains "does not exist" stderr = true)) ->
  exists files self',
    Whole.run_checks (__init__ script) = Returned (files, self')
    /\ report_status self' = "✅ OK"
    /\ Whole.main script = 0.
Proof.
  intros Hall.
  destruct (quiet_run_list script checklist (__init__ script) eq_refl)
    as (self1 & Hlist & Hstatus); [by auto|].
  unfold Whole.main, main, Whole.run_checks, run_checks.
  unfold mbind, M_bind. rewrite Hlist. unfold generate_report.
  eexists _, _. split; [reflexivity|]. split; [exact Hstatus | reflexivity].
Qed.

End QuietChecklist.

Lemma empty_result_is_quiet_witness :
  exists lines,
    Whole._analyze_and_report (lib := Demo.lib []) (ops := Examples.plain_ops)
      (Demo.success "get_slru_stats" [])
      (Postgres.__init__ "run_postgres_check.sh")
    = Returned (tt, Postgres.with_report ([] ++ lines)
                      (Postgres.__init__ "run_postgres_check.sh"))
    /\ (1 <= length lines <= 2)%nat.
Proof.
  apply (empty_result_is_quiet (lib := Demo.lib []) (ops := Examples.plain_ops)
           (Demo.success "get_slru_stats" []) "get_slru_stats" "").
  - reflexivity.
  - reflexivity.
  - reflexivity.
  - reflexivity.
  - apply (bool_decide_unpack _). by vm_compute.
Defined.

Lemma error_that_does_not_exist_reads_as_healthy_witness :
  exists lines,
    Whole._analyze_and_report (lib := Demo.lib []) (ops := Examples.plain_ops)
      (Postgres._run_skill (lib := Demo.lib []) (world := Examples.world_with_typo)
         (Postgres.__init__ "run_postgres_check.sh") "get_blocking_locks")
      (Postgres.__init__ "run_postgres_check.sh")
    = Returned (tt, Postgres.with_report ([] ++ lines)
                      (Postgres.__init__ "run_postgres_check.sh"))
    /\ (1 <= length lines <= 2)%nat.
Proof.
  apply (error_that_does_not_exist_reads_as_healthy (lib := Demo.lib [])
           (ops := Examples.plain_ops) (world := Examples.world_with_typo)
           (Postgres.__init__ "run_postgres_check.sh") "get_blocking_locks" 1 ""
           ("ERROR:  column " +:+ Demo.quoted "waiting_pid" +:+ " does not exist")).
  - apply (bool_decide_unpack _). by vm_compute.
  - reflexivity.
  - discriminate.
  - reflexivity.
Defined.

Lemma silent_scripts_read_as_healthy_witness :
  exists files self',
    Whole.run_checks (lib := Demo.lib []) (ops := Examples.plain_ops)
      (world := Demo.world_of_silence) (Postgres.__init__ "run_postgres_check.sh")
    = Returned (files, self')
    /\ Postgres.report_status self' = "✅ OK"
    /\ Whole.main (lib := Demo.lib []) (ops := Examples.plain_ops)
         (world := Demo.world_of_silence) "run_postgres_check.sh" = 0.
Proof.
  apply (silent_scripts_read_as_healthy (lib := Demo.lib [])
           (ops := Examples.plain_ops) (world := Demo.world_of_silence)).
  intros skill _. exists 0, "", "". split; [reflexivity|].
  left. split; reflexivity.
Defined.

(** ** The settings block *)

Section CriticalSettings.
Import Postgres.
Context {lib : PyLib} {rest : RestOfChain}.

Lemma critical_setting_ok item :
  Settings.row_ok item = true ->
  exists line, forall b self,
    Chain.critical_setting b item self
    = Returned (b || Settings.fsync_off item,
                with_report_status (Settings.status_after (report_status self) item)
                  (with_report (report self ++ [line]) self)).
Proof.
  unfold Settings.row_ok, Settings.status_after, Settings.fsync_off,
    Settings.commit_relaxed.
  destruct (getitem item "name") as [name|] eqn:En; [|discriminate].
  destruct (getitem item "setting") as [value|] eqn:Ev; [|discriminate].
  intros _.
  destruct (eq_str name "fsync" && negb (eq_str value "on")) eqn:E1;
    [|destruct (eq_str name "synchronous_commit"
                && negb (eq_str value "on" || eq_str value "local")) eqn:E2];
    eexists; intros b self; unfold Chain.critical_setting;
    rewrite En, Ev, !bind_lift_returned, E1, ?E2.
  - rewrite orb_true_r. by destruct self.
  - rewrite orb_false_r. unfold mbind, M_bind, mret, M_ret, _update_status, append.
    cbn. destruct (String.eqb (report_status self) "❌ ERROR") eqn:E3; cbn;
      rewrite ?E3; by destruct self.
  - rewrite orb_false_r. by destruct self.
Qed.

Lemma critical_settings_loop rows :
  forallb Settings.row_ok rows = true ->
  exists lines, length lines = length rows /\ forall b self,
    for_each rows Chain.critical_setting b self
    = Returned (b || existsb Settings.fsync_off rows,
                with_report_status
                  (fold_left Settings.status_after rows (report_status self))
                  (with_report (report self ++ lines) self)).
Proof.
  induction rows as [|item rows IH]; simpl.
  - intros _. exists []. split; [done|]. intros b [e r s w].
    by rewrite orb_false_r; unfold with_report; simpl; rewrite app_nil_r.
  - intros [Hi Hr]%andb_prop. destruct (critical_setting_ok _ Hi) as [line Hline].
    destruct (IH Hr) as (lines & Hlen & Hloop).
    exists (line :: lines). split; [simpl; lia|]. intros b self.
    unfold mbind at 1, M_bind. rewrite Hline, Hloop. simpl.
    by rewrite orb_assoc, <- app_assoc.
Qed.

Lemma settings_after_error rows :
  fold_left Settings.status_after rows "❌ ERROR" = "❌ ERROR".
Proof.
  induction rows as [|r rows IH]; [done|]. simpl.
  unfold Settings.status_after at 2. simpl. rewrite andb_false_r.
  by destruct (Settings.fsync_off r).
Qed.

Lemma settings_after_fsync_off rows : forall current,
  existsb Settings.fsync_off rows = true ->
  fold_left Settings.status_after rows current = "❌ ERROR".
Proof.
  induction rows as [|r rows IH]; [done|]. simpl. intros current.
  unfold Settings.status_after at 2.
  destruct (Settings.fsync_off r); simpl; [intros _; apply settings_after_error | apply IH].
Qed.

(** X10.  The settings block does not finalize its header either.  For
    [get_critical_settings] with status success and rows that have a name and
    a setting, one of them [fsync] with a value other than [on], the analysis
    returns with the overall status at ERROR; the line written as the block's
    header is still the INFO header, and the ERROR header has replaced the
    line after it, the column titles of the table. *)
Theorem settings_header_left_as_info d rows self :
  dict_lookup "skill" d = Some (PStr "get_critical_settings") ->
  dict_lookup "status" d = Some (PStr "success") ->
  dict_lookup "data" d = Some (PList rows) ->
  forallb Settings.row_ok rows = true ->
  existsb Settings.fsync_off rows = true ->
  exists self' lines,
    Chain.analyze (PDict d) self = Returned (tt, self')
    /\ report_status self' = "❌ ERROR"
    /\ length lines = length rows
    /\ report self'
       = report self
         ++ "### 🟡 INFO: Critical Settings Review"
         :: "### ❌ ERROR: Critical Settings Misconfiguration"
         :: "|---|---|---|" :: lines.
Proof.
  intros Hs Hst Hd Hok Hoff.
  destruct (critical_settings_loop rows Hok) as (lines & Hlen & Hloop).
  assert (Hne : truthy (PList rows) = true)
    by (destruct rows; [discriminate|done]).
  eexists _, lines.
  unfold Chain.analyze, _analyze_and_report. rewrite !get_dict, Hs, Hst, Hd.
  rewrite !bind_lift_returned. cbn [remaining_branches Chain.chain from_option id].
  unfold Chain.more_branches.
  cbn [eq_str negb String.eqb Ascii.eqb Bool.eqb orb].
  unfold Chain.branch_get_critical_settings.
  rewrite bind_append, Hne, !bind_append. simpl iter. rewrite bind_lift_returned.
  unfold mbind at 1, M_bind at 1. rewrite Hloop, Hoff. cbn [orb]. cbv iota beta.
  rewrite bind_report_len. simpl len. rewrite bind_lift_returned.
  rewrite <- Hlen.
  erewrite (rewrite_second_line self); [|simpl; reflexivity].
  split; [reflexivity|]. simpl.
  split; [by apply settings_after_fsync_off|]. by split.
Qed.

End CriticalSettings.

Lemma settings_header_left_as_info_witness :
  exists self' lines,
    Chain.analyze (lib := Demo.lib []) (rest := Demo.silent)
      (Demo.success "get_critical_settings"
         [ PDict [("name", PStr "fsync"); ("setting", PStr "off")];
           PDict [("name", PStr "full_page_writes"); ("setting", PStr "on")] ])
      (Postgres.__init__ "run_postgres_check.sh") = Returned (tt, self')
    /\ Postgres.report_status self' = "❌ ERROR"
    /\ length lines = 2%nat
    /\ Postgres.report self'
       = "### 🟡 INFO: Critical Settings Review"
         :: "### ❌ ERROR: Critical Settings Misconfiguration"
         :: "|---|---|---|" :: lines.
Proof.
  apply (settings_header_left_as_info (lib := Demo.lib []) (rest := Demo.silent)
           [ ("skill", PStr "get_critical_settings"); ("status", PStr "success");
             ("data", PList [ PDict [("name", PStr "fsync"); ("setting", PStr "off")];
                              PDict [("name", PStr "full_page_writes");
                                     ("setting", PStr "on")] ]) ]
           [ PDict [("name", PStr "fsync"); ("setting", PStr "off")];
             PDict [("name", PStr "full_page_writes"); ("setting", PStr "on")] ]
           (Postgres.__init__ "run_postgres_check.sh")); reflexivity.
Defined.

(** ** Checks whose rows are findings *)

Section RowsAreFindings.
Import Postgres.
Context {lib : PyLib} {rest : RestOfChain}.

Lemma loop_of_lines (body : unit -> pyval -> M unit) rows :
  Forall (fun item => exists line, forall self,
            body tt item self = Returned (tt, with_report (report self ++ [line]) self))
    rows ->
  exists lines, length lines = length rows /\ forall self,
    for_each rows body tt self = Returned (tt, with_report (report self ++ lines) self).
Proof.
  induction 1 as [|item rows [line Hline] _ (lines & Hlen & Hloop)].
  - exists []. split; [done|]. intros [e r s w]. simpl.
    by unfold with_report; simpl; rewrite app_nil_r.
  - exists (line :: lines). split; [simpl; lia|]. intros self. simpl.
    unfold mbind at 1, M_bind. rewrite Hline, Hloop. simpl.
    by rewrite <- app_assoc.
Qed.

Ltac row_line :=
  let Hk := fresh in
  intros Hk; unfold Findings.row_ok in Hk; simpl in Hk;
  repeat match type of Hk with
         | context [getitem ?item ?key] =>
             let E := fresh in
             destruct (getitem item key) eqn:E; [|discriminate Hk || (simpl in Hk; discriminate Hk)]
         end;
  eexists; intros self;
  autounfold with rows;
  repeat match goal with
         | E : getitem _ _ = Returned _ |- _ => rewrite E; clear E
         end;
  rewrite ?bind_lift_returned; reflexivity.

Create HintDb rows.
#[local] Hint Unfold blocking_lock Chain.invalid_index Chain.long_running_query
  Chain.idle_session Chain.unused_index Chain.sequence_row : rows.

Lemma body_blocking_lock item :
  Findings.row_ok "get_blocking_locks" item = true ->
  exists line, forall self,
    blocking_lock tt item self = Returned (tt, with_report (report self ++ [line]) self).
Proof. row_line. Qed.

Lemma body_invalid_index item :
  Findings.row_ok "get_invalid_indexes" item = true ->
  exists line, forall self,
    Chain.invalid_index tt item self
    = Returned (tt, with_report (report self ++ [line]) self).
Proof. row_line. Qed.

Lemma body_long_running_query item :
  Findings.row_ok "get_long_running_queries" item = true ->
  exists line, forall self,
    Chain.long_running_query tt item self
    = Returned (tt, with_report (report self ++ [line]) self).
Proof. row_line. Qed.

Lemma body_idle_session item :
  Findings.row_ok "get_idle_in_transaction_sessions" item = true ->
  exists line, forall self,
    Chain.idle_session tt item self
    = Returned (tt, with_report (report self ++ [line]) self).
Proof. row_line. Qed.

Lemma body_unused_index item :
  Findings.row_ok "get_large_unused_indexes" item = true ->
  exists line, forall self,
    Chain.unused_index tt item self
    = Returned (tt, with_report (report self ++ [line]) self).
Proof. row_line. Qed.

Lemma body_sequence_row item :
  Findings.row_ok "get_sequence_exhaustion" item = true ->
  exists line, forall self,
    Chain.sequence_row tt item self
    = Returned (tt, with_report (report self ++ [line]) self).
Proof. row_line. Qed.

Lemma loop_of_rows skill (body : unit -> pyval -> M unit) rows :
  (forall item, Findings.row_ok skill item = true ->
     exists line, forall self,
       body tt item self = Returned (tt, with_report (report self ++ [line]) self)) ->
  forallb (Findings.row_ok skill) rows = true ->
  exists lines, length lines = length rows /\ forall self,
    for_each rows body tt self = Returned (tt, with_report (report self ++ lines) self).
Proof.
  intros Hbody Hrows. apply loop_of_lines.
  apply Forall_forall. intros item Hin. apply Hbody.
  rewrite forallb_forall in Hrows. apply Hrows. by apply list_elem_of_In.
Qed.

(** X11.  Six checks of the postgres agent have no threshold: a row is a
    finding.  With status success, at least one row and rows that have the
    keys the loop indexes, the analysis returns; blocking locks and invalid
    indexes put the overall status at ERROR, long-running queries, sessions
    idle in a transaction, large unused indexes and sequences near their end
    at WARNING unless it is ERROR already; the block has one line for each
    row after its opening lines. *)
Theorem rows_are_findings skill d row rows self :
  skill ∈ [ "get_blocking_locks"; "get_invalid_indexes"; "get_long_running_queries";
            "get_idle_in_transaction_sessions"; "get_large_unused_indexes";
            "get_sequence_exhaustion" ] ->
  dict_lookup "skill" d = Some (PStr skill) ->
  dict_lookup "status" d = Some (PStr "success") ->
  dict_lookup "data" d = Some (PList (row :: rows)) ->
  forallb (Findings.row_ok skill) (row :: rows) = true ->
  exists self',
    Chain.analyze (PDict d) self = Returned (tt, self')
    /\ report_status self'
       = (if Findings.is_error skill then "❌ ERROR"
          else if String.eqb (report_status self) "❌ ERROR" then "❌ ERROR"
          else "🟠 WARNING")
    /\ length (report self')
       = (length (report self) + Findings.lines_before_rows skill
          + length (row :: rows))%nat.
Proof.
  intros Hin Hs Hst Hd Hok.
  unfold Chain.analyze, _analyze_and_report. rewrite !get_dict, Hs, Hst, Hd.
  rewrite !bind_lift_returned. cbn [from_option id].
  repeat (apply elem_of_cons in Hin as [->|Hin]);
    [..| destruct (proj1 (elem_of_nil _) Hin)].
  all: cbn [eq_str negb String.eqb Ascii.eqb Bool.eqb orb];
       cbn [remaining_branches Chain.chain]; unfold Chain.more_branches;
       cbn [eq_str negb String.eqb Ascii.eqb Bool.eqb orb].
  all: match goal with
       | |- context [branch_get_blocking_locks] =>
           destruct (loop_of_rows _ _ _ body_blocking_lock Hok) as (lines & Hlen & Hloop);
           unfold branch_get_blocking_locks
       | |- context [Chain.branch_get_invalid_indexes] =>
           destruct (loop_of_rows _ _ _ body_invalid_index Hok) as (lines & Hlen & Hloop);
           unfold Chain.branch_get_invalid_indexes
       | |- context [Chain.branch_get_long_running_queries] =>
           destruct (loop_of_rows _ _ _ body_long_running_query Hok)
             as (lines & Hlen & Hloop);
           unfold Chain.branch_get_long_running_queries
       | |- context [Chain.branch_get_idle_in_transaction_sessions] =>
           destruct (loop_of_rows _ _ _ body_idle_session Hok) as (lines & Hlen & Hloop);
           unfold Chain.branch_get_idle_in_transaction_sessions
       | |- context [Chain.branch_get_large_unused_indexes] =>
           destruct (loop_of_rows _ _ _ body_unused_index Hok) as (lines & Hlen & Hloop);
           unfold Chain.branch_get_large_unused_indexes
       | |- context [Chain.branch_get_sequence_exhaustion] =>
           destruct (loop_of_rows _ _ _ body_sequence_row Hok) as (lines & Hlen & Hloop);
           unfold Chain.branch_get_sequence_exhaustion
       end.
  all: cbn [truthy]; cbv iota; simpl len; simpl iter;
       repeat first [ rewrite bind_append | rewrite bind_lift_returned ];
       unfold mbind at 1, M_bind at 1; rewrite Hloop.
  all: unfold _update_status; cbn [String.eqb Ascii.eqb Bool.eqb andb];
       cbn [report_status with_report].
  all: try (destruct (String.eqb (report_status self) "❌ ERROR") eqn:E).
  all: unfold Findings.is_error, Findings.lines_before_rows;
       cbn [String.eqb Ascii.eqb Bool.eqb orb negb andb].
  all: eexists; (split; [reflexivity|]).
  all: cbn [report_status report with_report with_report_status].
  all: (split; [first [reflexivity | by apply String.eqb_eq in E] |]).
  all: rewrite !length_app, Hlen; simpl; lia.
Qed.

End RowsAreFindings.

Lemma rows_are_findings_witness :
  exists self',
    Chain.analyze (lib := Demo.lib []) (rest := Demo.silent)
      (Demo.success "get_long_running_queries"
         [ PDict [("pid", PInt 4711); ("usename", PStr "app");
                  ("duration", PStr "00:12:30")] ])
      (Postgres.__init__ "run_postgres_check.sh") = Returned (tt, self')
    /\ Postgres.report_status self' = "🟠 WARNING"
    /\ length (Postgres.report self') = 3%nat.
Proof.
  apply (rows_are_findings (lib := Demo.lib []) (rest := Demo.silent)
           "get_long_running_queries"
           [ ("skill", PStr "get_long_running_queries"); ("status", PStr "success");
             ("data", PList [ PDict [("pid", PInt 4711); ("usename", PStr "app");
                                     ("duration", PStr "00:12:30")] ]) ]
           (PDict [("pid", PInt 4711); ("usename", PStr "app");
                   ("duration", PStr "00:12:30")])
           [] (Postgres.__init__ "run_postgres_check.sh")).
  - apply (bool_decide_unpack _). by vm_compute.
  - reflexivity.
  - reflexivity.
  - reflexivity.
  - reflexivity.
Defined.

(** ** The polardb agent: checks, analysis and run *)

Section PolarRun.
Import PolarDB.
Context {lib : PyLib} {world : World}.

Lemma run_group_spec checks : forall self,
  run_group checks self
  = Returned (tt, {| check_script := check_script self;
                     results := fold_left (fun d check => dict_set check (run_check self check) d)
                                  checks (results self);
                     issues := issues self;
                     warnings := warnings self |}).
Proof.
  induction checks as [|check checks IH]; intros self; simpl.
  - by destruct self.
  - unfold mbind, M_bind, call_run_check, set_result. rewrite IH. reflexivity.
Qed.

Lemma all_checks_NoDup : NoDup Checks.all_checks.
Proof. apply (bool_decide_unpack _). by vm_compute. Qed.

Lemma run_all_checks_spec self :
  run_all_checks self
  = Returned (tt, {| check_script := check_script self;
                     results := fold_left
                                  (fun d check => dict_set check (run_check self check) d)
                                  Checks.all_checks (results self);
                     issues := issues self;
                     warnings := warnings self |}).
Proof.
  unfold run_all_checks, mbind, M_bind. rewrite !run_group_spec.
  cbn [check_script results issues warnings].
  unfold Checks.all_checks. rewrite !fold_left_app. reflexivity.
Qed.

Lemma results_of_a_fresh_run script :
  fold_left (fun d check => dict_set check (run_check (__init__ script) check) d)
    Checks.all_checks []
  = map (fun check => (check, run_check (__init__ script) check)) Checks.all_checks.
Proof.
  pose proof (fold_dict_set_fresh (run_check (__init__ script)) _ []
                all_checks_NoDup) as Hres.
  cbn [app] in Hres. apply Hres. intros; apply not_elem_of_nil.
Qed.

(** X12.  [run_all_checks] runs each of its 23 checks once and stores the
    result under the name of the check, in the order of the five groups; it
    records no finding. *)
Theorem every_check_runs_once script :
  run_all_checks (__init__ script)
  = Returned (tt, {| check_script := script;
                     results := map (fun check => (check, run_check (__init__ script) check))
                                  Checks.all_checks;
                     issues := [];
                     warnings := [] |}).
Proof.
  rewrite run_all_checks_spec. cbn [check_script results issues warnings __init__].
  by rewrite results_of_a_fresh_run.
Qed.

End PolarRun.

Section PolarAnalysis.
Import PolarDB Checks.
Context {lib : PyLib}.

Lemma finds_ret critical elevated : finds critical elevated (mret tt).
Proof.
  intros self self' [= <-]. split; [done|]. split; [done|]. exists [], [].
  rewrite !app_nil_r. repeat split; try done; constructor.
Qed.

Lemma finds_lift_bind {A} critical elevated (m : outcome A) (f : A -> M unit) :
  (forall a, finds critical elevated (f a)) -> finds critical elevated (lift m ≫= f).
Proof.
  intros Hf self self'. unfold mbind, M_bind, lift.
  destruct m as [a|]; [apply Hf | done].
Qed.

Lemma finds_pure_bind {A} critical elevated (m : M A) (f : A -> M unit) :
  (forall self a self', m self = Returned (a, self') -> self' = self) ->
  (forall a, finds critical elevated (f a)) -> finds critical elevated (m ≫= f).
Proof.
  intros Hm Hf self self'. unfold mbind, M_bind.
  destruct (m self) as [[a self1]|] eqn:E; [|done].
  apply Hm in E as ->. apply Hf.
Qed.

Lemma finds_issue critical elevated f :
  type f = "critical" -> check f ∈ critical ->
  finds critical elevated (issues_append f).
Proof.
  intros Ht Hc self self' [= <-]. simpl.
  split; [done|]. split; [done|]. exists [f], [].
  rewrite app_nil_r. simpl.
  repeat split; try done; repeat constructor; try done.
  apply not_elem_of_nil.
Qed.

Lemma finds_warning critical elevated f :
  type f = "warning" -> check f ∈ elevated ->
  finds critical elevated (warnings_append f).
Proof.
  intros Ht Hc self self' [= <-]. simpl.
  split; [done|]. split; [done|]. exists [], [f].
  rewrite app_nil_r. simpl.
  repeat split; try done; repeat constructor; try done.
  apply not_elem_of_nil.
Qed.

Lemma finds_block critical elevated name (body : pyval -> M unit) :
  (forall data, finds critical elevated (body data)) ->
  finds critical elevated (when_present name body).
Proof.
  intros Hbody self self'. unfold when_present.
  destruct (dict_lookup name (results self)); [apply Hbody|].
  apply finds_ret.
Qed.

Ltac finds_step :=
  first
    [ apply finds_ret
    | apply finds_issue; [reflexivity | by apply list_elem_of_singleton]
    | apply finds_warning; [reflexivity | by apply list_elem_of_singleton]
    | apply finds_lift_bind; intros ?
    | match goal with
      | |- finds _ _ (match ?x with _ => _ end) => destruct x
      end ].

Ltac finds_in_block := apply finds_block; intros data; repeat finds_step.

Lemma finds_logindex_status :
  finds ["get_logindex_status"] ["get_logindex_status"] analyze_logindex_status.
Proof. unfold analyze_logindex_status. finds_in_block. Qed.

Lemma finds_pfs_usage : finds [] [] analyze_pfs_usage.
Proof. unfold analyze_pfs_usage. finds_in_block. Qed.

Lemma finds_connection_usage :
  finds ["get_connection_usage"] ["get_connection_usage"] analyze_connection_usage.
Proof.
  unfold analyze_connection_usage. finds_in_block.
  all: apply finds_pure_bind;
    [ intros s q s'; unfold lift, mret, M_ret;
      repeat case_match; congruence
    | intros usage_pct; repeat finds_step ].
Qed.

Lemma finds_cache_hit_rate : finds [] ["get_cache_hit_rate"] analyze_cache_hit_rate.
Proof. unfold analyze_cache_hit_rate. finds_in_block. Qed.

Lemma finds_long_running_queries :
  finds [] ["get_long_running_queries"] analyze_long_running_queries.
Proof. unfold analyze_long_running_queries. finds_in_block. Qed.

Lemma finds_replication_status :
  finds ["get_replication_status"] ["get_replication_status"] analyze_replication_status.
Proof. unfold analyze_replication_status. finds_in_block. Qed.

Lemma finds_wal_archiver_status :
  finds ["get_wal_archiver_status"] [] analyze_wal_archiver_status.
Proof. unfold analyze_wal_archiver_status. finds_in_block. Qed.

Lemma finds_seq critical1 elevated1 critical2 elevated2 (m1 m2 : M unit) :
  (forall name, name ∈ critical1 ++ elevated1 -> name ∉ critical2 ++ elevated2) ->
  finds critical1 elevated1 m1 -> finds critical2 elevated2 m2 ->
  finds (critical1 ++ critical2) (elevated1 ++ elevated2) (m1 ;; m2).
Proof.
  intros Hdisjoint H1 H2 self self'. unfold mbind, M_bind.
  destruct (m1 self) as [[[] self1]|] eqn:E1; [|done]. intros E2.
  apply H1 in E1 as (Hs1 & Hr1 & i1 & w1 & Hi1 & Hw1 & Hc1 & Hg1 & Hnd1).
  apply H2 in E2 as (Hs2 & Hr2 & i2 & w2 & Hi2 & Hw2 & Hc2 & Hg2 & Hnd2).
  split; [congruence|]. split; [congruence|].
  exists (i1 ++ i2), (w1 ++ w2).
  split; [by rewrite Hi2, Hi1, app_assoc|].
  split; [by rewrite Hw2, Hw1, app_assoc|].
  split.
  { apply Forall_app. split; (eapply Forall_impl; [eassumption|]);
      intros f [? ?]; (split; [done|]); apply elem_of_app; auto. }
  split.
  { apply Forall_app. split; (eapply Forall_impl; [eassumption|]);
      intros f [? ?]; (split; [done|]); apply elem_of_app; auto. }
  assert (Hperm : map check ((i1 ++ i2) ++ w1 ++ w2)
                  ≡ₚ map check (i1 ++ w1) ++ map check (i2 ++ w2)).
  { rewrite !map_app. rewrite <- !app_assoc. f_equiv.
    rewrite !app_assoc. f_equiv. apply Permutation_app_comm. }
  rewrite Hperm. apply NoDup_app. split; [done|]. split; [|done].
  intros name Hname1 Hname2. apply (Hdisjoint name).
  - rewrite map_app in Hname1. apply elem_of_app.
    apply elem_of_app in Hname1 as [Hn|Hn];
      apply list_elem_of_fmap in Hn as (f & -> & Hf); [left|right].
    + rewrite Forall_forall in Hc1. by apply Hc1.
    + rewrite Forall_forall in Hg1. by apply Hg1.
  - rewrite map_app in Hname2. apply elem_of_app.
    apply elem_of_app in Hname2 as [Hn|Hn];
      apply list_elem_of_fmap in Hn as (f & -> & Hf); [left|right].
    + rewrite Forall_forall in Hc2. by apply Hc2.
    + rewrite Forall_forall in Hg2. by apply Hg2.
Qed.

Lemma finds_after_node_type :
  finds [ "get_logindex_status"; "get_connection_usage"; "get_replication_status";
          "get_wal_archiver_status" ]
        [ "get_logindex_status"; "get_connection_usage"; "get_cache_hit_rate";
          "get_long_running_queries"; "get_replication_status" ]
        (analyze_logindex_status;; analyze_pfs_usage;;
         analyze_connection_usage;; analyze_cache_hit_rate;;
         analyze_long_running_queries;; analyze_replication_status;;
         analyze_wal_archiver_status).
Proof.
  change (finds ([ "get_logindex_status" ] ++ [] ++ [ "get_connection_usage" ]
                 ++ [] ++ [] ++ [ "get_replication_status" ]
                 ++ [ "get_wal_archiver_status" ])
            ([ "get_logindex_status" ] ++ [] ++ [ "get_connection_usage" ]
             ++ [ "get_cache_hit_rate" ] ++ [ "get_long_running_queries" ]
             ++ [ "get_replication_status" ] ++ [])
            (analyze_logindex_status;; analyze_pfs_usage;;
             analyze_connection_usage;; analyze_cache_hit_rate;;
             analyze_long_running_queries;; analyze_replication_status;;
             analyze_wal_archiver_status)).
  repeat (apply finds_seq;
          [ intros name Hname; apply (bool_decide_unpack _);
            simpl in Hname; rewrite ?elem_of_cons in Hname;
            repeat (destruct Hname as [->|Hname]); try (by vm_compute);
            by apply elem_of_nil in Hname | |]);
    auto using finds_logindex_status, finds_pfs_usage, finds_connection_usage,
      finds_cache_hit_rate, finds_long_running_queries, finds_replication_status,
      finds_wal_archiver_status.
Qed.

Lemma node_type_block self self1 :
  analyze_polar_node_type self = Returned (tt, self1) ->
  check_script self1 = check_script self
  /\ issues self1 = issues self /\ warnings self1 = warnings self
  /\ (results self1 = results self
      \/ exists node_info,
           results self1 = dict_set "node_info" node_info (results self)).
Proof.
  unfold analyze_polar_node_type, when_present.
  destruct (dict_lookup _ _); [|intros [= <-]; by auto].
  unfold mbind, M_bind, lift. destruct (first_row _) as [[node_info|]|]; [..|done].
  - intros [= <-]. simpl. repeat split; try done. right. by exists node_info.
  - intros [= <-]. by auto.
Qed.

Lemma analysis_results self self' :
  analyze_results self = Returned (tt, self') ->
  results self' = results self
  \/ exists node_info, results self' = dict_set "node_info" node_info (results self).
Proof.
  unfold analyze_results. unfold mbind at 1, M_bind at 1.
  destruct (analyze_polar_node_type self) as [[[] self1]|] eqn:E1; [|done].
  intros E2. apply finds_after_node_type in E2 as (_ & Hr & _).
  apply node_type_block in E1 as (_ & _ & _ & Hr1). by rewrite Hr.
Qed.

(** X13.  [analyze_results] keeps the script and records at most one finding
    for a check: an issue, of type critical, for the LogIndex lag, the
    connection usage, the replication lag and the WAL archiver only; a
    warning, of type warning, for the LogIndex lag, the connection usage,
    the cache hit rate, the long-running queries and the replication lag
    only.  In the results it changes nothing but the entry [node_info]. *)
Theorem findings_of_the_analysis self self' :
  analyze_results self = Returned (tt, self') ->
  check_script self' = check_script self
  /\ (results self' = results self
      \/ exists node_info,
           results self' = dict_set "node_info" node_info (results self))
  /\ exists new_issues new_warnings,
       issues self' = issues self ++ new_issues
       /\ warnings self' = warnings self ++ new_warnings
       /\ Forall (fun f => type f = "critical"
                           /\ check f ∈ [ "get_logindex_status"; "get_connection_usage";
                                          "get_replication_status";
                                          "get_wal_archiver_status" ]) new_issues
       /\ Forall (fun f => type f = "warning"
                           /\ check f ∈ [ "get_logindex_status"; "get_connection_usage";
                                          "get_cache_hit_rate";
                                          "get_long_running_queries";
                                          "get_replication_status" ]) new_warnings
       /\ NoDup (map check (new_issues ++ new_warnings)).
Proof.
  intros Hrun. split; [|split; [by apply analysis_results|]]; revert Hrun;
    unfold analyze_results; unfold mbind at 1, M_bind at 1;
    destruct (analyze_polar_node_type self) as [[[] self1]|] eqn:E1; try done;
    intros E2;
    apply finds_after_node_type in E2 as (Hs & Hr & i & w & Hi & Hw & Hc & Hg & Hnd);
    apply node_type_block in E1 as (Hs1 & Hi1 & Hw1 & Hr1).
  - congruence.
  - exists i, w. rewrite Hi, Hw, Hi1, Hw1. by repeat split.
Qed.

End PolarAnalysis.

Lemma dict_lookup_set_other k k' v d :
  k <> k' -> dict_lookup k (dict_set k' v d) = dict_lookup k d.
Proof.
  intros Hne. induction d as [|[k0 v0] d IH]; simpl.
  - by destruct (String.eqb_spec k k').
  - destruct (String.eqb_spec k' k0) as [->|Hk0]; simpl.
    + by destruct (String.eqb_spec k k0).
    + destruct (String.eqb_spec k k0); [done | apply IH].
Qed.

Section Blind.
Import PolarDB Checks.
Context {lib : PyLib}.

Lemma blind_ret {A} (a : A) : blind (mret a).
Proof. intros self1 self2 H. simpl. by split. Qed.

Lemma blind_lift {A} (m : outcome A) : blind (lift m).
Proof. intros self1 self2 H. unfold lift. destruct m; simpl; by auto. Qed.

Lemma blind_bind {A B} (m : M A) (f : A -> M B) :
  blind m -> (forall a, blind (f a)) -> blind (m ≫= f).
Proof.
  intros Hm Hf self1 self2 H. unfold mbind, M_bind.
  specialize (Hm _ _ H). unfold same_end in Hm.
  destruct (m self1) as [[a1 s1]|], (m self2) as [[a2 s2]|]; try done.
  destruct Hm as [<- Hm]. by apply Hf.
Qed.

Lemma blind_issue f : blind (issues_append f).
Proof.
  intros self1 self2 (Hr & Hi & Hw). simpl. split; [done|].
  split; [done|]. simpl. by rewrite Hi.
Qed.

Lemma blind_warning f : blind (warnings_append f).
Proof.
  intros self1 self2 (Hr & Hi & Hw). simpl. split; [done|].
  split; [done|]. simpl. by rewrite Hw.
Qed.

Lemma blind_node_info v : blind (set_result "node_info" v).
Proof.
  intros self1 self2 (Hr & Hi & Hw). simpl. split; [done|].
  split; [|done]. simpl. intros name Hname.
  assert (name <> "node_info").
  { intros ->. revert Hname. apply (bool_decide_unpack _). by vm_compute. }
  rewrite !dict_lookup_set_other by done. by apply Hr.
Qed.

Lemma blind_block name (body : pyval -> M unit) :
  name ∈ analysed -> (forall data, blind (body data)) -> blind (when_present name body).
Proof.
  intros Hname Hbody self1 self2 H. unfold when_present.
  destruct H as (Hr & Hi & Hw). rewrite <- (Hr name Hname).
  destruct (dict_lookup name (results self1)); [by apply Hbody|].
  simpl. by split.
Qed.

Ltac blind_step :=
  first
    [ apply blind_ret
    | apply blind_lift
    | apply blind_issue
    | apply blind_warning
    | apply blind_node_info
    | apply blind_bind; [|intros ?]
    | match goal with
      | |- blind (match ?x with _ => _ end) => destruct x
      end ].

Ltac blind_block :=
  apply blind_block;
  [ apply (bool_decide_unpack _); by vm_compute | intros data; repeat blind_step ].

Lemma blind_analyze_results : blind analyze_results.
Proof.
  unfold analyze_results.
  repeat (apply blind_bind; [|intros _]).
  - unfold analyze_polar_node_type. blind_block.
  - unfold analyze_logindex_status. blind_block.
  - unfold analyze_pfs_usage. blind_block.
  - unfold analyze_connection_usage. blind_block.
  - unfold analyze_cache_hit_rate. blind_block.
  - unfold analyze_long_running_queries. blind_block.
  - unfold analyze_replication_status. blind_block.
  - unfold analyze_wal_archiver_status. blind_block.
Qed.

(** X14.  Fifteen of the 23 checks are run and never analysed.  Two agents
    that agree on the results of the eight analysed checks and on the
    findings so far come out of [analyze_results] with the same findings, or
    with the same exception, whatever the other checks returned. *)
Theorem other_checks_are_not_analysed self1 self2 :
  (forall name, name ∈ Checks.analysed ->
     dict_lookup name (results self1) = dict_lookup name (results self2)) ->
  issues self1 = issues self2 ->
  warnings self1 = warnings self2 ->
  match analyze_results self1, analyze_results self2 with
  | Returned (_, self1'), Returned (_, self2') =>
      issues self1' = issues self2' /\ warnings self1' = warnings self2'
  | Raised e1, Raised e2 => e1 = e2
  | _, _ => False
  end.
Proof.
  intros Hr Hi Hw.
  assert (H : alike self1 self2) by done.
  apply blind_analyze_results in H. unfold same_end in H.
  destruct (analyze_results self1) as [[[] s1]|], (analyze_results self2) as [[[] s2]|];
    try done.
  by destruct H as (_ & _ & ? & ?).
Qed.

End Blind.

Section WholeRun.
Import PolarDB Checks.
Context {lib : PyLib} {world : World}.

Lemma fresh_run script :
  run_all_checks (__init__ script)
  = Returned (tt, {| check_script := script;
                     results := map (fun check => (check, run_check (__init__ script) check))
                                  Checks.all_checks;
                     issues := [];
                     warnings := [] |}).
Proof.
  rewrite run_all_checks_spec. cbn [check_script results issues warnings __init__].
  by rewrite results_of_a_fresh_run.
Qed.

Lemma dict_set_keeps k v k' v' d :
  k <> k' -> (k, v) ∈ d -> (k, v) ∈ dict_set k' v' d.
Proof.
  intros Hne. induction d as [|[k0 v0] d IH]; [by intros ?%elem_of_nil|].
  intros [[= -> ->]|Hin]%elem_of_cons; simpl.
  - destruct (String.eqb_spec k' k0) as [->|_]; [done | left].
  - destruct (String.eqb_spec k' k0) as [->|_]; right; auto.
Qed.

Lemma not_a_check name : name ∈ all_checks -> name <> "node_info".
Proof.
  intros Hin ->. revert Hin. apply (bool_decide_unpack _). by vm_compute.
Qed.

Lemma detailed_results_raise name v items :
  (name, v) ∈ items -> (forall d, v <> PDict d) ->
  exists e, detailed_results items = Raised e.
Proof.
  intros Hin Hv. induction items as [|[k r] items IH]; [by apply elem_of_nil in Hin|].
  simpl. unfold mbind, outcome_bind.
  apply elem_of_cons in Hin as [[= <- <-]|Hin].
  - unfold detailed_result, mbind, outcome_bind.
    destruct v; try (by eexists). by destruct (Hv d).
  - destruct (detailed_result k r); [|by eexists].
    destruct (IH Hin) as [e ->]. by eexists.
Qed.

Lemma generate_report_raises self name v :
  (name, v) ∈ results self -> (forall d, v <> PDict d) ->
  exists e, generate_report self = Raised e.
Proof.
  intros Hin Hv. unfold generate_report, mbind, outcome_bind.
  destruct (node_information self); [|by eexists].
  destruct (logindex_status self); [|by eexists].
  destruct (storage_usage self); [|by eexists].
  destruct (mpp_htap_status self); [|by eexists].
  destruct (detailed_results_raise _ _ _ Hin Hv) as [e ->]. by eexists.
Qed.

(** X15.  One check that prints JSON which is not an object ends the run
    without a report: [run_check] returns the list, number, string or null as
    it is, and the analysis or the report calls [get] on it.  The exit code
    is 1, whatever the other checks found. *)
Theorem output_that_is_no_object_aborts_the_run script name v :
  name ∈ Checks.all_checks ->
  run_check (__init__ script) name = v ->
  (forall d, v <> PDict d) ->
  (exists e, run (__init__ script) = Raised e) /\ main script = 1.
Proof.
  intros Hname Hv Hnot.
  assert (Hrun : exists e, run (__init__ script) = Raised e).
  { unfold run. unfold mbind at 1, M_bind at 1. rewrite fresh_run.
    match goal with |- context [analyze_results ≫= _] =>
      match goal with |- context [?f ?s] =>
        match type of s with PolarDBCheckAgent => set (self0 := s) end end end.
    assert (Hin0 : (name, v) ∈ results self0).
    { unfold self0. cbn [results]. apply list_elem_of_In. rewrite <- Hv.
      apply (in_map (fun check => (check, run_check (__init__ script) check))).
      by apply list_elem_of_In. }
    unfold mbind at 1, M_bind at 1.
    destruct (analyze_results self0) as [[[] self1]|] eqn:Ean; [|by eexists].
    assert (Hin1 : (name, v) ∈ results self1).
    { destruct (analysis_results _ _ Ean) as [->|[node_info ->]]; [done|].
      apply dict_set_keeps; [by apply not_a_check | done]. }
    unfold mbind at 1, M_bind at 1, report_text, lift.
    destruct (generate_report_raises _ _ _ Hin1 Hnot) as [e ->]. by eexists. }
  split; [done|]. destruct Hrun as [e He]. unfold main. by rewrite He.
Qed.

(** X16.  The report counts the node information as a check.  When the
    node type check succeeds with a row, the analysis stores that row under
    [node_info] after the 23 results, and the summary of the report reads 24
    checks performed. *)
Theorem node_info_is_counted_as_a_check script d row rows self' :
  run_check (__init__ script) "get_polar_node_type" = PDict d ->
  dict_lookup "status" d = Some (PStr "success") ->
  dict_lookup "data" d = Some (PList (row :: rows)) ->
  (run_all_checks;; analyze_results) (__init__ script) = Returned (tt, self') ->
  results self'
  = map (fun check => (check, run_check (__init__ script) check)) Checks.all_checks
    ++ [("node_info", row)]
  /\ forall text,
       generate_report self' = Returned text ->
       exists before after,
         text = join_lines (before ++ "- Checks Performed: 24" :: after).
Proof.
  intros Hnode Hst Hd. unfold mbind at 1, M_bind at 1. rewrite fresh_run.
  match goal with |- context [analyze_results ?s] => set (self0 := s) end.
  unfold analyze_results. unfold mbind at 1, M_bind at 1.
  assert (Hblock : analyze_polar_node_type self0
                   = set_result "node_info" row self0).
  { unfold analyze_polar_node_type, when_present.
    change (dict_lookup "get_polar_node_type" (results self0))
      with (Some (run_check (__init__ script) "get_polar_node_type")).
    rewrite Hnode. unfold first_row. rewrite !get_dict, Hst. simpl.
    unfold getitem. rewrite Hd. simpl. reflexivity. }
  rewrite Hblock. unfold set_result at 1. intros Hrest.
  apply finds_after_node_type in Hrest as (_ & Hr & _). simpl in Hr.
  assert (Hres : results self'
                 = map (fun check => (check, run_check (__init__ script) check))
                     Checks.all_checks ++ [("node_info", row)]).
  { rewrite Hr. reflexivity. }
  split; [done|]. intros text. unfold generate_report, mbind, outcome_bind.
  destruct (node_information self'); [|done].
  destruct (logindex_status self'); [|done].
  destruct (storage_usage self'); [|done].
  destruct (mpp_htap_status self'); [|done].
  destruct (detailed_results (results self')); [|done].
  intros Htext. apply Returned_inj in Htext. subst text.
  rewrite Hres, length_app, length_map.
  change (length Checks.all_checks + length [("node_info", row)])%nat with 24%nat.
  replace (pretty 24%nat) with "24" by (vm_compute; reflexivity).
  eexists [_; _; _; _; _; _; _; _; _], _.
  apply (f_equal join_lines). cbn [app]. reflexivity.
Qed.

End WholeRun.

Lemma findings_of_the_analysis_witness :
  exists self',
    PolarDB.analyze_results (lib := Demo.lib [])
      (Examples.agent_with "get_connection_usage" Demo.usage_96) = Returned (tt, self')
    /\ exists new_issues new_warnings,
         PolarDB.issues self' = [] ++ new_issues
         /\ PolarDB.warnings self' = [] ++ new_warnings
         /\ NoDup (map PolarDB.check (new_issues ++ new_warnings)).
Proof.
  eassert (Hrun : PolarDB.analyze_results (lib := Demo.lib [])
                    (Examples.agent_with "get_connection_usage" Demo.usage_96)
                  = Returned (tt, _)) by (vm_compute; reflexivity).
  eexists. split; [exact Hrun|].
  destruct (findings_of_the_analysis _ _ Hrun)
    as (_ & _ & new_issues & new_warnings & Hi & Hw & _ & _ & Hnd).
  exists new_issues, new_warnings. split; [exact Hi|]. split; [exact Hw | exact Hnd].
Defined.

Lemma other_checks_are_not_analysed_witness :
  match PolarDB.analyze_results (lib := Demo.lib [])
          (Examples.agent_with "get_px_nodes"
             (PDict [("skill", PStr "get_px_nodes"); ("status", PStr "error")])),
        PolarDB.analyze_results (lib := Demo.lib [])
          (Examples.agent_with "get_px_nodes" (Demo.success "get_px_nodes" []))
  with
  | Returned (_, self1'), Returned (_, self2') =>
      PolarDB.issues self1' = PolarDB.issues self2'
      /\ PolarDB.warnings self1' = PolarDB.warnings self2'
  | Raised e1, Raised e2 => e1 = e2
  | _, _ => False
  end.
Proof.
  apply (other_checks_are_not_analysed (lib := Demo.lib [])).
  - intros name Hname. unfold Checks.analysed in Hname.
    repeat (apply elem_of_cons in Hname as [->|Hname]); try reflexivity.
    by apply elem_of_nil in Hname.
  - reflexivity.
  - reflexivity.
Defined.

Lemma output_that_is_no_object_aborts_the_run_witness :
  (exists e, PolarDB.run (lib := Demo.lib_with_empty_list)
               (world := Demo.world_of_empty_lists)
               (PolarDB.__init__ "run_polardb_check.sh") = Raised e)
  /\ PolarDB.main (lib := Demo.lib_with_empty_list)
       (world := Demo.world_of_empty_lists) "run_polardb_check.sh" = 1.
Proof.
  apply (output_that_is_no_object_aborts_the_run (lib := Demo.lib_with_empty_list)
           (world := Demo.world_of_empty_lists)
           "run_polardb_check.sh" "get_px_nodes" (PList [])).
  - apply (bool_decide_unpack _). by vm_compute.
  - reflexivity.
  - discriminate.
Defined.

Lemma node_info_is_counted_as_a_check_witness :
  exists self',
    (PolarDB.run_all_checks (lib := Examples.lib_with_node_type)
       (world := Examples.world_with_node_type);;
     PolarDB.analyze_results (lib := Examples.lib_with_node_type))
      (PolarDB.__init__ "run_polardb_check.sh") = Returned (tt, self')
    /\ forall text,
         PolarDB.generate_report (lib := Examples.lib_with_node_type) self'
         = Returned text ->
         exists before after,
           text = join_lines (before ++ "- Checks Performed: 24" :: after).
Proof.
  eassert (Hrun : (PolarDB.run_all_checks (lib := Examples.lib_with_node_type)
                     (world := Examples.world_with_node_type);;
                   PolarDB.analyze_results (lib := Examples.lib_with_node_type))
                    (PolarDB.__init__ "run_polardb_check.sh") = Returned (tt, _))
    by (vm_compute; reflexivity).
  eexists. split; [exact Hrun|].
  refine (proj2 (node_info_is_counted_as_a_check (lib := Examples.lib_with_node_type)
                   (world := Examples.world_with_node_type)
                   "run_polardb_check.sh"
                   [ ("skill", PStr "get_polar_node_type"); ("status", PStr "success");
                     ("data", PList [PDict [("node_type", PStr "primary");
                                            ("polar_version", PStr "2.0")]]) ]
                   (PDict [("node_type", PStr "primary"); ("polar_version", PStr "2.0")])
                   [] _ _ _ _ Hrun)); reflexivity.
Defined.

(** ** Output that is no object, and rows after the first *)

Section AbortedRun.
Import Postgres Frame.
Context {lib : PyLib} {world : World} {rest : RestOfChain}.

Lemma analysis_of_no_object v self :
  (forall d, v <> PDict d) ->
  _analyze_and_report (rest := Chain.chain rest) v self = Raised AttributeError.
Proof.
  intros Hv. unfold _analyze_and_report, mbind, M_bind, lift.
  destruct v; try reflexivity. by destruct (Hv d).
Qed.

Lemma run_list_raises skill skills : forall self,
  polite rest ->
  skill ∈ skills ->
  (forall d, _run_skill self skill <> PDict d) ->
  exists e, run_list (rest := Chain.chain rest) skills self = Raised e.
Proof.
  induction skills as [|head skills IH]; intros self Hrest Hin Hv.
  - by apply elem_of_nil in Hin.
  - simpl. unfold mbind at 1, M_bind at 1.
    destruct (run_one head self) as [[[] self1]|] eqn:Hone; [|by eexists].
    apply elem_of_cons in Hin as [->|Hin].
    + exfalso. revert Hone.
      unfold run_one, call_run_skill, store_raw, mbind, M_bind.
      by rewrite analysis_of_no_object.
    + apply (run_one_spec _ _ _ Hrest) in Hone as (Hs1 & _).
      apply IH; [done | done |]. intros d.
      rewrite (run_skill_script self1 self) by done. apply Hv.
Qed.

End AbortedRun.

Section WholeAbortedRun.
Import Postgres Frame.
Context {lib : PyLib} {ops : Others.PyOps} {world : World} {rest : RestOfChain}.

(** X17.  One check that prints JSON which is not an object ends the run of
    the postgres agent without a report: [_run_skill] returns the list,
    number, string or null as it is, and [_analyze_and_report] calls [get]
    on it; nothing catches the exception, and the exit code is 1. *)
Theorem checks_abort_on_output_that_is_no_object script skill :
  skill ∈ checklist ->
  (forall d, _run_skill (__init__ script) skill <> PDict d) ->
  (exists e, Whole.run_checks (__init__ script) = Raised e)
  /\ Whole.main script = 1.
Proof.
  intros Hin Hv.
  assert (Hrun : exists e, Whole.run_checks (__init__ script) = Raised e).
  { unfold Whole.run_checks, run_checks, mbind, M_bind.
    destruct (run_list_raises (rest := Others.rest_of_chain) skill checklist
                (__init__ script) polite_rest_of_chain Hin Hv) as [e He].
    unfold Whole.whole_chain. rewrite He. by eexists. }
  split; [done|]. destruct Hrun as [e He]. unfold Whole.main, main.
  unfold Whole.run_checks in He. by rewrite He.
Qed.

(** X18.  Five checks of the postgres agent look at the first row only: the
    connection usage, the cache hit rate, the WAL archiver, the background
    writer and the deadlocks.  Whatever rows follow the first, a second
    database with a low hit rate for one, the analysis does what it does
    for the first row alone. *)
Theorem only_the_first_row_is_read skill row others self :
  skill ∈ [ "get_connection_usage"; "get_cache_hit_rate"; "get_wal_archiver_status";
            "get_bgwriter_stats"; "get_deadlock_detection" ] ->
  Chain.analyze
    (PDict [("skill", PStr skill); ("status", PStr "success");
            ("data", PList (row :: others))]) self
  = Chain.analyze
      (PDict [("skill", PStr skill); ("status", PStr "success");
              ("data", PList [row])]) self.
Proof.
  intros Hin. unfold Chain.analyze, _analyze_and_report.
  rewrite !get_dict. cbn [dict_lookup String.eqb Ascii.eqb Bool.eqb from_option id].
  rewrite !bind_lift_returned.
  repeat (apply elem_of_cons in Hin as [->|Hin]);
    [..| destruct (proj1 (elem_of_nil _) Hin)].
  all: cbn [eq_str negb String.eqb Ascii.eqb Bool.eqb orb];
       cbn [remaining_branches Chain.chain]; unfold Chain.more_branches;
       cbn [eq_str negb String.eqb Ascii.eqb Bool.eqb orb].
  all: unfold branch_get_connection_usage, Chain.branch_get_cache_hit_rate,
         Chain.branch_get_wal_archiver_status, Chain.branch_get_bgwriter_stats,
         Chain.branch_get_deadlock_detection.
  all: cbn [truthy getitem0]; reflexivity.
Qed.

End WholeAbortedRun.

Lemma checks_abort_on_output_that_is_no_object_witness :
  (exists e, Whole.run_checks (lib := Demo.lib_with_empty_list)
               (ops := Examples.plain_ops) (world := Demo.world_of_empty_lists)
               (Postgres.__init__ "run_postgres_check.sh") = Raised e)
  /\ Whole.main (lib := Demo.lib_with_empty_list) (ops := Examples.plain_ops)
       (world := Demo.world_of_empty_lists) "run_postgres_check.sh" = 1.
Proof.
  apply (checks_abort_on_output_that_is_no_object (lib := Demo.lib_with_empty_list)
           (ops := Examples.plain_ops) (world := Demo.world_of_empty_lists)
           "run_postgres_check.sh" "get_wait_events").
  - apply (bool_decide_unpack _). by vm_compute.
  - intros d. vm_compute. discriminate.
Defined.

Lemma only_the_first_row_is_read_witness :
  Chain.analyze (lib := Demo.lib []) (rest := Demo.silent)
    (PDict [("skill", PStr "get_cache_hit_rate"); ("status", PStr "success");
            ("data", PList [ PDict [("datname", PStr "postgres");
                                    ("hit_rate_percentage", PInt 100)];
                             PDict [("datname", PStr "shop");
                                    ("hit_rate_percentage", PInt 50)] ])])
    (Postgres.__init__ "run_postgres_check.sh")
  = Chain.analyze (lib := Demo.lib []) (rest := Demo.silent)
      (PDict [("skill", PStr "get_cache_hit_rate"); ("status", PStr "success");
              ("data", PList [ PDict [("datname", PStr "postgres");
                                      ("hit_rate_percentage", PInt 100)] ])])
      (Postgres.__init__ "run_postgres_check.sh").
Proof.
  apply (only_the_first_row_is_read (lib := Demo.lib []) (rest := Demo.silent)).
  apply (bool_decide_unpack _). by vm_compute.
Defined.

(** ** A result under a name the chain does not know *)

Section UnknownSkill.
Import Postgres.
Context {lib : PyLib} {ops : Others.PyOps}.

Lemma not_that_skill skill name :
  (forall name, name ∈ checklist -> skill <> PStr name) ->
  name ∈ checklist -> eq_str skill name = false.
Proof.
  intros Hnone Hin. destruct skill as [| | | |s| |]; try reflexivity.
  simpl. destruct (String.eqb_spec s name) as [->|]; [|done].
  by destruct (Hnone name Hin).
Qed.

(** X19.  The chain has no [else]: a successful result is analysed under the
    name in its own [skill] field, and when that is none of the 45 names
    (or the field is absent) the analysis returns without a line and without
    a change, whatever the rows say. *)
Theorem result_of_an_unknown_skill_is_dropped result skill self :
  get result "skill" (PStr "unknown_skill") = Returned skill ->
  get result "status" (PStr "fail") = Returned (PStr "success") ->
  (forall name, name ∈ checklist -> skill <> PStr name) ->
  Whole._analyze_and_report result self = Returned (tt, self).
Proof.
  intros Hskill Hstatus Hnone.
  destruct result as [| | | | | |d]; try discriminate.
  unfold Whole._analyze_and_report, Whole.whole_chain, _analyze_and_report.
  rewrite Hskill, Hstatus, !get_dict, !bind_lift_returned.
  cbn [eq_str String.eqb Ascii.eqb Bool.eqb negb].
  rewrite !(not_that_skill skill) by
    (first [ exact Hnone | apply (bool_decide_unpack _); by vm_compute ]).
  cbn [orb remaining_branches Chain.chain]. unfold Chain.more_branches.
  rewrite !(not_that_skill skill) by
    (first [ exact Hnone | apply (bool_decide_unpack _); by vm_compute ]).
  cbn [orb remaining_branches Others.rest_of_chain]. unfold Others.last_branches.
  rewrite !(not_that_skill skill) by
    (first [ exact Hnone | apply (bool_decide_unpack _); by vm_compute ]).
  reflexivity.
Qed.

End UnknownSkill.

Lemma result_of_an_unknown_skill_is_dropped_witness :
  Whole._analyze_and_report (lib := Demo.lib []) (ops := Examples.plain_ops)
    (PDict [("status", PStr "success");
            ("data", PList [PDict [("waiting_pid", PInt 7); ("blocking_pid", PInt 9)]])])
    (Postgres.__init__ "run_postgres_check.sh")
  = Returned (tt, Postgres.__init__ "run_postgres_check.sh").
Proof.
  apply (result_of_an_unknown_skill_is_dropped (lib := Demo.lib [])
           (ops := Examples.plain_ops) _ (PStr "unknown_skill")).
  - reflexivity.
  - reflexivity.
  - intros name Hin [= <-]. revert Hin. apply (bool_decide_unpack _). by vm_compute.
Defined.

(** ** The freeze-prediction block *)

Section FreezeHeader.
Import Postgres.
Context {lib : PyLib} {ops : Others.PyOps}.

Lemma freeze_item_ok item :
  Freeze.row_ok item = true ->
  exists line, forall flags self,
    exists flags',
      Others.freeze_item flags item self
      = Returned (flags', with_report (report self ++ [line]) self)
      /\ fst flags' = fst flags || Freeze.overdue item.
Proof.
  unfold Freeze.row_ok, Freeze.overdue.
  destruct item as [| | | | | |d]; try discriminate.
  destruct (getitem (PDict d) "freeze_status") as [[| | | |status| |]|] eqn:Es;
    try discriminate.
  destruct (getitem (PDict d) "schemaname") as [schemaname|] eqn:E1; [|discriminate].
  destruct (getitem (PDict d) "table_name") as [table_name|] eqn:E2; [|discriminate].
  destruct (getitem (PDict d) "total_size") as [total_size|] eqn:E3; [|discriminate].
  destruct (getitem (PDict d) "xid_remain_ages" ≫= Others.format_spec ",")
    as [xid_remain|] eqn:E4; [|discriminate].
  intros _. eexists. intros flags self. unfold Others.freeze_item.
  rewrite Es, E1, E2, E3, E4, get_dict, !bind_lift_returned.
  cbn [eq_str Others.endswith].
  destruct (String.eqb status "CRITICAL") eqn:Ec.
  - rewrite bind_lift_returned. rewrite !bind_lift_returned, bind_append.
    eexists. split; [reflexivity|]. cbn [fst orb]. by rewrite orb_true_r.
  - rewrite bind_lift_returned. rewrite !bind_lift_returned, bind_append.
    eexists. split; [reflexivity|]. cbn [orb].
    destruct (String.prefix _ _); cbn [fst].
    + by rewrite orb_true_r.
    + rewrite orb_false_r. by destruct (String.eqb status "WARNING").
Qed.

Lemma freeze_loop rows :
  forallb Freeze.row_ok rows = true ->
  exists lines, length lines = length rows /\ forall flags self,
    exists flags',
      for_each rows Others.freeze_item flags self
      = Returned (flags', with_report (report self ++ lines) self)
      /\ fst flags' = fst flags || existsb Freeze.overdue rows.
Proof.
  induction rows as [|item rows IH]; simpl.
  - intros _. exists []. split; [done|]. intros flags [e r s w]. exists flags.
    by rewrite orb_false_r; unfold with_report; simpl; rewrite app_nil_r.
  - intros [Hi Hr]%andb_prop. destruct (freeze_item_ok _ Hi) as [line Hline].
    destruct (IH Hr) as (lines & Hlen & Hloop).
    exists (line :: lines). split; [simpl; lia|]. intros flags self.
    destruct (Hline flags self) as (flags1 & Hitem & Hfst).
    unfold mbind at 1, M_bind. rewrite Hitem.
    destruct (Hloop flags1 (with_report (report self ++ [line]) self))
      as (flags' & Hrest & Hfst').
    exists flags'. rewrite Hrest. simpl.
    by rewrite Hfst', Hfst, orb_assoc, <- app_assoc.
Qed.

(** X20.  The freeze-prediction block does not finalize its header either.
    For [get_freeze_prediction] with status success and rows the loop can
    print, one of them [CRITICAL] or overdue, the analysis returns with the
    overall status at ERROR; the line written as the block's header is still
    the INFO header, and the ERROR header has replaced the line after it, the
    column titles of the table. *)
Theorem freeze_header_left_as_info d rows self :
  dict_lookup "skill" d = Some (PStr "get_freeze_prediction") ->
  dict_lookup "status" d = Some (PStr "success") ->
  dict_lookup "data" d = Some (PList rows) ->
  forallb Freeze.row_ok rows = true ->
  existsb Freeze.overdue rows = true ->
  exists self' lines,
    Whole._analyze_and_report (PDict d) self = Returned (tt, self')
    /\ report_status self' = "❌ ERROR"
    /\ length lines = length rows
    /\ report self'
       = report self
         ++ "### 🟡 INFO: Freeze Storm Prediction (XID/MXID Wraparound)"
         :: "### ❌ ERROR: Critical Freeze Storm Risk Detected!"
         :: "|---|---|---|---|---|---|" :: lines.
Proof.
  intros Hs Hst Hd Hok Hoff.
  destruct (freeze_loop rows Hok) as (lines & Hlen & Hloop).
  assert (Hne : truthy (PList rows) = true)
    by (destruct rows; [discriminate|done]).
  eexists _, lines.
  unfold Whole._analyze_and_report, Whole.whole_chain, _analyze_and_report.
  rewrite !get_dict, Hs, Hst, Hd.
  rewrite !bind_lift_returned. cbn [from_option id].
  cbn [eq_str negb String.eqb Ascii.eqb Bool.eqb orb].
  cbn [remaining_branches Chain.chain]. unfold Chain.more_branches.
  cbn [eq_str negb String.eqb Ascii.eqb Bool.eqb orb].
  cbn [remaining_branches Others.rest_of_chain]. unfold Others.last_branches.
  cbn [eq_str negb String.eqb Ascii.eqb Bool.eqb orb].
  unfold Others.branch_get_freeze_prediction.
  rewrite bind_append, Hne, !bind_append. simpl iter. rewrite bind_lift_returned.
  unfold mbind at 1, M_bind at 1.
  match goal with |- context [for_each rows Others.freeze_item ?f ?s] =>
    destruct (Hloop f s) as (flags' & -> & Hfst) end.
  rewrite Hfst, Hoff. cbn [fst orb]. cbv iota beta.
  rewrite bind_report_len. simpl len. rewrite bind_lift_returned.
  rewrite <- Hlen.
  unfold mbind at 1, M_bind at 1.
  erewrite (rewrite_second_line self); [|simpl; reflexivity].
  split; [reflexivity|]. simpl. by split.
Qed.

End FreezeHeader.

Lemma freeze_header_left_as_info_witness :
  exists self' lines,
    Whole._analyze_and_report (lib := Demo.lib []) (ops := Examples.plain_ops)
      (Demo.success "get_freeze_prediction"
         [ PDict [("schemaname", PStr "public"); ("table_name", PStr "orders");
                  ("total_size", PStr "12 GB"); ("xid_remain_ages", PInt 1000);
                  ("freeze_status", PStr "XID_OVERDUE")] ])
      (Postgres.__init__ "run_postgres_check.sh") = Returned (tt, self')
    /\ Postgres.report_status self' = "❌ ERROR"
    /\ length lines = 1%nat
    /\ Postgres.report self'
       = "### 🟡 INFO: Freeze Storm Prediction (XID/MXID Wraparound)"
         :: "### ❌ ERROR: Critical Freeze Storm Risk Detected!"
         :: "|---|---|---|---|---|---|" :: lines.
Proof.
  apply (freeze_header_left_as_info (lib := Demo.lib []) (ops := Examples.plain_ops)
           [ ("skill", PStr "get_freeze_prediction"); ("status", PStr "success");
             ("data", PList [ PDict [("schemaname", PStr "public");
                                     ("table_name", PStr "orders");
                                     ("total_size", PStr "12 GB");
                                     ("xid_remain_ages", PInt 1000);
                                     ("freeze_status", PStr "XID_OVERDUE")] ]) ]
           [ PDict [("schemaname", PStr "public"); ("table_name", PStr "orders");
                    ("total_size", PStr "12 GB"); ("xid_remain_ages", PInt 1000);
                    ("freeze_status", PStr "XID_OVERDUE")] ]
           (Postgres.__init__ "run_postgres_check.sh")); reflexivity.
Defined.
